(** * prac: automatic runtime type checking for CPython -- a shallow embedding

    The development follows [src/prac.c]: a CPython extension module that
    replaces the interpreter's frame evaluation hook by [prac_eval_frame].
    For every evaluated frame the hook looks up (and caches, in a "code
    extra" slot of the code object) a function object that refers to the
    frame's code object, and checks the frame's locals against the
    function's [__annotations__] before it hands the frame over to
    [_PyEval_EvalFrameDefault].

    Pointers are integers ([NULL] is 0, [SENTINEL] is [(void* )1]); Python
    objects live in a heap indexed by address.  The C code is a sequence of
    commands over the interpreter state, so the embedding is a state monad
    with crashes ([assert], [abort()], undefined behaviour).  The CPython
    API the module calls is modelled next to it, each function under its C
    name; where the module tests a call for failure the model lets that
    call fail (allocation script, referrer oracle), elsewhere the API is
    taken to succeed whenever its documented preconditions hold. *)

From stdpp Require Import gmap strings list.
From Stdlib Require Import ZArith.

Local Open Scope Z_scope.

(** ** Objects *)

Definition NULL : Z := 0.
(** [#define SENTINEL ((void* )1)] *)
Definition SENTINEL : Z := 1.

(** Addresses of the statically allocated type objects used by the module. *)
Definition PyType_Type : Z := 16.
Definition PyUnicode_Type : Z := 32.
Definition PyFunction_Type : Z := 48.
Definition PyCode_Type : Z := 64.
Definition PyDict_Type : Z := 80.
Definition PyExc_TypeError : Z := 112.
Definition PyExc_ValueError : Z := 128.
Definition PyExc_SystemError : Z := 144.
Definition Py_None : Z := 160.

(** The part of an object behind its header, for the kinds of objects the
    module looks into. *)
Inductive payload : Type :=
| TypeData (tp_name : string) (tp_mro : list Z)
| UnicodeData (utf8 : string)
| FunctionData (func_code : Z) (func_annotations : Z)
| CodeData (co_varnames : list string) (co_extra : list Z)
| DictData (ma_items : list (Z * Z))
| OtherData.

(** [PyObject]: the header [ob_refcnt], [ob_type] and the payload. *)
Record object : Type := Object {
  ob_refcnt : Z;
  ob_type : Z;
  ob_data : payload
}.

(** [PyFrameObject], the two fields the module reads.  [f_localsplus]
    holds the local variables, one slot per name of [co_varnames], then
    the cells and free variables, then the value stack; a slot holding
    [NULL] is an unbound local or an empty stack slot. *)
Record frame : Type := Frame {
  f_code : Z;
  f_localsplus : list Z
}.

(** ** Interpreter state *)

(** Values of type [_PyFrameEvalFunction] and [freefunc]. *)
Inductive evalfn : Type :=
| EvalFrameDefault
| PracEvalFrame
| OtherEvalFrame (id : nat).

Inductive freefn : Type :=
| PracCodeFreefunc
| OtherFreefunc (id : nat).

#[global] Instance evalfn_eq_dec : EqDecision evalfn.
Proof. solve_decision. Defined.
#[global] Instance freefn_eq_dec : EqDecision freefn.
Proof. solve_decision. Defined.

(** [PyInterpreterState]: the frame evaluation hook and the registered code
    extra users; [co_extra_user_count] is the length of
    [co_extra_freefuncs]. *)
Record interp : Type := Interp {
  eval_frame : evalfn;
  co_extra_freefuncs : list freefn
}.

Definition MAX_CO_EXTRA_USERS : Z := 255.

(** What [import gc; gc.get_referrers] finds in the running process. *)
Inductive gc_lookup : Type :=
| GcImportFails
| GcNoAttribute
| GcNotBuiltin
| GcBuiltin.

(** The state of the process.  [this_interp] is the interpreter of the
    running thread, [other_interps] the remaining ones on the list walked
    from [PyInterpreterState_Head].  [get_referrers c] is what
    [gc.get_referrers(c)] returns now ([None]: it returns [NULL]).
    [allocs] scripts the outcome of the next allocations the module tests
    ([false]: out of memory; exhausted script: success).  [extra_idx] and
    [gc_get_referrers] are the module's two static variables.
    [resolver_calls] is a history variable: the code objects
    [get_function_for_code] was called on, most recent first. *)
Record host : Type := Host {
  heap : gmap Z object;
  this_interp : interp;
  other_interps : list interp;
  gc_module : gc_lookup;
  get_referrers : Z → option (list Z);
  allocs : list bool;
  err : option (Z * string);
  stdout : list string;
  extra_idx : Z;
  gc_get_referrers : bool;
  resolver_calls : list Z
}.

(** ** Commands *)

Inductive fault : Type :=
| AssertionFailed (line : nat)
| Aborted (out : list string)
| Undefined (why : string).

Inductive result (A : Type) : Type :=
| Ok (a : A) (h : host)
| Crash (f : fault).
Arguments Ok {A} a h.
Arguments Crash {A} f.

Definition M (A : Type) : Type := host → result A.

Definition ret {A} (a : A) : M A := fun h => Ok a h.
Definition bind {A B} (m : M A) (k : A → M B) : M B :=
  fun h => match m h with
           | Ok a h' => k a h'
           | Crash f => Crash f
           end.
Definition crash {A} (f : fault) : M A := fun _ => Crash f.
Definition get : M host := fun h => Ok h h.
Definition modify (g : host → host) : M unit := fun h => Ok tt (g h).

#[global] Instance M_ret : MRet M := @ret.
#[global] Instance M_bind : MBind M := fun A B k m => bind m k.

(** Field updates of the process state. *)
Definition set_heap (g : gmap Z object → gmap Z object) (h : host) : host :=
  Host (g (heap h)) (this_interp h) (other_interps h) (gc_module h)
       (get_referrers h) (allocs h) (err h) (stdout h) (extra_idx h)
       (gc_get_referrers h) (resolver_calls h).
Definition set_interps (i : interp) (l : list interp) (h : host) : host :=
  Host (heap h) i l (gc_module h)
       (get_referrers h) (allocs h) (err h) (stdout h) (extra_idx h)
       (gc_get_referrers h) (resolver_calls h).
Definition set_allocs (a : list bool) (h : host) : host :=
  Host (heap h) (this_interp h) (other_interps h) (gc_module h)
       (get_referrers h) a (err h) (stdout h) (extra_idx h)
       (gc_get_referrers h) (resolver_calls h).
Definition set_err (e : option (Z * string)) (h : host) : host :=
  Host (heap h) (this_interp h) (other_interps h) (gc_module h)
       (get_referrers h) (allocs h) e (stdout h) (extra_idx h)
       (gc_get_referrers h) (resolver_calls h).
Definition set_stdout (o : list string) (h : host) : host :=
  Host (heap h) (this_interp h) (other_interps h) (gc_module h)
       (get_referrers h) (allocs h) (err h) o (extra_idx h)
       (gc_get_referrers h) (resolver_calls h).
Definition set_extra_idx (i : Z) (h : host) : host :=
  Host (heap h) (this_interp h) (other_interps h) (gc_module h)
       (get_referrers h) (allocs h) (err h) (stdout h) i
       (gc_get_referrers h) (resolver_calls h).
Definition set_gc_get_referrers (b : bool) (h : host) : host :=
  Host (heap h) (this_interp h) (other_interps h) (gc_module h)
       (get_referrers h) (allocs h) (err h) (stdout h) (extra_idx h)
       b (resolver_calls h).
Definition log_resolver_call (c : Z) (h : host) : host :=
  Host (heap h) (this_interp h) (other_interps h) (gc_module h)
       (get_referrers h) (allocs h) (err h) (stdout h) (extra_idx h)
       (gc_get_referrers h) (c :: resolver_calls h).
Definition set_get_referrers (r : Z → option (list Z)) (h : host) : host :=
  Host (heap h) (this_interp h) (other_interps h) (gc_module h)
       r (allocs h) (err h) (stdout h) (extra_idx h)
       (gc_get_referrers h) (resolver_calls h).

(** ** The CPython API the module calls *)

Definition newline : string := String (Ascii.ascii_of_nat 10) "".

(** Reading the object a pointer refers to. *)
Definition deref (o : Z) : M object :=
  fun h => if bool_decide (o = NULL)
           then Crash (Undefined "null pointer dereference")
           else match heap h !! o with
                | Some x => Ok x h
                | None => Crash (Undefined "dangling pointer dereference")
                end.

Definition store (o : Z) (x : object) : M unit :=
  modify (set_heap (<[o := x]>)).

Definition Py_TYPE (o : Z) : M Z := x ← deref o; mret (ob_type x).

(** [Py_IS_TYPE(ob, type)] is [Py_TYPE(ob) == type]. *)
Definition Py_IS_TYPE (o type : Z) : M bool :=
  t ← Py_TYPE o; mret (bool_decide (t = type)).

Definition PyType_CheckExact (o : Z) : M bool := Py_IS_TYPE o PyType_Type.
Definition PyFunction_Check (o : Z) : M bool := Py_IS_TYPE o PyFunction_Type.
Definition PyUnicode_CheckExact (o : Z) : M bool := Py_IS_TYPE o PyUnicode_Type.
Definition PyCode_Check (o : Z) : M bool := Py_IS_TYPE o PyCode_Type.

(** Field reads; reading a field an object does not have is undefined. *)
Definition tp_name_of (type : Z) : M string :=
  x ← deref type;
  match ob_data x with
  | TypeData name _ => mret name
  | _ => crash (Undefined "tp_name of a non-type")
  end.

Definition func_annotations_of (func : Z) : M Z :=
  x ← deref func;
  match ob_data x with
  | FunctionData _ annotations => mret annotations
  | _ => crash (Undefined "func_annotations of a non-function")
  end.

Definition co_varnames_of (code : Z) : M (list string) :=
  x ← deref code;
  match ob_data x with
  | CodeData names _ => mret names
  | _ => crash (Undefined "co_varnames of a non-code")
  end.

Definition co_extra_of (code : Z) : M (list Z) :=
  x ← deref code;
  match ob_data x with
  | CodeData _ extras => mret extras
  | _ => crash (Undefined "co_extra of a non-code")
  end.

Definition set_co_extra (code : Z) (extras : list Z) : M unit :=
  x ← deref code;
  match ob_data x with
  | CodeData names _ =>
      store code (Object (ob_refcnt x) (ob_type x) (CodeData names extras))
  | _ => crash (Undefined "co_extra of a non-code")
  end.

(** [PyUnicode_AsUTF8]. *)
Definition PyUnicode_AsUTF8 (o : Z) : M string :=
  x ← deref o;
  match ob_data x with
  | UnicodeData s => mret s
  | _ => crash (Undefined "PyUnicode_AsUTF8 of a non-string")
  end.

(** [f->f_localsplus[i]]. *)
Definition localsplus_at (f : frame) (i : Z) : M Z :=
  match f_localsplus f !! Z.to_nat i with
  | Some v => if bool_decide (0 ≤ i)%Z then mret v
              else crash (Undefined "f_localsplus index out of bounds")
  | None => crash (Undefined "f_localsplus index out of bounds")
  end.

(** Reference counts.  An object whose count drops to zero is deallocated;
    the references it held itself are outside the model. *)
Definition Py_INCREF (o : Z) : M unit :=
  x ← deref o; store o (Object (ob_refcnt x + 1) (ob_type x) (ob_data x)).

Definition Py_DECREF (o : Z) : M unit :=
  x ← deref o;
  if bool_decide (ob_refcnt x - 1 = 0)
  then modify (set_heap (delete o))
  else store o (Object (ob_refcnt x - 1) (ob_type x) (ob_data x)).

(** The error indicator and the standard output. *)
Definition PyErr_Clear : M unit := modify (set_err None).
Definition PyErr_Format (exception : Z) (message : string) : M unit :=
  modify (set_err (Some (exception, message))).
Definition PyErr_BadInternalCall : M unit :=
  PyErr_Format PyExc_SystemError "bad argument to internal function".

Definition printf (s : string) : M unit :=
  modify (fun h => set_stdout (stdout h ++ [s]) h).
Definition abort {A} : M A := fun h => Crash (Aborted (stdout h)).

(** An allocation that may fail, as scripted in the state. *)
Definition allocate : M bool :=
  fun h => match allocs h with
           | [] => Ok true h
           | b :: rest => Ok b (set_allocs rest h)
           end.

(** [PyTuple_Pack(1, code)]: [false] stands for the [NULL] result. *)
Definition PyTuple_Pack1 (code : Z) : M bool := allocate.

(** The builtin behind [gc.get_referrers], called on the packed tuple;
    [None] stands for its [NULL] result.  What it returns otherwise is a
    list object: the assertion of line 72 holds. *)
Definition call_gc_get_referrers (code : Z) : M (option (list Z)) :=
  h ← get; mret (get_referrers h code).

(** [PyMapping_Items]: the (key, value) pairs in the order of the dict;
    [None] stands for [NULL] (not a mapping, or no memory for the list). *)
Definition PyMapping_Items (o : Z) : M (option (list (Z * Z))) :=
  x ← deref o;
  match ob_data x with
  | DictData items => ok ← allocate; mret (if ok : bool then Some items else None)
  | _ => mret None
  end.

(** [PyObject_GetIter] on that list. *)
Definition PyObject_GetIter (items : list (Z * Z)) : M (option (list (Z * Z))) :=
  ok ← allocate; mret (if ok : bool then Some items else None).

(** [PyObject_RichCompareBool(name, key, Py_EQ)] for a name of
    [co_varnames], a tuple of exact [str] objects of which the model keeps
    the text: 1 when [key] is a string of the same text, else 0. *)
Definition PyObject_RichCompareBool_EQ (name : string) (key : Z) : M Z :=
  k ← deref key;
  match ob_data k with
  | UnicodeData s => mret (if String.eqb name s then 1 else 0)
  | _ => mret 0
  end.

(** ** Code extras *)

(** [prac_code_freefunc] (lines 181-185), the release callback the module
    registers for its code extra slot.  It comes first because the
    interpreter's functions below call the registered callbacks. *)
Definition prac_code_freefunc (extra : Z) : M unit :=
  if bool_decide (extra ≠ NULL) && bool_decide (extra ≠ SENTINEL)
  then Py_DECREF extra
  else mret tt.

(** Calling a registered [freefunc]; a callback of another user of code
    extras is outside the model. *)
Definition call_freefunc (fn : freefn) (extra : Z) : M unit :=
  match fn with
  | PracCodeFreefunc => prac_code_freefunc extra
  | OtherFreefunc _ => mret tt
  end.

(** [_PyCode_GetExtra(code, index, &extra)]: the status and [*extra]. *)
Definition _PyCode_GetExtra (code index : Z) : M (Z * Z) :=
  is_code ← PyCode_Check code;
  if negb is_code then PyErr_BadInternalCall;; mret (-1, NULL)
  else if bool_decide (index < 0)
  then crash (Undefined "ce_extras index out of bounds")
  else
    extras ← co_extra_of code;
    mret (0, default NULL (extras !! Z.to_nat index)).

(** The array [ce_extras] as [_PyCode_SetExtra] finds or reallocates it:
    an array too short for [index] is extended with [NULL] to one slot per
    registered user. *)
Definition ce_extras_grown (count : nat) (index : Z) (old : list Z) : list Z :=
  if bool_decide (Z.of_nat (length old) ≤ index)
  then old ++ replicate (count - length old) NULL
  else old.

(** [_PyCode_SetExtra(code, index, extra)]: the status. *)
Definition _PyCode_SetExtra (code index extra : Z) : M Z :=
  is_code ← PyCode_Check code;
  h ← get;
  let freefuncs := co_extra_freefuncs (this_interp h) in
  if negb is_code || bool_decide (index < 0)
     || bool_decide (Z.of_nat (length freefuncs) ≤ index)
  then PyErr_BadInternalCall;; mret (-1)
  else
    old ← co_extra_of code;
    let extras := ce_extras_grown (length freefuncs) index old in
    let current := default NULL (extras !! Z.to_nat index) in
    (if bool_decide (current ≠ NULL)
     then match freefuncs !! Z.to_nat index with
          | Some fn => call_freefunc fn current
          | None => mret tt
          end
     else mret tt);;
    set_co_extra code (<[Z.to_nat index := extra]> extras);;
    mret 0.

(** [_PyEval_RequestCodeExtraIndex(free)]. *)
Definition _PyEval_RequestCodeExtraIndex (free : freefn) : M Z :=
  h ← get;
  let interp := this_interp h in
  let count := Z.of_nat (length (co_extra_freefuncs interp)) in
  if bool_decide (count = MAX_CO_EXTRA_USERS - 1) then mret (-1)
  else
    modify (set_interps
              (Interp (eval_frame interp) (co_extra_freefuncs interp ++ [free]))
              (other_interps h));;
    mret count.

(** The deallocation of a code object by the interpreter: every registered
    callback is called on its slot, then the object is freed. *)
Fixpoint free_extras (freefuncs : list freefn) (extras : list Z) : M unit :=
  match extras, freefuncs with
  | extra :: extras', fn :: freefuncs' =>
      call_freefunc fn extra;; free_extras freefuncs' extras'
  | _, _ => mret tt
  end.

Definition code_dealloc (code : Z) : M unit :=
  extras ← co_extra_of code;
  h ← get;
  free_extras (co_extra_freefuncs (this_interp h)) extras;;
  modify (set_heap (delete code)).

(** ** The module *)

Section Prac.

(** Whether the module is compiled with [NDEBUG], which removes the
    [assert]s. *)
Variable NDEBUG : bool.

(** The interpreter's own frame evaluation function. *)
Variable _PyEval_EvalFrameDefault : Z → frame → Z → M Z.

(** [assert(c)] at a line of [prac.c]. *)
Definition C_assert (line : nat) (c : M bool) : M unit :=
  if NDEBUG then mret tt
  else b ← c; if b : bool then mret tt else crash (AssertionFailed line).

(** The loop of lines 76-86 over the list of referrers: the first function
    object is returned with a new reference. *)
Fixpoint scan_referrers (referrers : list Z) : M Z :=
  match referrers with
  | [] => mret NULL
  | ref :: rest =>
      is_function ← PyFunction_Check ref;
      if is_function : bool
      then Py_INCREF ref;; mret ref
      else scan_referrers rest
  end.

(** [get_function_for_code] (lines 39-90).  The first command records the
    call in the history variable.  The tuple and the list of referrers are
    temporaries whose own reference counts are not modelled. *)
Definition get_function_for_code (code : Z) : M Z :=
  modify (log_resolver_call code);;
  h ← get;
  (if gc_get_referrers h then mret tt
   else match gc_module h with
        | GcBuiltin => modify (set_gc_get_referrers true)
        | _ => printf ("couldn't find gc.get_referrers?" +:+ newline);; abort
        end);;
  tup ← PyTuple_Pack1 code;
  if negb tup then PyErr_Clear;; mret NULL
  else
    referrers ← call_gc_get_referrers code;
    match referrers with
    | None => PyErr_Clear;; mret NULL
    | Some referrers => scan_referrers referrers
    end.

(** The loop of lines 115-120 over [co_varnames], from [varname_idx]. *)
Fixpoint find_varname (names : list string) (key : Z) (varname_idx : Z) : M Z :=
  match names with
  | [] => mret varname_idx
  | name :: rest =>
      c ← PyObject_RichCompareBool_EQ name key;
      if bool_decide (c = 1) then mret varname_idx
      else find_varname rest key (varname_idx + 1)
  end.

(** The format of line 135. *)
Definition violation_message (expected actual parameter : string) : string :=
  "PRAC: expected type '" +:+ expected +:+ "', got '" +:+ actual
    +:+ "' for parameter '" +:+ parameter +:+ "'".

(** Lines 125-142 of the loop body, for the argument read from the frame:
    [true] when the loop is left with [ret = true]. *)
Definition check_arg (key value arg : Z) : M bool :=
  is_type ← PyType_CheckExact value;
  if negb is_type then
    t ← Py_TYPE value;
    name ← tp_name_of t;
    printf ("type expected (for now): '" +:+ name +:+ "'" +:+ newline);;
    abort
  else
    let expected := value in
    same ← Py_IS_TYPE arg expected;
    if negb same then
      expected_name ← tp_name_of expected;
      actual ← Py_TYPE arg;
      actual_name ← tp_name_of actual;
      parameter ← PyUnicode_AsUTF8 key;
      PyErr_Format PyExc_TypeError
        (violation_message expected_name actual_name parameter);;
      mret true
    else mret false.

(** The body of the loop of lines 111-143 for one item of the
    annotations.  An item of a dict is a pair, so that of the assertion of
    line 112 it is the exactness of the key that can fail. *)
Definition check_item (code : Z) (f : frame) (item : Z * Z) : M bool :=
  let key := item.1 in
  C_assert 112 (PyUnicode_CheckExact key);;
  names ← co_varnames_of code;
  varname_idx ← find_varname names key 0;
  C_assert 122 (mret (negb (bool_decide (varname_idx = Z.of_nat (length names)))));;
  arg ← localsplus_at f varname_idx;
  check_arg key item.2 arg.

(** The loop itself: [PyIter_Next] until the items are exhausted or the
    body leaves with [break]; the result is [ret]. *)
Fixpoint check_items (code : Z) (f : frame) (it : list (Z * Z)) : M bool :=
  match it with
  | [] => mret false
  | item :: rest =>
      stop ← check_item code f item;
      if stop : bool then mret true else check_items code f rest
  end.

(** [do_type_checking] (lines 92-152); the two [goto error] clear the error
    indicator and return [false]. *)
Definition do_type_checking (func code : Z) (f : frame) : M bool :=
  annotations ← func_annotations_of func;
  if bool_decide (annotations = NULL) then mret false
  else
    items ← PyMapping_Items annotations;
    match items with
    | None => PyErr_Clear;; mret false
    | Some items =>
        it ← PyObject_GetIter items;
        match it with
        | None => PyErr_Clear;; mret false
        | Some it => check_items code f it
        end
    end.

(** Lines 155-171 of [prac_eval_frame]: the function to check the frame
    against, or [None] where the code jumps to [eval_frame]. *)
Definition cached_function (f : frame) : M (option Z) :=
  h ← get;
  r ← _PyCode_GetExtra (f_code f) (extra_idx h);
  if bool_decide (r.1 ≠ 0) then mret None
  else
    let extra := r.2 in
    if bool_decide (extra = NULL) then
      func ← get_function_for_code (f_code f);
      _PyCode_SetExtra (f_code f) (extra_idx h)
        (if bool_decide (func ≠ NULL) then func else SENTINEL);;
      if bool_decide (func = NULL) then mret None else mret (Some func)
    else if bool_decide (extra = SENTINEL) then mret None
    else mret (Some extra).

(** [prac_eval_frame] (lines 154-179): a violation returns [NULL], every
    other path ends in the call of the default evaluation function. *)
Definition prac_eval_frame (tstate : Z) (f : frame) (exc : Z) : M Z :=
  func ← cached_function f;
  match func with
  | Some func =>
      stop ← do_type_checking func (f_code f) f;
      if stop : bool then mret NULL
      else _PyEval_EvalFrameDefault tstate f exc
  | None => _PyEval_EvalFrameDefault tstate f exc
  end.

(** The loop of lines 198-202 over the interpreters: each hook is asserted
    to be the default one and replaced. *)
Fixpoint set_eval_frame_funcs (interps : list interp) : M (list interp) :=
  match interps with
  | [] => mret []
  | interp :: rest =>
      C_assert 199 (mret (bool_decide (eval_frame interp = EvalFrameDefault)));;
      rest' ← set_eval_frame_funcs rest;
      mret (Interp PracEvalFrame (co_extra_freefuncs interp) :: rest')
  end.

(** [prac_enable] (lines 187-205); the count of [None] is not modelled. *)
Definition prac_enable : M Z :=
  _extra_idx ← _PyEval_RequestCodeExtraIndex PracCodeFreefunc;
  if bool_decide (_extra_idx < 0) then
    PyErr_Format PyExc_ValueError "used all code extras!";; mret NULL
  else
    modify (set_extra_idx _extra_idx);;
    h ← get;
    interps ← set_eval_frame_funcs (this_interp h :: other_interps h);
    match interps with
    | this :: others => modify (set_interps this others);; mret Py_None
    | [] => mret Py_None
    end.

End Prac.

(** ** Specification vocabulary *)

(** No allocation among the next [n] fails. *)
Definition allocations_succeed (n : nat) (h : host) : Prop :=
  Forall (fun b => b = true) (take n (allocs h)).

(** The state once [n] allocations were made. *)
Definition allocated (n : nat) (h : host) : host := set_allocs (drop n (allocs h)) h.

(** [o] points to the live object [x]. *)
Definition live (σ : gmap Z object) (o : Z) (x : object) : Prop :=
  o ≠ NULL ∧ σ !! o = Some x.

(** A code object with these local variable names. *)
Definition is_code (σ : gmap Z object) (code : Z) (names : list string) : Prop :=
  ∃ x extras, live σ code x ∧ ob_data x = CodeData names extras.

(** An exact [str] object with this text. *)
Definition is_exact_str (σ : gmap Z object) (key : Z) (s : string) : Prop :=
  ∃ x, live σ key x ∧ ob_type x = PyUnicode_Type ∧ ob_data x = UnicodeData s.

(** A plain type: an object whose own type is exactly [type]. *)
Definition is_plain_type (σ : gmap Z object) (t : Z) (name : string) : Prop :=
  ∃ x mro, live σ t x ∧ ob_type x = PyType_Type ∧ ob_data x = TypeData name mro.

(** Any type object, whatever its metaclass. *)
Definition is_type (σ : gmap Z object) (t : Z) (name : string) (mro : list Z) : Prop :=
  ∃ x, live σ t x ∧ ob_data x = TypeData name mro.

(** [PyType_IsSubtype(a, b)]: [b] is in the method resolution order of [a]. *)
Definition PyType_IsSubtype (σ : gmap Z object) (a b : Z) : Prop :=
  ∃ name mro, is_type σ a name mro ∧ b ∈ mro.

(** A function object, and a live object that is none. *)
Definition is_function (σ : gmap Z object) (o : Z) (x : object) : Prop :=
  live σ o x ∧ ob_type x = PyFunction_Type.
Definition is_no_function (σ : gmap Z object) (o : Z) : Prop :=
  ∃ x, live σ o x ∧ ob_type x ≠ PyFunction_Type.

(** A code object: its type is [code] and it has the fields of one. *)
Definition is_code_object (σ : gmap Z object) (code : Z) (x : object)
    (names : list string) (extras : list Z) : Prop :=
  live σ code x ∧ ob_type x = PyCode_Type ∧ ob_data x = CodeData names extras.

(** The object with one reference more, and with one less. *)
Definition acquired (x : object) : object :=
  Object (ob_refcnt x + 1) (ob_type x) (ob_data x).
Definition released (x : object) : object :=
  Object (ob_refcnt x - 1) (ob_type x) (ob_data x).

(** What the code extra slot [index] of a code object holds: [NULL] as
    long as nothing was stored in it. [None] if there is no such code
    object. *)
Definition code_slot (σ : gmap Z object) (code index : Z) : option Z :=
  match σ !! code with
  | Some x =>
      match ob_data x with
      | CodeData _ extras => Some (default NULL (extras !! Z.to_nat index))
      | _ => None
      end
  | None => None
  end.

(** A code object with a value stored in a code extra slot, [count] users
    being registered. *)
Definition with_extra (count : nat) (index value : Z) (x : object) : object :=
  match ob_data x with
  | CodeData names extras =>
      Object (ob_refcnt x) (ob_type x)
        (CodeData names (<[Z.to_nat index := value]> (ce_extras_grown count index extras)))
  | _ => x
  end.

(** The three states of the cache of a code object. *)
Inductive cache_state : Type :=
| Unset
| Negative
| Positive (func : Z).

Definition cache_of (h : host) (code : Z) : option cache_state :=
  match code_slot (heap h) code (extra_idx h) with
  | Some extra =>
      Some (if bool_decide (extra = NULL) then Unset
            else if bool_decide (extra = SENTINEL) then Negative
            else Positive extra)
  | None => None
  end.

(** The module's slot index is one the running interpreter handed out. *)
Definition slot_reserved (h : host) : Prop :=
  0 ≤ extra_idx h < Z.of_nat (length (co_extra_freefuncs (this_interp h))).

(** [gc.get_referrers] was found already or can be found. *)
Definition referrers_available (h : host) : Prop :=
  gc_get_referrers h = true ∨ gc_module h = GcBuiltin.

(** The objects [gc.get_referrers] returns are live. *)
Definition referrers_live (h : host) : Prop :=
  ∀ code referrers, get_referrers h code = Some referrers →
    Forall (fun r => r ≠ NULL ∧ is_Some (heap h !! r)) referrers.

(** The state in which [get_function_for_code] scans the referrers: the
    call is logged, the builtin is found and the tuple allocated. *)
Definition scanning (code : Z) (h : host) : host :=
  allocated 1 (set_gc_get_referrers true (log_resolver_call code h)).


(** Two states of the process with the same objects, interpreters, builtin,
    referrers, slot index and log of resolver calls: they differ at most
    in the error indicator, the allocation script and the output. *)
Record same_cache (h1 h2 : host) : Prop := SameCache {
  same_heap : heap h2 = heap h1;
  same_this : this_interp h2 = this_interp h1;
  same_others : other_interps h2 = other_interps h1;
  same_module : gc_module h2 = gc_module h1;
  same_referrers : get_referrers h2 = get_referrers h1;
  same_idx : extra_idx h2 = extra_idx h1;
  same_static : gc_get_referrers h2 = gc_get_referrers h1;
  same_log : resolver_calls h2 = resolver_calls h1
}.

(** A command that, when it returns, has kept all of that. *)
Definition keeps_cache {A} (m : M A) : Prop :=
  ∀ h a h', m h = Ok a h' → same_cache h h'.

(** The process after a successful [prac.enable()]: one more code extra
    user is registered with the running interpreter, [extra_idx] is its
    index, and the hook of every interpreter is [prac_eval_frame]. *)
Definition hooked (i : interp) : interp := Interp PracEvalFrame (co_extra_freefuncs i).

Definition enabled (h : host) : host :=
  set_interps
    (Interp PracEvalFrame (co_extra_freefuncs (this_interp h) ++ [PracCodeFreefunc]))
    (hooked <$> other_interps h)
    (set_extra_idx (Z.of_nat (length (co_extra_freefuncs (this_interp h)))) h).

(** Every interpreter has the default evaluation function for hook. *)
Definition hooks_default (h : host) : Prop :=
  Forall (fun i => eval_frame i = EvalFrameDefault) (this_interp h :: other_interps h).

(** [gc.get_referrers] was not found yet and cannot be found. *)
Definition referrers_unavailable (h : host) : Prop :=
  gc_get_referrers h = false ∧ gc_module h ≠ GcBuiltin.

(** The heap after one reference to the live object [y] at [o] is given
    up: the count is one less, or the object is gone with its last
    reference. *)
Definition release (o : Z) (y : object) (σ : gmap Z object) : gmap Z object :=
  if bool_decide (ob_refcnt y - 1 = 0) then delete o σ else <[o := released y]> σ.

(** The registered callbacks other than [prac_code_freefunc]. *)
Definition foreign (fn : freefn) : Prop := fn ≠ PracCodeFreefunc.

(** What a call of the resolver on [code] that returns [func] does to the
    process: the call is logged, the builtin is remembered, and the
    function returned, if any, has one reference more. *)
Record resolved (code : Z) (h : host) (func : Z) (h1 : host) : Prop := Resolved {
  res_log : resolver_calls h1 = code :: resolver_calls h;
  res_idx : extra_idx h1 = extra_idx h;
  res_interp : this_interp h1 = this_interp h;
  res_referrers : get_referrers h1 = get_referrers h;
  res_module : gc_module h1 = gc_module h;
  res_static : gc_get_referrers h1 = true;
  res_heap :
    (func = NULL ∧ heap h1 = heap h) ∨
    (∃ x, is_function (heap h) func x ∧ heap h1 = <[func := acquired x]> (heap h))
}.

(** A process in which calls of the code objects [units] can be
    intercepted: the slot index is reserved, the builtin is at hand and
    returns live objects, the units are code objects, and no object lives
    at the address [SENTINEL]. *)
Record intercepting (units : list Z) (h : host) : Prop := Intercepting {
  int_reserved : slot_reserved h;
  int_available : referrers_available h;
  int_live : referrers_live h;
  int_units : ∀ c, c ∈ units → ∃ x names extras, is_code_object (heap h) c x names extras;
  int_sentinel : heap h !! SENTINEL = None
}.

(** What happens in the process, as far as the cache goes: a frame comes
    to [prac_eval_frame], which consults the cache, or the program does
    something to the state.  Checking the frame leaves the cache alone
    ([do_type_checking_keeps_cache] below) and evaluating it is a matter
    of the program, so that a call stands for lines 155-171. *)
Inductive event : Type :=
| Call (f : frame)
| Environment (g : host → host).

Definition step (e : event) : M unit :=
  match e with
  | Call f => cached_function f;; mret tt
  | Environment g => modify g
  end.

Fixpoint run (events : list event) : M unit :=
  match events with
  | [] => mret tt
  | e :: rest => step e;; run rest
  end.

(** A step of the program that leaves the cache of [c] alone: it keeps
    the process intercepting, does not write the slot of [c], and does not
    touch the log of resolver calls.  It may create and change any object
    and change what refers to what. *)
Definition benign (units : list Z) (c : Z) (g : host → host) : Prop :=
  ∀ h, intercepting units h →
    intercepting units (g h) ∧ cache_of (g h) c = cache_of h c ∧
    resolver_calls (g h) = resolver_calls h.

Definition admissible (units : list Z) (c : Z) (e : event) : Prop :=
  match e with
  | Call f => f_code f ∈ units
  | Environment g => benign units c g
  end.

(** The number of times the resolver was called on [c]. *)
Definition resolutions (c : Z) (h : host) : nat :=
  length (filter (fun c' => c' = c) (resolver_calls h)).

(** Whether a call of the unit [c] is among the events. *)
Definition calls_unit (c : Z) (e : event) : Prop :=
  match e with
  | Call f => f_code f = c
  | Environment _ => False
  end.

(** The slot of a name among [co_varnames]: the index of its first
    occurrence, or the number of names when there is none. *)
Fixpoint name_index (names : list string) (s : string) : nat :=
  match names with
  | [] => 0%nat
  | name :: rest => if String.eqb name s then 0%nat else S (name_index rest s)
  end.

(** ** Contract entries *)

(** An entry of the annotations the checker supports in a frame: its key is
    an exact string [s] naming a local variable of the code object, the
    variable's slot in the frame is bound to the live object [ax], and its
    declared value is a plain type named [ename]. *)
Definition supported (σ : gmap Z object) (code : Z) (f : frame) (item : Z * Z)
    (s ename : string) (ax : object) : Prop :=
  ∃ names arg,
    is_code σ code names ∧ is_exact_str σ item.1 s ∧ s ∈ names ∧
    f_localsplus f !! name_index names s = Some arg ∧ live σ arg ax ∧
    is_plain_type σ item.2 ename.

(** An entry the checker does not support for its declared value: the key
    names a local variable with a slot in the frame, but the declared value
    is a live object whose type, named [tname], is not [type]. *)
Definition unsupported (σ : gmap Z object) (code : Z) (f : frame) (item : Z * Z)
    (tname : string) : Prop :=
  ∃ names s arg vx mro,
    is_code σ code names ∧ is_exact_str σ item.1 s ∧ s ∈ names ∧
    f_localsplus f !! name_index names s = Some arg ∧ live σ item.2 vx ∧
    ob_type vx ≠ PyType_Type ∧ is_type σ (ob_type vx) tname mro.

(** A supported entry the argument satisfies: the types are identical. *)
Definition satisfied (σ : gmap Z object) (code : Z) (f : frame) (item : Z * Z) : Prop :=
  ∃ s ename ax, supported σ code f item s ename ax ∧ ob_type ax = item.2.

(** A supported entry the argument violates; [aname] is the name of the
    argument's type. *)
Definition violated (σ : gmap Z object) (code : Z) (f : frame) (item : Z * Z)
    (s ename aname : string) : Prop :=
  ∃ ax mro, supported σ code f item s ename ax ∧ ob_type ax ≠ item.2 ∧
            is_type σ (ob_type ax) aname mro.

(** ** A small process to run the module on *)

Module World.

Definition int_type : Z := 200.
Definition object_type : Z := 208.
Definition bool_type : Z := 216.

Definition type_object (name : string) (mro : list Z) : object :=
  Object 1 PyType_Type (TypeData name mro).
Definition str_object (s : string) : object :=
  Object 1 PyUnicode_Type (UnicodeData s).

(** [def f(x: int, y: str)] with its code object at 1000, the function at
    1100 and its annotations at 1200; some values to call it with. *)
Definition objects : list (Z * object) :=
  [ (PyType_Type, type_object "type" [PyType_Type; object_type]);
    (PyUnicode_Type, type_object "str" [PyUnicode_Type; object_type]);
    (PyFunction_Type, type_object "function" [PyFunction_Type; object_type]);
    (PyCode_Type, type_object "code" [PyCode_Type; object_type]);
    (PyDict_Type, type_object "dict" [PyDict_Type; object_type]);
    (int_type, type_object "int" [int_type; object_type]);
    (object_type, type_object "object" [object_type]);
    (bool_type, type_object "bool" [bool_type; int_type; object_type]);
    (1000, Object 2 PyCode_Type (CodeData ["x"; "y"] []));
    (1100, Object 1 PyFunction_Type (FunctionData 1000 1200));
    (1200, Object 1 PyDict_Type (DictData [(1300, int_type); (1310, PyUnicode_Type)]));
    (1300, str_object "x");
    (1310, str_object "y");
    (1320, str_object "return");
    (2000, Object 1 int_type OtherData);
    (2010, str_object "hello");
    (2020, Object 1 bool_type OtherData) ].

Definition fresh_interp : interp := Interp EvalFrameDefault [].

Definition process (objs : list (Z * object)) (referrers : list Z) : host :=
  Host (list_to_map objs) fresh_interp [] GcBuiltin
       (fun _ => Some referrers) [] None [] 0 false [].

Definition h0 : host := process objects [1100].

(** A body that returns the object at 2000. *)
Definition body : Z → frame → Z → M Z := fun _ _ _ => mret 2000.

(** The state a command leaves the process in (the starting state, should
    the command crash). *)
Definition state_after {A} (m : M A) (h : host) : host :=
  match m h with Ok _ h' => h' | Crash _ => h end.

(** The process once [prac.enable()] was called. *)
Definition h_enabled : host := state_after (prac_enable false) h0.

(** The same process where the annotations of [f] are replaced. *)
Definition with_annotations (items : list (Z * Z)) : host :=
  state_after (prac_enable false)
    (process ((1200, Object 1 PyDict_Type (DictData items)) :: objects) [1100]).

(** [def f(x: "hello", y: str)]: the first annotation is a string, as a
    forward reference is. *)
Definition h_forward_ref : host :=
  with_annotations [(1300, 2010); (1310, PyUnicode_Type)].

(** The same process with two referrers of the code object, a dict and
    the function, and one with the dict for only referrer. *)
Definition h_two_referrers : host :=
  state_after (prac_enable false) (process objects [1200; 1100]).
Definition h_no_function : host :=
  state_after (prac_enable false) (process objects [1200]).

(** A process in which the builtin fails, returning [NULL]. *)
Definition h_query_fails : host :=
  state_after (prac_enable false)
    (Host (list_to_map objects) fresh_interp [] GcBuiltin
          (fun _ => None) [] None [] 0 false []).

(** The enabled process short of memory: the second allocation from now
    on fails. *)
Definition h_short_of_memory : host := set_allocs [true; false] h_enabled.

(** [def f(x: int, y: str) -> int]. *)
Definition h_return : host :=
  with_annotations [(1300, int_type); (1310, PyUnicode_Type); (1320, int_type)].

(** The frames of [f(1, "hello")], [f(1, 1)] and [f(True, "hello")]: the
    two locals and an empty value stack of one slot. *)
Definition frame_int_str : frame := Frame 1000 [2000; 2010; NULL].
Definition frame_int_int : frame := Frame 1000 [2000; 2000; NULL].
Definition frame_bool_str : frame := Frame 1000 [2020; 2010; NULL].

(** [def f(x, y)], once with no annotations object at all and once with an
    empty one. *)
Definition h_unannotated : host :=
  state_after (prac_enable false)
    (process ((1100, Object 1 PyFunction_Type (FunctionData 1000 NULL)) :: objects) [1100]).

(** A process in which [import gc] fails. *)
Definition h_no_gc : host :=
  Host (list_to_map objects) fresh_interp [] GcImportFails
       (fun _ => Some [1100]) [] None [] 0 false [].

(** The process after a first call of [f], which caches the function. *)
Definition h_cached : host := state_after (cached_function frame_int_str) h_enabled.

(** The program creates a function object at 1150 for the code object
    1000, from then on its only referrer. *)
Definition create_function (h : host) : host :=
  set_get_referrers (fun _ => Some [1150])
    (set_heap (<[1150 := Object 1 PyFunction_Type (FunctionData 1000 1200)]>) h).

(** A call of the code object, the creation of a function for it, and
    another call. *)
Definition late_function : list event :=
  [Call frame_int_str; Environment create_function; Call frame_int_str].

End World.

(** ** Further vocabulary *)

(** A command that only reads the process: when it returns, the state is
    the one it started in. *)
Definition reads {A} (m : M A) : Prop :=
  ∀ h a h', m h = Ok a h' → h' = h.

(** A command that, when it returns, has left the hooks of all
    interpreters, the registered code extra users and the module's slot
    index as they were. *)
Definition keeps_hooks {A} (m : M A) : Prop :=
  ∀ h a h', m h = Ok a h' →
    this_interp h' = this_interp h ∧ other_interps h' = other_interps h ∧
    extra_idx h' = extra_idx h.

(** An entry whose name is a local variable with an unbound slot: the
    slot holds [NULL]. *)
Definition unbound (σ : gmap Z object) (code : Z) (f : frame) (item : Z * Z) : Prop :=
  ∃ names s ename,
    is_code σ code names ∧ is_exact_str σ item.1 s ∧ s ∈ names ∧
    f_localsplus f !! name_index names s = Some NULL ∧
    is_plain_type σ item.2 ename.

(** ** Further processes *)

Module Cases.

Import World.

(** A process whose running interpreter has handed out every code extra
    index. *)
Definition h_no_index : host :=
  Host (list_to_map objects) (Interp EvalFrameDefault (replicate 254 (OtherFreefunc 0)))
       [] GcBuiltin (fun _ => Some [1100]) [] None [] 0 false [].

(** A process with a second interpreter whose hook belongs to another
    extension. *)
Definition h_foreign_hook : host :=
  Host (list_to_map objects) fresh_interp [Interp (OtherEvalFrame 7) []]
       GcBuiltin (fun _ => Some [1100]) [] None [] 0 false [].

(** [def f(x: int, y: str)] with the annotations keyed by the object at
    2000, which is no string, in place of ["x"]. *)
Definition h_int_key : host :=
  with_annotations [(2000, int_type); (1310, PyUnicode_Type)].

(** The frame of a call of [f] in which the slot of [y] is unbound. *)
Definition frame_int_unbound : frame := Frame 1000 [2000; NULL; NULL].

(** The frame of a "call" of the dict at 1200, which is no code object. *)
Definition frame_no_code : frame := Frame 1200 [].

(** The enabled process with no memory for the resolver's tuple. *)
Definition h_no_tuple : host := set_allocs [false] h_enabled.

(** [f] whose annotations object, at 1300, is a string and no dict. *)
Definition h_annotations_no_dict : host :=
  state_after (prac_enable false)
    (process ((1100, Object 1 PyFunction_Type (FunctionData 1000 1300)) :: objects) [1100]).

(** The enabled process seen from a second interpreter, hooked like the
    first but with no code extra user registered: the module's slot index
    is not one of its own. *)
Definition h_second_interp : host :=
  set_interps (Interp PracEvalFrame []) [this_interp h_enabled] h_enabled.

End Cases.

(** A command that crashes, if it does, on undefined behaviour only: it
    neither aborts nor fails an assertion. *)
Definition crashes_undefined {A} (m : M A) : Prop :=
  ∀ h fl, m h = Crash fl → ∃ why, fl = Undefined why.

(** ** Processes with other classes and frame layouts *)

Module Layouts.

Import World.

Definition cell_type : Z := 224.
Definition abc_meta : Z := 232.
Definition shape_type : Z := 240.

(** The objects of [World] with the type [cell] and a cell at 2100, and
    with a class [Shape] made by the metaclass [ABCMeta], so that the type
    of [Shape] is [ABCMeta] and not [type], and an instance of [Shape] at
    2200. *)
Definition more_objects : list (Z * object) :=
  [ (cell_type, type_object "cell" [cell_type; object_type]);
    (2100, Object 1 cell_type OtherData);
    (abc_meta, type_object "ABCMeta" [abc_meta; PyType_Type; object_type]);
    (shape_type, Object 1 abc_meta (TypeData "Shape" [shape_type; object_type]));
    (2200, Object 1 shape_type OtherData) ] ++ objects.

Definition annotated (items : list (Z * Z)) : host :=
  state_after (prac_enable false)
    (process ((1200, Object 1 PyDict_Type (DictData items)) :: more_objects) [1100]).

(** [def f(x: Shape, y: str)] and the frame of [f(Shape(), "hello")]. *)
Definition h_metaclass : host := annotated [(1300, shape_type); (1310, PyUnicode_Type)].
Definition frame_shape_str : frame := Frame 1000 [2200; 2010; NULL].




(** A frame with no slot behind the two locals. *)
Definition frame_locals_only : frame := Frame 1000 [2000; 2010].


End Layouts.

(** ** The caller's state and the state a frame is evaluated in *)


(** ** Basic facts about commands *)

Import World.

Lemma bind_run {A B} (m : M A) (k : A → M B) (h : host) :
  (m ≫= k) h = match m h with Ok a h' => k a h' | Crash f => Crash f end.
Proof. reflexivity. Qed.

Lemma bind_ok {A B} (m : M A) (k : A → M B) (h h' : host) (a : A) :
  m h = Ok a h' → (m ≫= k) h = k a h'.
Proof. intros E. rewrite bind_run, E. reflexivity. Qed.

(** Running a command whose outcome is known, inside a sequence. *)
Ltac run E := rewrite (bind_ok _ _ _ _ _ E).

Lemma bind_crash {A B} (m : M A) (k : A → M B) (h : host) (f : fault) :
  m h = Crash f → (m ≫= k) h = Crash f.
Proof. intros E. rewrite bind_run, E. reflexivity. Qed.

Lemma deref_live h o x : live (heap h) o x → deref o h = Ok x h.
Proof.
  intros [Hnull Hx]. unfold deref.
  rewrite bool_decide_eq_false_2 by exact Hnull. rewrite Hx. reflexivity.
Qed.

Lemma deref_null h : deref NULL h = Crash (Undefined "null pointer dereference").
Proof. reflexivity. Qed.

Lemma Py_TYPE_live h o x : live (heap h) o x → Py_TYPE o h = Ok (ob_type x) h.
Proof. intros L. unfold Py_TYPE. rewrite (bind_ok _ _ _ _ _ (deref_live _ _ _ L)). reflexivity. Qed.

Lemma Py_IS_TYPE_live h o x t :
  live (heap h) o x → Py_IS_TYPE o t h = Ok (bool_decide (ob_type x = t)) h.
Proof.
  intros L. unfold Py_IS_TYPE.
  rewrite (bind_ok _ _ _ _ _ (Py_TYPE_live _ _ _ L)). reflexivity.
Qed.

Lemma tp_name_of_type h t name mro : is_type (heap h) t name mro → tp_name_of t h = Ok name h.
Proof.
  intros (x & L & D). unfold tp_name_of.
  rewrite (bind_ok _ _ _ _ _ (deref_live _ _ _ L)), D. reflexivity.
Qed.

Lemma co_varnames_of_code h code names :
  is_code (heap h) code names → co_varnames_of code h = Ok names h.
Proof.
  intros (x & extras & L & D). unfold co_varnames_of.
  rewrite (bind_ok _ _ _ _ _ (deref_live _ _ _ L)), D. reflexivity.
Qed.


Lemma name_index_lt names s : s ∈ names ↔ (name_index names s < length names)%nat.
Proof.
  induction names as [|n rest IH]; simpl.
  - split; [intros H; inversion H | lia].
  - rewrite elem_of_cons. destruct (String.eqb_spec n s) as [->|Hne].
    + split; [lia | auto].
    + rewrite IH. split; [intros [E|H]; [congruence | lia] | intros H; right; lia].
Qed.


Lemma PyObject_RichCompareBool_EQ_str h name key x s :
  live (heap h) key x → ob_data x = UnicodeData s →
  PyObject_RichCompareBool_EQ name key h = Ok (if String.eqb name s then 1 else 0) h.
Proof.
  intros L D. unfold PyObject_RichCompareBool_EQ.
  rewrite (bind_ok _ _ _ _ _ (deref_live _ _ _ L)), D. reflexivity.
Qed.

(** The name loop finds the first occurrence of the key's text. *)
Lemma find_varname_str h key x s names i :
  live (heap h) key x → ob_data x = UnicodeData s →
  find_varname names key i h = Ok (i + Z.of_nat (name_index names s)) h.
Proof.
  intros L D. revert i. induction names as [|n rest IH]; intros i; simpl.
  - unfold mret, M_ret, ret. f_equal. lia.
  - rewrite (bind_ok _ _ _ _ _ (PyObject_RichCompareBool_EQ_str _ n _ _ _ L D)).
    destruct (String.eqb n s); simpl.
    + unfold mret, M_ret, ret. f_equal. lia.
    + rewrite IH. f_equal. lia.
Qed.

Lemma C_assert_holds NDEBUG line (c : M bool) h :
  c h = Ok true h → C_assert NDEBUG line c h = Ok tt h.
Proof. intros E. unfold C_assert. destruct NDEBUG; [reflexivity|]. run E. reflexivity. Qed.

Lemma C_assert_NDEBUG line (c : M bool) h : C_assert true line c h = Ok tt h.
Proof. reflexivity. Qed.

Lemma C_assert_fails line (c : M bool) h :
  c h = Ok false h → C_assert false line c h = Crash (AssertionFailed line).
Proof. intros E. unfold C_assert. run E. reflexivity. Qed.

Lemma localsplus_at_slot h f (i : nat) v :
  f_localsplus f !! i = Some v → localsplus_at f (Z.of_nat i) h = Ok v h.
Proof.
  intros E. unfold localsplus_at. rewrite Nat2Z.id, E.
  rewrite bool_decide_eq_true_2 by lia. reflexivity.
Qed.

Lemma deref_state h o x h' : deref o h = Ok x h' → h' = h.
Proof.
  unfold deref. destruct (bool_decide _); [discriminate|].
  destruct (heap h !! o); intros E; inversion E; reflexivity.
Qed.

Lemma tp_name_of_state h t name h' : tp_name_of t h = Ok name h' → h' = h.
Proof.
  unfold tp_name_of. rewrite bind_run.
  destruct (deref t h) as [x h''|] eqn:E; [|discriminate].
  apply deref_state in E as ->. destruct (ob_data x); intros E; inversion E; reflexivity.
Qed.

Lemma PyUnicode_AsUTF8_str h key x s :
  live (heap h) key x → ob_data x = UnicodeData s → PyUnicode_AsUTF8 key h = Ok s h.
Proof.
  intros L D. unfold PyUnicode_AsUTF8. run (deref_live _ _ _ L). rewrite D. reflexivity.
Qed.

(** The outcome of the loop body on an entry whose name is a local
    variable with a bound slot and whose declared value is a plain type:
    the entry passes when the types are identical, else the error is
    formatted from the two type names and the parameter name. *)
Lemma check_item_supported NDEBUG h code f key expected names s arg ax ename :
  is_code (heap h) code names → is_exact_str (heap h) key s → s ∈ names →
  f_localsplus f !! name_index names s = Some arg → live (heap h) arg ax →
  is_plain_type (heap h) expected ename →
  check_item NDEBUG code f (key, expected) h =
    if bool_decide (ob_type ax = expected) then Ok false h
    else (actual_name ← tp_name_of (ob_type ax);
          PyErr_Format PyExc_TypeError (violation_message ename actual_name s);;
          mret true) h.
Proof.
  intros Hcode (kx & Lk & Tk & Dk) Hin Hslot La (ex & mro & Le & Te & De).
  unfold check_item. cbn [fst snd].
  run (C_assert_holds NDEBUG 112 (PyUnicode_CheckExact key) h
         ltac:(unfold PyUnicode_CheckExact; rewrite (Py_IS_TYPE_live _ _ _ _ Lk);
               rewrite bool_decide_eq_true_2 by exact Tk; reflexivity)).
  run (co_varnames_of_code _ _ _ Hcode).
  run (find_varname_str h key kx s names 0 Lk Dk).
  rewrite Z.add_0_l.
  apply name_index_lt in Hin.
  run (C_assert_holds NDEBUG 122
         (mret (negb (bool_decide (Z.of_nat (name_index names s) = Z.of_nat (length names))))) h
         ltac:(rewrite bool_decide_eq_false_2 by lia; reflexivity)).
  run (localsplus_at_slot h f _ _ Hslot).
  unfold check_arg, PyType_CheckExact. run (Py_IS_TYPE_live h expected ex PyType_Type Le).
  rewrite bool_decide_eq_true_2 by exact Te. cbn [negb].
  run (Py_IS_TYPE_live h arg ax expected La).
  destruct (bool_decide (ob_type ax = expected)); cbn [negb]; [reflexivity|].
  run (tp_name_of_type h expected ename mro ltac:(exists ex; split; assumption)).
  run (Py_TYPE_live h arg ax La).
  rewrite (bind_run (tp_name_of (ob_type ax))), (bind_run (tp_name_of (ob_type ax))).
  destruct (tp_name_of (ob_type ax) h) as [an h'|] eqn:E; [|reflexivity].
  apply tp_name_of_state in E as ->.
  run (PyUnicode_AsUTF8_str h key kx s Lk Dk). reflexivity.
Qed.

Lemma check_item_satisfied NDEBUG h code f item :
  satisfied (heap h) code f item → check_item NDEBUG code f item h = Ok false h.
Proof.
  intros (s & ename & ax & (names & arg & Hc & Hk & Hin & Hslot & La & Ht) & Heq).
  destruct item as [key expected]. cbn [fst snd] in *.
  rewrite (check_item_supported NDEBUG h code f key expected names s arg ax ename) by assumption.
  rewrite bool_decide_eq_true_2 by exact Heq. reflexivity.
Qed.

Lemma check_item_violated NDEBUG h code f item s ename aname :
  violated (heap h) code f item s ename aname →
  check_item NDEBUG code f item h =
    Ok true (set_err (Some (PyExc_TypeError, violation_message ename aname s)) h).
Proof.
  intros (ax & mro & (names & arg & Hc & Hk & Hin & Hslot & La & Ht) & Hne & Hat).
  destruct item as [key expected]. cbn [fst snd] in *.
  rewrite (check_item_supported NDEBUG h code f key expected names s arg ax ename) by assumption.
  rewrite bool_decide_eq_false_2 by exact Hne.
  run (tp_name_of_type h (ob_type ax) aname mro Hat). reflexivity.
Qed.

(** The loop over the items runs through satisfied entries. *)
Lemma check_items_satisfied NDEBUG h code f pre rest :
  Forall (satisfied (heap h) code f) pre →
  check_items NDEBUG code f (pre ++ rest) h = check_items NDEBUG code f rest h.
Proof.
  induction 1 as [|item pre Hitem _ IH]; [reflexivity|]. simpl.
  run (check_item_satisfied NDEBUG h code f item Hitem). exact IH.
Qed.

Lemma allocate_succeeds h :
  allocations_succeed 1 h → allocate h = Ok true (allocated 1 h).
Proof.
  unfold allocations_succeed, allocate, allocated. destruct h as [? ? ? ? ? al ? ? ? ? ?].
  cbn. destruct al as [|b al]; [reflexivity|]. cbn. rewrite Forall_cons.
  intros [-> _]. reflexivity.
Qed.

Lemma func_annotations_of_function h func fx fcode annotations :
  live (heap h) func fx → ob_data fx = FunctionData fcode annotations →
  func_annotations_of func h = Ok annotations h.
Proof.
  intros L D. unfold func_annotations_of. run (deref_live _ _ _ L). rewrite D. reflexivity.
Qed.

(** With a dict for annotations and memory for the list of its items and
    the iterator, the checker runs the loop over the items of the dict. *)
Lemma do_type_checking_items NDEBUG h func fx fcode annotations dx items code f :
  live (heap h) func fx → ob_data fx = FunctionData fcode annotations →
  live (heap h) annotations dx → ob_data dx = DictData items →
  allocations_succeed 2 h →
  do_type_checking NDEBUG func code f h =
    check_items NDEBUG code f items (allocated 2 h).
Proof.
  intros Lf Df Ld Dd Ha. unfold do_type_checking.
  run (func_annotations_of_function _ _ _ _ _ Lf Df).
  rewrite bool_decide_eq_false_2 by apply Ld.
  unfold PyMapping_Items, PyObject_GetIter.
  rewrite bind_run, bind_run, (deref_live _ _ _ Ld), Dd.
  unfold allocations_succeed, allocated in *. unfold allocate.
  destruct h as [? ? ? ? ? al ? ? ? ? ?]. cbn in *.
  destruct al as [|b1 [|b2 al]]; cbn in *.
  - reflexivity.
  - apply Forall_cons in Ha as [-> _]. reflexivity.
  - apply Forall_cons in Ha as [-> Ha]. apply Forall_cons in Ha as [-> _]. reflexivity.
Qed.

(** ** Exact type identity *)

(** C2. For an entry the checker supports (name, expected type) and the
    argument bound to the name, the check of the entry passes, going on
    to the next entry in an unchanged state, if and only if the type of
    the argument is identical to the expected type; and an argument whose
    type is another type that has the expected type in its method
    resolution order, a strict subclass, is a violation. *)
Theorem exact_type_identity NDEBUG h code f key expected s ename ax :
  supported (heap h) code f (key, expected) s ename ax →
  (check_item NDEBUG code f (key, expected) h = Ok false h ↔ ob_type ax = expected) ∧
  (PyType_IsSubtype (heap h) (ob_type ax) expected → ob_type ax ≠ expected →
   ∃ aname mro,
     is_type (heap h) (ob_type ax) aname mro ∧
     check_item NDEBUG code f (key, expected) h =
       Ok true (set_err (Some (PyExc_TypeError, violation_message ename aname s)) h)).
Proof.
  intros Hs. split.
  - split.
    + intros Hrun. destruct (decide (ob_type ax = expected)) as [|Hne]; [assumption|].
      exfalso. destruct Hs as (names & arg & Hc & Hk & Hin & Hslot & La & Ht).
      cbn [fst snd] in *.
      rewrite (check_item_supported NDEBUG h code f key expected names s arg ax ename)
        in Hrun by assumption.
      rewrite bool_decide_eq_false_2 in Hrun by exact Hne.
      rewrite bind_run in Hrun.
      destruct (tp_name_of (ob_type ax) h); discriminate.
    + intros Heq. apply check_item_satisfied. exists s, ename, ax. split; assumption.
  - intros (aname & mro & Hat & _) Hne. exists aname, mro. split; [exact Hat|].
    apply check_item_violated. exists ax, mro. auto.
Qed.

Lemma exact_type_identity_witness :
  (check_item false 1000 frame_bool_str (1300, int_type) h_enabled = Ok false h_enabled
   ↔ bool_type = int_type) ∧
  (PyType_IsSubtype (heap h_enabled) bool_type int_type → bool_type ≠ int_type →
   ∃ aname mro,
     is_type (heap h_enabled) bool_type aname mro ∧
     check_item false 1000 frame_bool_str (1300, int_type) h_enabled =
       Ok true (set_err (Some (PyExc_TypeError, violation_message "int" aname "x"))
                  h_enabled)).
Proof.
  apply (exact_type_identity false h_enabled 1000 frame_bool_str 1300 int_type "x" "int"
           (Object 1 bool_type OtherData)).
  exists ["x"; "y"], 2020. repeat split; try (by vm_compute).
  - exists (Object 2 PyCode_Type (CodeData ["x"; "y"] [])), []. by vm_compute.
  - exists (str_object "x"). by vm_compute.
  - set_solver.
  - exists (type_object "int" [int_type; object_type]), [int_type; object_type].
    by vm_compute.
Defined.

(** [f(Shape(), "hello")] for [def f(x: Shape, y: str)], where the class
    [Shape] was made by the metaclass [ABCMeta]: the type of the argument
    is identical to the declared type, and yet the entry does not pass.
    The declared type is no plain type, and the process is aborted at
    lines 128-131 before the types are compared. *)
Lemma identical_type_of_metaclass_aborts :
  is_type (heap Layouts.h_metaclass) Layouts.shape_type "Shape"
    [Layouts.shape_type; object_type] ∧
  ob_type <$> heap Layouts.h_metaclass !! 2200 = Some Layouts.shape_type ∧
  f_localsplus Layouts.frame_shape_str !! name_index ["x"; "y"] "x" = Some 2200 ∧
  check_item false 1000 Layouts.frame_shape_str (1300, Layouts.shape_type) Layouts.h_metaclass
    = Crash (Aborted ["type expected (for now): 'ABCMeta'" +:+ newline]) ∧
  check_item false 1000 Layouts.frame_shape_str (1300, Layouts.shape_type) Layouts.h_metaclass
    ≠ Ok false Layouts.h_metaclass ∧
  prac_eval_frame false body 0 Layouts.frame_shape_str 0 Layouts.h_metaclass
    = Crash (Aborted ["type expected (for now): 'ABCMeta'" +:+ newline]).
Proof.
  split.
  { exists (Object 1 Layouts.abc_meta (TypeData "Shape" [Layouts.shape_type; object_type])).
    by vm_compute. }
  repeat split; by vm_compute.
Qed.

(** [f(True, "hello")] for [def f(x: int, y: str)]: [bool] is a subclass of
    [int], and the call is rejected. *)
Example bool_is_no_int :
  PyType_IsSubtype (heap h_enabled) bool_type int_type ∧
  ∃ h', prac_eval_frame false body 0 frame_bool_str 0 h_enabled = Ok NULL h' ∧
        err h' = Some (PyExc_TypeError,
                       "PRAC: expected type 'int', got 'bool' for parameter 'x'").
Proof.
  split.
  - exists "bool", [bool_type; int_type; object_type]. split; [|set_solver].
    exists (type_object "bool" [bool_type; int_type; object_type]). by vm_compute.
  - eexists. split; by vm_compute.
Qed.

(** ** Reporting the first violation *)




(** Nor is a violation reported when the items of the annotations cannot
    be listed: in [f(1, 1)] for [def f(x: int, y: str)], with memory for
    the resolver's tuple but none for the list of items, the error is
    cleared, checking is given up and the frame is evaluated. *)
Example violation_unchecked_without_memory :
  ∃ h', prac_eval_frame false body 0 frame_int_int 0 h_short_of_memory = Ok 2000 h' ∧
        err h' = None.
Proof. eexists. split; by vm_compute. Qed.

(** ** Names that are no local variable *)

Lemma C_assert_exact_str NDEBUG h key s :
  is_exact_str (heap h) key s →
  C_assert NDEBUG 112 (PyUnicode_CheckExact key) h = Ok tt h.
Proof.
  intros (kx & Lk & Tk & _). apply C_assert_holds. unfold PyUnicode_CheckExact.
  rewrite (Py_IS_TYPE_live _ _ _ _ Lk), bool_decide_eq_true_2 by exact Tk. reflexivity.
Qed.







(** [f(1, "hello")] for [def f(x: int, y: str) -> int]: both arguments are
    of the declared types, and the call fails the assertion. *)
Example return_annotation_fails_assertion :
  prac_eval_frame false body 0 frame_int_str 0 h_return = Crash (AssertionFailed 122).
Proof. by vm_compute. Qed.

(** Compiled without assertions, the same call reads the empty stack slot
    behind the two locals and dereferences the [NULL] it holds; with no
    slot there, the frame is read out of bounds. *)
Example return_annotation_reads_stack_slot :
  prac_eval_frame true body 0 frame_int_str 0 h_return =
    Crash (Undefined "null pointer dereference") ∧
  prac_eval_frame true body 0 Layouts.frame_locals_only 0 h_return =
    Crash (Undefined "f_localsplus index out of bounds").
Proof. split; by vm_compute. Qed.

(** ** Declared values that are no plain type *)

Lemma check_item_unsupported NDEBUG h code f item tname :
  unsupported (heap h) code f item tname →
  check_item NDEBUG code f item h =
    Crash (Aborted (stdout h ++ ["type expected (for now): '" +:+ tname +:+ "'" +:+ newline])).
Proof.
  intros (names & s & arg & vx & mro & Hc & Hk & Hin & Hslot & Lv & Tv & Ht).
  destruct item as [key value]. cbn [fst snd] in *.
  destruct Hk as (kx & Lk & Tk & Dk).
  unfold check_item. cbn [fst snd].
  run (C_assert_exact_str NDEBUG h key s ltac:(exists kx; auto)).
  run (co_varnames_of_code _ _ _ Hc).
  run (find_varname_str h key kx s names 0 Lk Dk).
  rewrite Z.add_0_l.
  apply name_index_lt in Hin.
  run (C_assert_holds NDEBUG 122
         (mret (negb (bool_decide (Z.of_nat (name_index names s) = Z.of_nat (length names))))) h
         ltac:(rewrite bool_decide_eq_false_2 by lia; reflexivity)).
  run (localsplus_at_slot h f _ _ Hslot).
  unfold check_arg, PyType_CheckExact. run (Py_IS_TYPE_live h value vx PyType_Type Lv).
  rewrite bool_decide_eq_false_2 by exact Tv. cbn [negb].
  run (Py_TYPE_live h value vx Lv).
  run (tp_name_of_type h (ob_type vx) tname mro Ht).
  reflexivity.
Qed.

(** C8. There are intercepted calls, and they are all the calls of this
    shape, that end in [abort()]: when the checker, every earlier entry
    being satisfied, comes to an entry naming a local variable whose
    declared value is not a plain type, it prints the name of the type of
    that value and aborts the process; no error is raised, the entry is
    not skipped and the frame is not evaluated. *)
Theorem declared_value_not_a_type_aborts NDEBUG default tstate f exc h h1
    func fx fcode annotations dx pre item post tname :
  cached_function f h = Ok (Some func) h1 →
  live (heap h1) func fx → ob_data fx = FunctionData fcode annotations →
  live (heap h1) annotations dx → ob_data dx = DictData (pre ++ item :: post) →
  allocations_succeed 2 h1 →
  Forall (satisfied (heap h1) (f_code f) f) pre →
  unsupported (heap h1) (f_code f) f item tname →
  prac_eval_frame NDEBUG default tstate f exc h =
    Crash (Aborted (stdout h1 ++
                    ["type expected (for now): '" +:+ tname +:+ "'" +:+ newline])).
Proof.
  intros Hres Lf Df Ld Dd Ha Hpre Hu. unfold prac_eval_frame.
  run Hres. cbn beta iota.
  apply bind_crash.
  rewrite (do_type_checking_items NDEBUG h1 func fx fcode annotations dx
             (pre ++ item :: post) (f_code f) f) by assumption.
  rewrite check_items_satisfied by exact Hpre.
  cbn [check_items]. apply bind_crash.
  apply (check_item_unsupported NDEBUG (allocated 2 h1) (f_code f) f item tname Hu).
Qed.

(** [f(1, "hello")] for [def f(x: "hello", y: str)]. *)
Lemma declared_value_not_a_type_aborts_witness :
  prac_eval_frame false body 0 frame_int_str 0 h_forward_ref =
    Crash (Aborted (stdout (state_after (cached_function frame_int_str) h_forward_ref) ++
                    ["type expected (for now): '" +:+ "str" +:+ "'" +:+ newline])).
Proof.
  apply (declared_value_not_a_type_aborts false body 0 frame_int_str 0 h_forward_ref
           (state_after (cached_function frame_int_str) h_forward_ref)
           1100 (Object 2 PyFunction_Type (FunctionData 1000 1200)) 1000 1200
           (Object 1 PyDict_Type (DictData [(1300, 2010); (1310, PyUnicode_Type)]))
           [] (1300, 2010) [(1310, PyUnicode_Type)]).
  - by vm_compute.
  - by vm_compute.
  - reflexivity.
  - by vm_compute.
  - reflexivity.
  - by vm_compute.
  - by apply Forall_nil.
  - exists ["x"; "y"], "x", 2000, (str_object "hello"), [PyUnicode_Type; object_type].
    repeat split; try (by vm_compute).
    + exists (Object 2 PyCode_Type (CodeData ["x"; "y"] [1100])), [1100]. by vm_compute.
    + exists (str_object "x"). by vm_compute.
    + set_solver.
    + exists (type_object "str" [PyUnicode_Type; object_type]). by vm_compute.
Defined.

(** ** The resolver *)

Lemma PyFunction_Check_function h o x :
  is_function (heap h) o x → PyFunction_Check o h = Ok true h.
Proof.
  intros [L T]. unfold PyFunction_Check.
  rewrite (Py_IS_TYPE_live _ _ _ _ L), bool_decide_eq_true_2 by exact T. reflexivity.
Qed.

Lemma PyFunction_Check_no_function h o :
  is_no_function (heap h) o → PyFunction_Check o h = Ok false h.
Proof.
  intros (x & L & T). unfold PyFunction_Check.
  rewrite (Py_IS_TYPE_live _ _ _ _ L), bool_decide_eq_false_2 by exact T. reflexivity.
Qed.

Lemma Py_INCREF_live h o x :
  live (heap h) o x → Py_INCREF o h = Ok tt (set_heap (<[o := acquired x]>) h).
Proof. intros L. unfold Py_INCREF. run (deref_live _ _ _ L). reflexivity. Qed.

Lemma scan_referrers_found h pre fn post x :
  Forall (is_no_function (heap h)) pre → is_function (heap h) fn x →
  scan_referrers (pre ++ fn :: post) h = Ok fn (set_heap (<[fn := acquired x]>) h).
Proof.
  intros Hpre Hfn. induction Hpre as [|r pre Hr _ IH]; simpl.
  - run (PyFunction_Check_function h fn x Hfn).
    run (Py_INCREF_live h fn x (proj1 Hfn)). reflexivity.
  - run (PyFunction_Check_no_function h r Hr). exact IH.
Qed.

Lemma scan_referrers_none h referrers :
  Forall (is_no_function (heap h)) referrers → scan_referrers referrers h = Ok NULL h.
Proof.
  induction 1 as [|r rest Hr _ IH]; simpl; [reflexivity|].
  run (PyFunction_Check_no_function h r Hr). exact IH.
Qed.

Lemma modify_run (g : host → host) h : modify g h = Ok tt (g h).
Proof. reflexivity. Qed.

Lemma get_run h : get h = Ok h h.
Proof. reflexivity. Qed.

Lemma set_gc_get_referrers_id h :
  gc_get_referrers h = true → set_gc_get_referrers true h = h.
Proof. destruct h. cbn. intros ->. reflexivity. Qed.

(** With the builtin at hand and memory for the tuple, the resolver scans
    the list the builtin returns. *)
Lemma get_function_for_code_scans h code referrers :
  referrers_available h → allocations_succeed 1 h →
  get_referrers h code = Some referrers →
  get_function_for_code code h = scan_referrers referrers (scanning code h).
Proof.
  intros Hgc Ha Hrefs. unfold get_function_for_code, scanning.
  run (modify_run (log_resolver_call code) h).
  run (get_run (log_resolver_call code h)).
  set (h1 := log_resolver_call code h).
  assert (allocations_succeed 1 (set_gc_get_referrers true h1)) as Ha' by exact Ha.
  assert (get_referrers (allocated 1 (set_gc_get_referrers true h1)) code = Some referrers)
    as Hrefs' by exact Hrefs.
  assert ((if gc_get_referrers h1 then mret tt
           else match gc_module h1 with
                | GcBuiltin => modify (set_gc_get_referrers true)
                | _ => printf ("couldn't find gc.get_referrers?" +:+ newline);; abort
                end) h1 = Ok tt (set_gc_get_referrers true h1)) as Hfind.
  { destruct (gc_get_referrers h1) eqn:Hstatic.
    - rewrite set_gc_get_referrers_id by exact Hstatic. reflexivity.
    - destruct Hgc as [Hgc|Hgc]; [change (gc_get_referrers h1 = true) in Hgc; congruence|].
      change (gc_module h1 = GcBuiltin) in Hgc. rewrite Hgc. reflexivity. }
  run Hfind. unfold PyTuple_Pack1.
  run (allocate_succeeds _ Ha'). cbn [negb].
  unfold call_gc_get_referrers.
  rewrite bind_run, (bind_ok _ _ _ _ _ (get_run _)).
  change ((mret (get_referrers (allocated 1 (set_gc_get_referrers true h1)) code)
             : M (option (list Z))) (allocated 1 (set_gc_get_referrers true h1)))
    with (Ok (A := option (list Z))
            (get_referrers (allocated 1 (set_gc_get_referrers true h1)) code)
            (allocated 1 (set_gc_get_referrers true h1))).
  cbv beta iota. rewrite Hrefs'. reflexivity.
Qed.

(** ** The code extra slot *)

Lemma PyCode_Check_code h code x names extras :
  is_code_object (heap h) code x names extras → PyCode_Check code h = Ok true h.
Proof.
  intros (L & T & _). unfold PyCode_Check.
  rewrite (Py_IS_TYPE_live _ _ _ _ L), bool_decide_eq_true_2 by exact T. reflexivity.
Qed.

Lemma co_extra_of_code h code x names extras :
  is_code_object (heap h) code x names extras → co_extra_of code h = Ok extras h.
Proof.
  intros (L & _ & D). unfold co_extra_of. run (deref_live _ _ _ L). rewrite D. reflexivity.
Qed.

Lemma code_slot_code σ code x names extras index :
  is_code_object σ code x names extras →
  code_slot σ code index = Some (default NULL (extras !! Z.to_nat index)).
Proof. intros ((_ & L) & _ & D). unfold code_slot. rewrite L, D. reflexivity. Qed.

Lemma _PyCode_GetExtra_code h code x names extras index :
  is_code_object (heap h) code x names extras → 0 ≤ index →
  _PyCode_GetExtra code index h = Ok (0, default NULL (extras !! Z.to_nat index)) h.
Proof.
  intros Hc Hi. unfold _PyCode_GetExtra.
  run (PyCode_Check_code _ _ _ _ _ Hc). cbn [negb].
  rewrite bool_decide_eq_false_2 by lia.
  run (co_extra_of_code _ _ _ _ _ Hc). reflexivity.
Qed.

Lemma ce_extras_grown_length count index old :
  0 ≤ index < Z.of_nat count →
  (Z.to_nat index < length (ce_extras_grown count index old))%nat.
Proof.
  intros Hi. unfold ce_extras_grown. case_bool_decide.
  - rewrite length_app, length_replicate. lia.
  - lia.
Qed.

Lemma ce_extras_grown_lookup count index old (j : nat) :
  default NULL (ce_extras_grown count index old !! j) = default NULL (old !! j).
Proof.
  unfold ce_extras_grown. case_bool_decide; [|reflexivity].
  destruct (decide (j < length old)%nat) as [Hj|Hj].
  - rewrite lookup_app_l by exact Hj. reflexivity.
  - rewrite lookup_app_r by lia. rewrite (lookup_ge_None_2 old j) by lia.
    destruct (replicate _ NULL !! _) as [v|] eqn:E; [|reflexivity].
    apply lookup_replicate in E as [-> _]. reflexivity.
Qed.

(** Storing into a slot that holds [NULL] calls no release callback. *)
Lemma _PyCode_SetExtra_fresh h code x names extras index value :
  is_code_object (heap h) code x names extras →
  0 ≤ index < Z.of_nat (length (co_extra_freefuncs (this_interp h))) →
  default NULL (extras !! Z.to_nat index) = NULL →
  _PyCode_SetExtra code index value h =
    Ok 0 (set_heap (<[code :=
            with_extra (length (co_extra_freefuncs (this_interp h))) index value x]>) h).
Proof.
  intros Hc Hi Hnull. unfold _PyCode_SetExtra.
  run (PyCode_Check_code _ _ _ _ _ Hc). run (get_run h). cbn [negb orb].
  rewrite !bool_decide_eq_false_2 by lia. cbn [orb].
  run (co_extra_of_code _ _ _ _ _ Hc).
  rewrite ce_extras_grown_lookup, Hnull.
  rewrite bool_decide_eq_false_2 by (intros Hne; apply Hne; reflexivity).
  rewrite bind_run. change ((mret tt : M ()) h) with (Ok tt h). cbv beta iota.
  destruct Hc as (L & T & D).
  unfold set_co_extra. rewrite bind_run.
  rewrite (bind_ok _ _ _ _ _ (deref_live _ _ _ L)), D.
  unfold with_extra. rewrite D. reflexivity.
Qed.

Lemma code_slot_with_extra σ code x names extras count index value :
  ob_data x = CodeData names extras → 0 ≤ index < Z.of_nat count →
  code_slot (<[code := with_extra count index value x]> σ) code index = Some value.
Proof.
  intros D Hi. unfold code_slot, with_extra. rewrite lookup_insert_eq, D. cbn.
  rewrite list_lookup_insert_eq; [reflexivity|].
  apply ce_extras_grown_length. exact Hi.
Qed.

Lemma is_code_object_with_extra σ code x names extras count index value :
  is_code_object σ code x names extras →
  is_code_object (<[code := with_extra count index value x]> σ) code
    (with_extra count index value x) names
    (<[Z.to_nat index := value]> (ce_extras_grown count index extras)).
Proof.
  intros ((Hn & L) & T & D). unfold with_extra. rewrite D.
  split; [split; [exact Hn | apply lookup_insert_eq]|]. split; [exact T | reflexivity].
Qed.

(** ** The cache *)

(** A slot that was written is not resolved again. *)
Lemma cached_function_hit f h x names extras :
  is_code_object (heap h) (f_code f) x names extras → 0 ≤ extra_idx h →
  default NULL (extras !! Z.to_nat (extra_idx h)) ≠ NULL →
  cached_function f h =
    Ok (if bool_decide (default NULL (extras !! Z.to_nat (extra_idx h)) = SENTINEL)
        then None else Some (default NULL (extras !! Z.to_nat (extra_idx h)))) h.
Proof.
  intros Hc Hi Hset. unfold cached_function.
  run (get_run h). run (_PyCode_GetExtra_code _ _ _ _ _ _ Hc Hi). cbn [fst snd].
  rewrite bool_decide_eq_false_2 by (intros Hne; apply Hne; reflexivity).
  rewrite (bool_decide_eq_false_2 _ Hset).
  case_bool_decide; reflexivity.
Qed.

(** An unset slot is resolved and written. *)
Lemma cached_function_miss f h x names extras func h1 :
  is_code_object (heap h) (f_code f) x names extras →
  slot_reserved h → default NULL (extras !! Z.to_nat (extra_idx h)) = NULL →
  get_function_for_code (f_code f) h = Ok func h1 →
  is_code_object (heap h1) (f_code f) x names extras →
  this_interp h1 = this_interp h →
  cached_function f h =
    Ok (if bool_decide (func = NULL) then None else Some func)
       (set_heap (<[f_code f :=
          with_extra (length (co_extra_freefuncs (this_interp h))) (extra_idx h)
            (if bool_decide (func ≠ NULL) then func else SENTINEL) x]>) h1).
Proof.
  intros Hc Hi Hnull Hres Hc1 Hint. unfold cached_function.
  run (get_run h). run (_PyCode_GetExtra_code _ _ _ _ _ _ Hc (proj1 Hi)). cbn [fst snd].
  rewrite bool_decide_eq_false_2 by (intros Hne; apply Hne; reflexivity).
  rewrite (bool_decide_eq_true_2 _ Hnull).
  run Hres.
  unfold slot_reserved in Hi. rewrite <- Hint in Hi |- *.
  run (_PyCode_SetExtra_fresh h1 (f_code f) x names extras (extra_idx h)
         (if bool_decide (func ≠ NULL) then func else SENTINEL) Hc1 Hi Hnull).
  case_bool_decide; reflexivity.
Qed.

(** The function behind the dict is found, and gets a reference. *)
Example resolver_skips_dict :
  ∃ h', get_function_for_code 1000 h_two_referrers = Ok 1100 h' ∧
        ob_refcnt <$> heap h_two_referrers !! 1100 = Some 1 ∧
        ob_refcnt <$> heap h' !! 1100 = Some 2.
Proof. eexists. split; [by vm_compute|]. split; by vm_compute. Qed.

(** With no function among the referrers the call is delegated and the
    slot holds [SENTINEL]. *)
Example no_function_cached_negative :
  ∃ h', cached_function frame_int_str h_no_function = Ok None h' ∧
        cache_of h_no_function 1000 = Some Unset ∧
        cache_of h' 1000 = Some Negative.
Proof. eexists. split; [by vm_compute|]. split; by vm_compute. Qed.

(** A query that fails is not told apart from one that finds no function:
    the resolver returns [NULL], the error is cleared and the slot holds
    [SENTINEL]. *)
Example failed_query_cached_negative :
  ∃ h', cached_function frame_int_str h_query_fails = Ok None h' ∧
        err h' = None ∧ cache_of h' 1000 = Some Negative.
Proof. eexists. split; [by vm_compute|]. split; by vm_compute. Qed.

(** ** The resolver returns *)

Lemma scan_referrers_total h referrers :
  Forall (fun r => r ≠ NULL ∧ is_Some (heap h !! r)) referrers →
  ∃ func h1, scan_referrers referrers h = Ok func h1 ∧
    ((func = NULL ∧ h1 = h) ∨
     (∃ x, is_function (heap h) func x ∧ h1 = set_heap (<[func := acquired x]>) h)).
Proof.
  induction 1 as [|r rest [Hr [x Hx]] _ IH]; simpl.
  - exists NULL, h. split; [reflexivity | left; split; reflexivity].
  - destruct (decide (ob_type x = PyFunction_Type)) as [Hty|Hty].
    + assert (is_function (heap h) r x) as Hfn by (split; [split|]; assumption).
      exists r, (set_heap (<[r := acquired x]>) h). split.
      * run (PyFunction_Check_function h r x Hfn).
        run (Py_INCREF_live h r x (proj1 Hfn)). reflexivity.
      * right. exists x. split; [exact Hfn | reflexivity].
    + run (PyFunction_Check_no_function h r ltac:(exists x; split; [split|]; assumption)).
      exact IH.
Qed.

Lemma find_builtin h :
  referrers_available h →
  (if gc_get_referrers h then mret tt
   else match gc_module h with
        | GcBuiltin => modify (set_gc_get_referrers true)
        | _ => printf ("couldn't find gc.get_referrers?" +:+ newline);; abort
        end) h = Ok tt (set_gc_get_referrers true h).
Proof.
  intros Hgc. destruct (gc_get_referrers h) eqn:Hstatic.
  - rewrite set_gc_get_referrers_id by exact Hstatic. reflexivity.
  - destruct Hgc as [Hgc|Hgc]; [congruence|]. rewrite Hgc. reflexivity.
Qed.

Lemma allocate_total h : allocate h = Ok (hd true (allocs h)) (allocated 1 h).
Proof.
  unfold allocate, allocated. destruct h as [? ? ? ? ? al ? ? ? ? ?]. cbn.
  destruct al; reflexivity.
Qed.

(** Under the conditions of interception the resolver returns, whatever
    the allocator and the builtin do. *)
Lemma get_function_for_code_total h code :
  referrers_available h → referrers_live h →
  ∃ func h1, get_function_for_code code h = Ok func h1 ∧ resolved code h func h1.
Proof.
  intros Hgc Hlive. unfold get_function_for_code.
  run (modify_run (log_resolver_call code) h).
  run (get_run (log_resolver_call code h)).
  run (find_builtin (log_resolver_call code h) Hgc).
  unfold PyTuple_Pack1. run (allocate_total (set_gc_get_referrers true (log_resolver_call code h))).
  set (h3 := allocated 1 (set_gc_get_referrers true (log_resolver_call code h))).
  destruct (hd true _); cbn [negb].
  - unfold call_gc_get_referrers.
    rewrite bind_run, (bind_ok _ _ _ _ _ (get_run _)).
    change ((mret (get_referrers h3 code) : M (option (list Z))) h3)
      with (Ok (A := option (list Z)) (get_referrers h code) h3).
    cbv beta iota.
    destruct (get_referrers h code) as [referrers|] eqn:Hrefs.
    + destruct (scan_referrers_total h3 referrers (Hlive code referrers Hrefs))
        as (func & h1 & Hscan & Heff).
      exists func, h1. split; [exact Hscan|].
      destruct Heff as [[-> ->]|(x & Hfn & ->)].
      * split; try reflexivity. left. split; reflexivity.
      * split; try reflexivity. right. exists x. split; [exact Hfn | reflexivity].
    + exists NULL, (set_err None h3). split; [reflexivity|].
      split; try reflexivity. left. split; reflexivity.
  - exists NULL, (set_err None h3). split; [reflexivity|].
    split; try reflexivity. left. split; reflexivity.
Qed.

(** ** One intercepted call and the cache *)

Lemma code_slot_insert_ne σ c c' x index :
  c ≠ c' → code_slot (<[c' := x]> σ) c index = code_slot σ c index.
Proof. intros Hne. unfold code_slot. rewrite lookup_insert_ne by congruence. reflexivity. Qed.

Lemma code_slot_acquired σ c fn x index :
  σ !! fn = Some x → code_slot (<[fn := acquired x]> σ) c index = code_slot σ c index.
Proof.
  intros Hx. destruct (decide (c = fn)) as [->|Hne].
  - unfold code_slot. rewrite lookup_insert_eq, Hx. reflexivity.
  - apply code_slot_insert_ne. exact Hne.
Qed.

Lemma function_is_no_code σ c x names extras fn y :
  is_code_object σ c x names extras → is_function σ fn y → fn ≠ c.
Proof.
  intros ((_ & Lc) & Tc & _) ((_ & Lf) & Tf) ->.
  rewrite Lc in Lf. injection Lf as <-. rewrite Tc in Tf. discriminate.
Qed.

Lemma is_code_object_acquired σ c x names extras fn y :
  is_code_object σ c x names extras → is_function σ fn y →
  is_code_object (<[fn := acquired y]> σ) c x names extras.
Proof.
  intros Hc Hf. pose proof (function_is_no_code _ _ _ _ _ _ _ Hc Hf) as Hne.
  destruct Hc as ((Hn & L) & T & D).
  split; [split; [exact Hn | rewrite lookup_insert_ne by exact Hne; exact L]|].
  split; assumption.
Qed.

Lemma is_code_object_fun σ c x x' names names' extras extras' :
  is_code_object σ c x names extras → is_code_object σ c x' names' extras' →
  x' = x ∧ names' = names ∧ extras' = extras.
Proof.
  intros ((_ & L) & _ & D) ((_ & L') & _ & D'). rewrite L in L'. injection L' as <-.
  rewrite D in D'. injection D' as <- <-. auto.
Qed.

(** The state of a cache read from the slot. *)
Lemma cache_of_code h c x names extras :
  is_code_object (heap h) c x names extras →
  cache_of h c =
    Some (let extra := default NULL (extras !! Z.to_nat (extra_idx h)) in
          if bool_decide (extra = NULL) then Unset
          else if bool_decide (extra = SENTINEL) then Negative
          else Positive extra).
Proof. intros Hc. unfold cache_of. rewrite (code_slot_code _ _ _ _ _ _ Hc). reflexivity. Qed.

(** What the resolver leaves behind is again a process in which calls can
    be intercepted, with the caches as they were. *)
Lemma resolved_intercepting units code h func h1 :
  intercepting units h → resolved code h func h1 →
  intercepting units h1 ∧
  (∀ c, cache_of h1 c = cache_of h c) ∧
  (∀ c x names extras,
     is_code_object (heap h) c x names extras → is_code_object (heap h1) c x names extras) ∧
  (func ≠ NULL → func ≠ SENTINEL).
Proof.
  intros [Hres Hav Hlive Hunits Hsent] [Hlog Hidx Hint Hrefs Hmod Hst Hheap].
  destruct Hheap as [[-> Hheap]|(y & Hfn & Hheap)].
  - split; [|split; [|split]].
    + split.
      * unfold slot_reserved. rewrite Hidx, Hint. exact Hres.
      * left. exact Hst.
      * intros c refs Hc. rewrite Hrefs in Hc. rewrite Hheap. exact (Hlive c refs Hc).
      * intros c Hc. rewrite Hheap. exact (Hunits c Hc).
      * rewrite Hheap. exact Hsent.
    + intros c. unfold cache_of. rewrite Hheap, Hidx. reflexivity.
    + intros c x names extras Hc. rewrite Hheap. exact Hc.
    + intros Hne. exfalso. apply Hne. reflexivity.
  - pose proof Hfn as [[Hnn Ly] Ty].
    split; [|split; [|split]].
    + split.
      * unfold slot_reserved. rewrite Hidx, Hint. exact Hres.
      * left. exact Hst.
      * intros c refs Hc. rewrite Hrefs in Hc. rewrite Hheap.
        eapply Forall_impl; [exact (Hlive c refs Hc)|].
        intros r [Hr Hsome]. split; [exact Hr|].
        apply lookup_insert_is_Some'. right. exact Hsome.
      * intros c Hc. destruct (Hunits c Hc) as (x & names & extras & Hco).
        exists x, names, extras. rewrite Hheap.
        apply is_code_object_acquired; assumption.
      * rewrite Hheap. rewrite lookup_insert_ne; [exact Hsent|].
        intros ->. rewrite Hsent in Ly. discriminate.
    + intros c. unfold cache_of. rewrite Hheap, Hidx.
      rewrite (code_slot_acquired _ _ _ _ _ Ly). reflexivity.
    + intros c x names extras Hc. rewrite Hheap.
      apply is_code_object_acquired; assumption.
    + intros _ ->. rewrite Hsent in Ly. discriminate.
Qed.

(** Writing the slot of a code object keeps the process intercepting and
    the caches of the other code objects. *)
Lemma stored_intercepting units h code x names extras value :
  intercepting units h → is_code_object (heap h) code x names extras →
  let h' := set_heap (<[code :=
              with_extra (length (co_extra_freefuncs (this_interp h))) (extra_idx h) value x]>) h in
  intercepting units h' ∧
  (∀ c, c ≠ code → cache_of h' c = cache_of h c) ∧
  code_slot (heap h') code (extra_idx h') = Some value.
Proof.
  intros [Hres Hav Hlive Hunits Hsent] Hc h'.
  pose proof Hc as ((Hnn & L) & T & D).
  split; [|split].
  - split.
    + exact Hres.
    + exact Hav.
    + intros c refs Hrefs. eapply Forall_impl; [exact (Hlive c refs Hrefs)|].
      intros r [Hr Hsome]. split; [exact Hr|].
      apply lookup_insert_is_Some'. right. exact Hsome.
    + intros c Hin. destruct (decide (c = code)) as [->|Hne].
      * do 3 eexists. apply is_code_object_with_extra. exact Hc.
      * destruct (Hunits c Hin) as (y & names' & extras' & (Hn' & L') & T' & D').
        exists y, names', extras'.
        split; [split; [exact Hn' | cbn; rewrite lookup_insert_ne by congruence; exact L']|].
        split; assumption.
    + cbn. rewrite lookup_insert_ne; [exact Hsent|].
      intros ->. rewrite Hsent in L. discriminate.
  - intros c Hne. unfold cache_of. cbn. rewrite code_slot_insert_ne by exact Hne. reflexivity.
  - cbn. apply (code_slot_with_extra _ _ _ names extras); [exact D | exact Hres].
Qed.

(** The effect of one intercepted call on the caches.  The call returns.
    A unit whose cache is unset is resolved, once, and its cache becomes
    negative or positive; a unit whose cache is set is not resolved and
    nothing changes at all; the caches of the other units stay. *)
Lemma cached_function_step units f h :
  intercepting units h → f_code f ∈ units →
  ∃ r h', cached_function f h = Ok r h' ∧ intercepting units h' ∧
    extra_idx h' = extra_idx h ∧
    (∀ c, c ≠ f_code f → cache_of h' c = cache_of h c) ∧
    ((cache_of h (f_code f) = Some Unset ∧
      resolver_calls h' = f_code f :: resolver_calls h ∧
      ((r = None ∧ cache_of h' (f_code f) = Some Negative) ∨
       (∃ fn, r = Some fn ∧ cache_of h' (f_code f) = Some (Positive fn)))) ∨
     (cache_of h (f_code f) ≠ Some Unset ∧ h' = h)).
Proof.
  intros Hint Hin.
  destruct (int_units _ _ Hint _ Hin) as (x & names & extras & Hc).
  pose proof (int_reserved _ _ Hint) as Hres.
  rewrite (cache_of_code h _ _ _ _ Hc). cbv zeta.
  destruct (decide (default NULL (extras !! Z.to_nat (extra_idx h)) = NULL)) as [Hnull|Hset].
  - destruct (get_function_for_code_total h (f_code f)
                (int_available _ _ Hint) (int_live _ _ Hint)) as (func & h1 & Hrun & Heff).
    destruct (resolved_intercepting units _ h func h1 Hint Heff)
      as (Hint1 & Hcache1 & Hcode1 & Hsent1).
    pose proof (Hcode1 _ _ _ _ Hc) as Hc1.
    pose proof (cached_function_miss f h x names extras func h1 Hc Hres Hnull Hrun Hc1
                  (res_interp _ _ _ _ Heff)) as Hmiss.
    pose proof (stored_intercepting units h1 (f_code f) x names extras
                  (if bool_decide (func ≠ NULL) then func else SENTINEL) Hint1 Hc1) as Hst.
    cbv zeta in Hst. rewrite (res_interp _ _ _ _ Heff), (res_idx _ _ _ _ Heff) in Hst.
    destruct Hst as (Hint' & Hother & Hslot).
    eexists _, _. split; [exact Hmiss|]. split; [exact Hint'|].
    split; [exact (res_idx _ _ _ _ Heff)|]. split.
    { intros c Hne. rewrite (Hother c Hne). apply Hcache1. }
    left. rewrite (bool_decide_eq_true_2 _ Hnull). split; [reflexivity|].
    split; [exact (res_log _ _ _ _ Heff)|].
    unfold cache_of. rewrite Hslot.
    destruct (decide (func = NULL)) as [->|Hfn].
    + left. split; reflexivity.
    + right. exists func. rewrite (bool_decide_eq_false_2 _ Hfn).
      rewrite (bool_decide_eq_true_2 (func ≠ NULL)) by exact Hfn.
      rewrite (bool_decide_eq_false_2 _ Hfn).
      rewrite (bool_decide_eq_false_2 _ (Hsent1 Hfn)). split; reflexivity.
  - pose proof (cached_function_hit f h x names extras Hc (proj1 Hres) Hset) as Hhit.
    eexists _, h. split; [exact Hhit|]. split; [exact Hint|]. split; [reflexivity|].
    split; [reflexivity|]. right. rewrite (bool_decide_eq_false_2 _ Hset).
    split; [|reflexivity]. case_bool_decide; discriminate.
Qed.

(** ** Checking leaves the cache alone *)

Lemma same_cache_refl h : same_cache h h.
Proof. split; reflexivity. Qed.

Lemma same_cache_trans h1 h2 h3 : same_cache h1 h2 → same_cache h2 h3 → same_cache h1 h3.
Proof. intros [] []. split; congruence. Qed.

Lemma keeps_cache_ret {A} (a : A) : keeps_cache (mret a : M A).
Proof. intros h a' h' E. injection E as _ <-. apply same_cache_refl. Qed.

Lemma keeps_cache_crash {A} (f : fault) : keeps_cache (crash f : M A).
Proof. intros h a h' E. discriminate. Qed.

Lemma keeps_cache_bind {A B} (m : M A) (k : A → M B) :
  keeps_cache m → (∀ a, keeps_cache (k a)) → keeps_cache (m ≫= k).
Proof.
  intros Hm Hk h b h' E. rewrite bind_run in E.
  destruct (m h) as [a h1|] eqn:E1; [|discriminate].
  eapply same_cache_trans; [exact (Hm _ _ _ E1) | exact (Hk _ _ _ _ E)].
Qed.

Lemma keeps_cache_deref o : keeps_cache (deref o).
Proof. intros h x h' E. apply deref_state in E as ->. apply same_cache_refl. Qed.

Lemma keeps_cache_allocate : keeps_cache allocate.
Proof. intros h b h' E. rewrite allocate_total in E. injection E as _ <-. split; reflexivity. Qed.

Lemma keeps_cache_set_err e : keeps_cache (modify (set_err e)).
Proof. intros h a h' E. injection E as _ <-. split; reflexivity. Qed.

Lemma keeps_cache_abort {A} : keeps_cache (abort : M A).
Proof. intros h a h' E. discriminate. Qed.

Lemma keeps_cache_printf s : keeps_cache (printf s).
Proof. intros h a h' E. injection E as _ <-. split; reflexivity. Qed.

Ltac keeps_cache_step :=
  first
    [ apply keeps_cache_ret | apply keeps_cache_crash | apply keeps_cache_deref
    | apply keeps_cache_allocate | apply keeps_cache_set_err | apply keeps_cache_abort
    | apply keeps_cache_printf
    | apply keeps_cache_bind; [|intros ?]
    | match goal with
      | |- keeps_cache (match ?x with _ => _ end) => destruct x
      | |- keeps_cache (if ?x then _ else _) => destruct x
      end ].

Lemma keeps_cache_find_varname names key : ∀ i, keeps_cache (find_varname names key i).
Proof.
  induction names as [|n rest IH]; intros i; cbn [find_varname].
  - apply keeps_cache_ret.
  - unfold PyObject_RichCompareBool_EQ. repeat keeps_cache_step. apply IH.
Qed.

Lemma keeps_cache_check_item NDEBUG code f item :
  keeps_cache (check_item NDEBUG code f item).
Proof.
  unfold check_item, check_arg, C_assert, co_varnames_of, localsplus_at, tp_name_of,
    PyUnicode_AsUTF8, PyErr_Format, PyUnicode_CheckExact, PyType_CheckExact, Py_IS_TYPE,
    Py_TYPE.
  repeat first [ apply keeps_cache_find_varname | keeps_cache_step ].
Qed.

Lemma keeps_cache_check_items NDEBUG code f items :
  keeps_cache (check_items NDEBUG code f items).
Proof.
  induction items as [|item rest IH]; cbn [check_items].
  - apply keeps_cache_ret.
  - apply keeps_cache_bind; [apply keeps_cache_check_item|].
    intros [|]; [apply keeps_cache_ret | exact IH].
Qed.

(** The checker reads the process and at most sets or clears the error
    indicator: the objects, and with them every cache, the slot index and
    the log of resolver calls are the same when it returns. *)
Lemma do_type_checking_keeps_cache NDEBUG func code f :
  keeps_cache (do_type_checking NDEBUG func code f).
Proof.
  unfold do_type_checking, func_annotations_of, PyMapping_Items, PyObject_GetIter,
    PyErr_Clear.
  repeat first [ apply keeps_cache_check_items | keeps_cache_step ].
Qed.

(** The cache after an intercepted call that returns is the one lines
    155-171 left, whenever evaluating the frame keeps it. *)
Lemma prac_eval_frame_cache NDEBUG eval_default tstate f exc h r h' :
  keeps_cache (eval_default tstate f exc) →
  prac_eval_frame NDEBUG eval_default tstate f exc h = Ok r h' →
  ∃ func h1, cached_function f h = Ok func h1 ∧ same_cache h1 h'.
Proof.
  intros Hdef Hrun. unfold prac_eval_frame in Hrun. rewrite bind_run in Hrun.
  destruct (cached_function f h) as [func h1|] eqn:Hc; [|discriminate].
  exists func, h1. split; [reflexivity|].
  destruct func as [func|]; [|exact (Hdef _ _ _ Hrun)].
  rewrite bind_run in Hrun.
  destruct (do_type_checking NDEBUG func (f_code f) f h1) as [stop h2|] eqn:Hcheck;
    [|discriminate].
  pose proof (do_type_checking_keeps_cache NDEBUG func (f_code f) f _ _ _ Hcheck) as Hsame.
  destruct stop.
  - injection Hrun as _ <-. exact Hsame.
  - eapply same_cache_trans; [exact Hsame | exact (Hdef _ _ _ Hrun)].
Qed.

(** ** Runs of the process *)

Lemma resolutions_logged c c' h h' :
  resolver_calls h' = c' :: resolver_calls h →
  resolutions c h' = if bool_decide (c' = c) then S (resolutions c h) else resolutions c h.
Proof.
  intros E. unfold resolutions. rewrite E, filter_cons.
  destruct (decide (c' = c)) as [Heq|Hne].
  - rewrite bool_decide_eq_true_2 by exact Heq. reflexivity.
  - rewrite bool_decide_eq_false_2 by exact Hne. reflexivity.
Qed.

Lemma run_cons e events h h1 :
  step e h = Ok tt h1 → run (e :: events) h = run events h1.
Proof. intros E. cbn [run]. run E. reflexivity. Qed.

Lemma step_call f h r h1 : cached_function f h = Ok r h1 → step (Call f) h = Ok tt h1.
Proof. intros E. unfold step. run E. reflexivity. Qed.

(** A cache that is set stays as it is, and its unit is not resolved. *)
Lemma run_set units c events : ∀ h s,
  intercepting units h → c ∈ units → Forall (admissible units c) events →
  cache_of h c = Some s → s ≠ Unset →
  ∃ h', run events h = Ok tt h' ∧ intercepting units h' ∧
        cache_of h' c = Some s ∧ resolutions c h' = resolutions c h.
Proof.
  induction events as [|e events IH]; intros h s Hint Hc Hadm Hs Hset.
  - exists h. split; [reflexivity|]. split; [exact Hint|]. split; [exact Hs | reflexivity].
  - apply Forall_cons in Hadm as [He Hadm]. destruct e as [f|g].
    + destruct (cached_function_step units f h Hint He)
        as (r & h1 & Hrun & Hint1 & _ & Hother & Hcase).
      rewrite (run_cons _ _ _ _ (step_call _ _ _ _ Hrun)).
      assert (cache_of h1 c = Some s ∧ resolutions c h1 = resolutions c h) as [Hs1 Hn1].
      { destruct Hcase as [(Hunset & Hlog & _)|[_ ->]]; [|split; [exact Hs | reflexivity]].
        destruct (decide (c = f_code f)) as [->|Hne].
        - rewrite Hs in Hunset. injection Hunset as ->. exfalso. apply Hset. reflexivity.
        - split; [rewrite (Hother c Hne); exact Hs|].
          rewrite (resolutions_logged c _ h h1 Hlog).
          rewrite bool_decide_eq_false_2 by congruence. reflexivity. }
      destruct (IH h1 s Hint1 Hc Hadm Hs1 Hset) as (h' & Hrun' & Hint' & Hs' & Hn').
      exists h'. split; [exact Hrun'|]. split; [exact Hint'|]. split; [exact Hs' | congruence].
    + destruct (He h Hint) as (Hint1 & Hcache & Hlog).
      rewrite (run_cons (Environment g) events h (g h) (modify_run g h)).
      assert (resolutions c (g h) = resolutions c h) as Hn1
        by (unfold resolutions; rewrite Hlog; reflexivity).
      rewrite <- Hcache in Hs.
      destruct (IH (g h) s Hint1 Hc Hadm Hs Hset) as (h' & Hrun' & Hint' & Hs' & Hn').
      exists h'. split; [exact Hrun'|]. split; [exact Hint'|]. split; [exact Hs' | congruence].
Qed.

(** C3. In a process in which calls can be intercepted, under any sequence
    of intercepted calls and of steps of the program that do not write
    the slot themselves (they may create function objects and change the
    referrers of any code object), the run goes through, and for every
    code object: the resolver is called on it at most once; a cache that
    is negative or positive at the start is the same at the end and its
    unit is never resolved again; and a cache that is unset at the start
    is unset at the end if no call of the unit came, and else is negative
    or positive, after exactly one resolution. *)
Theorem cache_written_once units c events : ∀ h,
  intercepting units h → c ∈ units → Forall (admissible units c) events →
  ∃ h', run events h = Ok tt h' ∧ intercepting units h' ∧
    (resolutions c h' ≤ resolutions c h + 1)%nat ∧
    (cache_of h c ≠ Some Unset →
       cache_of h' c = cache_of h c ∧ resolutions c h' = resolutions c h) ∧
    (cache_of h c = Some Unset →
       (Exists (calls_unit c) events →
          (cache_of h' c = Some Negative ∨ ∃ fn, cache_of h' c = Some (Positive fn)) ∧
          resolutions c h' = S (resolutions c h)) ∧
       (¬ Exists (calls_unit c) events →
          cache_of h' c = Some Unset ∧ resolutions c h' = resolutions c h)).
Proof.
  induction events as [|e events IH]; intros h Hint Hc Hadm.
  - exists h. split; [reflexivity|]. split; [exact Hint|]. split; [lia|].
    split; [auto|]. intros Hunset. split; [|auto].
    intros Hex. apply Exists_nil in Hex. destruct Hex.
  - apply Forall_cons in Hadm as [He Hadm].
    assert (∀ h1, step e h = Ok tt h1 → intercepting units h1 →
              cache_of h1 c = cache_of h c → resolutions c h1 = resolutions c h →
              ¬ calls_unit c e ∨ cache_of h c ≠ Some Unset →
              ∃ h', run (e :: events) h = Ok tt h' ∧ intercepting units h' ∧
                (resolutions c h' ≤ resolutions c h + 1)%nat ∧
                (cache_of h c ≠ Some Unset →
                   cache_of h' c = cache_of h c ∧ resolutions c h' = resolutions c h) ∧
                (cache_of h c = Some Unset →
                   (Exists (calls_unit c) (e :: events) →
                      (cache_of h' c = Some Negative ∨
                       ∃ fn, cache_of h' c = Some (Positive fn)) ∧
                      resolutions c h' = S (resolutions c h)) ∧
                   (¬ Exists (calls_unit c) (e :: events) →
                      cache_of h' c = Some Unset ∧ resolutions c h' = resolutions c h)))
      as Hskip.
    { intros h1 Hstep Hint1 Hcache Hn Hno.
      destruct (IH h1 Hint1 Hc Hadm) as (h' & Hrun & Hint' & Hle & Hkeep & Hfill).
      exists h'. rewrite (run_cons _ _ _ _ Hstep). rewrite Hcache, Hn in *.
      split; [exact Hrun|]. split; [exact Hint'|]. split; [exact Hle|].
      split; [exact Hkeep|]. intros Hunset. destruct (Hfill Hunset) as [Hyes Hnot].
      destruct Hno as [Hno|Hno]; [|contradiction].
      split.
      - intros Hex. apply Exists_cons in Hex as [Hex|Hex]; [contradiction|]. auto.
      - intros Hex. apply Hnot. intros Hex'. apply Hex. apply Exists_cons. auto. }
    destruct e as [f|g].
    + destruct (cached_function_step units f h Hint He)
        as (r & h1 & Hrun & Hint1 & _ & Hother & Hcase).
      pose proof (step_call _ _ _ _ Hrun) as Hstep.
      destruct (decide (f_code f = c)) as [Hf|Hf].
      * subst c. destruct Hcase as [(Hunset & Hlog & Hnew)|[Hset ->]].
        -- assert (∃ s, cache_of h1 (f_code f) = Some s ∧ s ≠ Unset ∧
                     (cache_of h1 (f_code f) = Some Negative ∨
                      ∃ fn, cache_of h1 (f_code f) = Some (Positive fn))) as (s & Hs & Hne & Hor).
           { destruct Hnew as [[_ Hneg]|(fn & _ & Hpos)].
             - exists Negative. split; [exact Hneg|]. split; [discriminate | auto].
             - exists (Positive fn). split; [exact Hpos|]. split; [discriminate | eauto]. }
           destruct (run_set units (f_code f) events h1 s Hint1 Hc Hadm Hs Hne)
             as (h' & Hrun' & Hint' & Hs' & Hn').
           pose proof (resolutions_logged (f_code f) _ h h1 Hlog) as Hn1.
           rewrite bool_decide_eq_true_2 in Hn1 by reflexivity.
           exists h'. rewrite (run_cons _ _ _ _ Hstep).
           split; [exact Hrun'|]. split; [exact Hint'|]. split; [lia|].
           split; [intros Hcontra; contradiction|]. intros _. split.
           ++ intros _. split; [|lia]. rewrite Hs'. rewrite <- Hs. exact Hor.
           ++ intros Hex. exfalso. apply Hex. apply Exists_cons. left. reflexivity.
        -- apply (Hskip h Hstep Hint eq_refl eq_refl). right. exact Hset.
      * assert (c ≠ f_code f) as Hf' by congruence.
        apply (Hskip h1 Hstep Hint1 (Hother c Hf')); [|left; exact Hf].
        destruct Hcase as [(_ & Hlog & _)|[_ ->]]; [|reflexivity].
        rewrite (resolutions_logged c _ h h1 Hlog).
        rewrite bool_decide_eq_false_2 by exact Hf. reflexivity.
    + destruct (He h Hint) as (Hint1 & Hcache & Hlog).
      apply (Hskip (g h) (modify_run g h) Hint1 Hcache); [|left; intros []].
      unfold resolutions. rewrite Hlog. reflexivity.
Qed.

Lemma h_no_function_intercepting : intercepting [1000] h_no_function.
Proof.
  split.
  - by vm_compute.
  - right. reflexivity.
  - intros c refs Hrefs. vm_compute in Hrefs. injection Hrefs as <-.
    apply Forall_cons. split; [|by apply Forall_nil].
    split; [by vm_compute | vm_compute; eauto].
  - intros c Hc. apply list_elem_of_singleton in Hc as ->.
    exists (Object 2 PyCode_Type (CodeData ["x"; "y"] [])), ["x"; "y"], [].
    by vm_compute.
  - by vm_compute.
Qed.

Lemma create_function_benign : benign [1000] 1000 create_function.
Proof.
  intros h [Hres Hav Hlive Hunits Hsent]. split; [split|split].
  - exact Hres.
  - exact Hav.
  - intros c refs Hrefs. cbn in Hrefs. injection Hrefs as <-.
    apply Forall_cons. split; [|by apply Forall_nil].
    split; [by vm_compute|]. cbn. rewrite lookup_insert_eq. eauto.
  - intros c Hc. destruct (Hunits c Hc) as (x & names & extras & (Hn & L) & T & D).
    apply list_elem_of_singleton in Hc as ->.
    exists x, names, extras. split; [split; [exact Hn|]|split; assumption].
    cbn. rewrite lookup_insert_ne by done. exact L.
  - cbn. rewrite lookup_insert_ne by done. exact Hsent.
  - unfold cache_of. cbn. rewrite code_slot_insert_ne by done. reflexivity.
  - reflexivity.
Qed.

Lemma cache_written_once_witness :
  ∃ h', run late_function h_no_function = Ok tt h' ∧ intercepting [1000] h' ∧
    (resolutions 1000 h' ≤ resolutions 1000 h_no_function + 1)%nat ∧
    (cache_of h_no_function 1000 ≠ Some Unset →
       cache_of h' 1000 = cache_of h_no_function 1000 ∧
       resolutions 1000 h' = resolutions 1000 h_no_function) ∧
    (cache_of h_no_function 1000 = Some Unset →
       (Exists (calls_unit 1000) late_function →
          (cache_of h' 1000 = Some Negative ∨ ∃ fn, cache_of h' 1000 = Some (Positive fn)) ∧
          resolutions 1000 h' = S (resolutions 1000 h_no_function)) ∧
       (¬ Exists (calls_unit 1000) late_function →
          cache_of h' 1000 = Some Unset ∧
          resolutions 1000 h' = resolutions 1000 h_no_function)).
Proof.
  apply (cache_written_once [1000] 1000 late_function h_no_function).
  - exact h_no_function_intercepting.
  - by apply list_elem_of_singleton.
  - repeat (apply Forall_cons; split); try (by apply Forall_nil).
    + by apply list_elem_of_singleton.
    + exact create_function_benign.
    + by apply list_elem_of_singleton.
Defined.

(** The unit is resolved by its first call, with no function among the
    referrers; the function created afterwards is never found: the second
    call is delegated without a look at the referrers. *)
Example negative_cache_is_stale :
  ∃ h', run late_function h_no_function = Ok tt h' ∧
        cache_of h' 1000 = Some Negative ∧
        resolver_calls h' = [1000] ∧
        get_referrers h' 1000 = Some [1150] ∧
        cached_function frame_int_str h' = Ok None h'.
Proof. eexists. split; [by vm_compute|]. repeat split; by vm_compute. Qed.

(** A second [prac.enable()], compiled without assertions, moves the
    module's slot index: the cache of the unit, positive after the first
    call of [f], is unset again, and the next call of [f] calls the
    resolver on the unit a second time. *)
Lemma second_enable_unsets_cache :
  cache_of h_cached 1000 = Some (Positive 1100) ∧
  resolutions 1000 h_cached = 1%nat ∧
  ∃ h1 h2,
    prac_enable true h_cached = Ok Py_None h1 ∧
    cache_of h1 1000 = Some Unset ∧
    cached_function frame_int_str h1 = Ok (Some 1100) h2 ∧
    resolver_calls h2 = [1000; 1000] ∧
    resolutions 1000 h2 = 2%nat.
Proof.
  split; [by vm_compute|]. split; [by vm_compute|].
  eexists _, _. split; [by vm_compute|]. split; [by vm_compute|].
  split; [by vm_compute|]. split; by vm_compute.
Qed.

(** ** Functions without contracts *)



(** A function without annotations is evaluated whatever it is called
    with. *)
Example unannotated_call_evaluated :
  ∃ h', prac_eval_frame false body 0 frame_bool_str 0 h_unannotated = Ok 2000 h' ∧
        err h' = None.
Proof. eexists. split; by vm_compute. Qed.

(** ** Enabling *)

Lemma _PyEval_RequestCodeExtraIndex_free h free :
  Z.of_nat (length (co_extra_freefuncs (this_interp h))) ≠ MAX_CO_EXTRA_USERS - 1 →
  _PyEval_RequestCodeExtraIndex free h =
    Ok (Z.of_nat (length (co_extra_freefuncs (this_interp h))))
       (set_interps (Interp (eval_frame (this_interp h))
                       (co_extra_freefuncs (this_interp h) ++ [free]))
                    (other_interps h) h).
Proof.
  intros Hfree. unfold _PyEval_RequestCodeExtraIndex. run (get_run h).
  rewrite (bool_decide_eq_false_2 _ Hfree). reflexivity.
Qed.

Lemma set_eval_frame_funcs_NDEBUG interps h :
  set_eval_frame_funcs true interps h = Ok (hooked <$> interps) h.
Proof.
  induction interps as [|i rest IH]; [reflexivity|]. cbn [set_eval_frame_funcs].
  run (C_assert_NDEBUG 199 (mret (bool_decide (eval_frame i = EvalFrameDefault))) h).
  run IH. reflexivity.
Qed.

Lemma set_eval_frame_funcs_default NDEBUG interps h :
  Forall (fun i => eval_frame i = EvalFrameDefault) interps →
  set_eval_frame_funcs NDEBUG interps h = Ok (hooked <$> interps) h.
Proof.
  induction 1 as [|i rest Hi _ IH]; [reflexivity|]. cbn [set_eval_frame_funcs].
  run (C_assert_holds NDEBUG 199 (mret (bool_decide (eval_frame i = EvalFrameDefault))) h
         ltac:(rewrite bool_decide_eq_true_2 by exact Hi; reflexivity)).
  run IH. reflexivity.
Qed.

Lemma set_eval_frame_funcs_hooked i rest h :
  eval_frame i = PracEvalFrame →
  set_eval_frame_funcs false (i :: rest) h = Crash (AssertionFailed 199).
Proof.
  intros Hi. cbn [set_eval_frame_funcs]. apply bind_crash. apply C_assert_fails.
  rewrite bool_decide_eq_false_2 by (rewrite Hi; discriminate). reflexivity.
Qed.

(** Enabling with a free code extra index, where the assertion on the
    hooks holds or is compiled out. *)
Lemma prac_enable_succeeds NDEBUG h :
  Z.of_nat (length (co_extra_freefuncs (this_interp h))) ≠ MAX_CO_EXTRA_USERS - 1 →
  NDEBUG = true ∨ hooks_default h →
  prac_enable NDEBUG h = Ok Py_None (enabled h).
Proof.
  intros Hfree Hhooks. unfold prac_enable.
  run (_PyEval_RequestCodeExtraIndex_free h PracCodeFreefunc Hfree).
  rewrite bool_decide_eq_false_2 by lia.
  rewrite bind_run, modify_run. cbv beta iota. rewrite bind_run, get_run. cbv beta iota.
  match goal with |- context [set_eval_frame_funcs NDEBUG ?l] => set (interps := l) end.
  match goal with |- (_ ≫= _) ?h' = _ => set (h1 := h') end.
  assert (set_eval_frame_funcs NDEBUG interps h1 = Ok (hooked <$> interps) h1) as Hset.
  { destruct Hhooks as [->|Hdef].
    - apply set_eval_frame_funcs_NDEBUG.
    - apply set_eval_frame_funcs_default.
      apply Forall_cons in Hdef as [Hthis Hothers].
      apply Forall_cons. split; [exact Hthis | exact Hothers]. }
  run Hset. reflexivity.
Qed.

Lemma get_function_for_code_unavailable h code :
  referrers_unavailable h →
  get_function_for_code code h =
    Crash (Aborted (stdout h ++ ["couldn't find gc.get_referrers?" +:+ newline])).
Proof.
  intros [Hstatic Hmod]. unfold get_function_for_code.
  run (modify_run (log_resolver_call code) h).
  run (get_run (log_resolver_call code h)).
  apply bind_crash.
  change (gc_get_referrers (log_resolver_call code h)) with (gc_get_referrers h).
  change (gc_module (log_resolver_call code h)) with (gc_module h).
  rewrite Hstatic. destruct (gc_module h); try reflexivity.
  exfalso. apply Hmod. reflexivity.
Qed.

(** C6, as amended. When [gc.get_referrers] cannot be found, enabling does
    not notice: with a free code extra index and default hooks (or
    compiled without assertions) [prac.enable()] returns [None], raises
    nothing and installs the hook.  The builtin is looked for by the
    resolver, in the per-call path: the first intercepted call of a code
    object whose slot is unset prints the complaint and aborts the
    process. *)
Theorem missing_builtin_aborts_first_call NDEBUG eval_default tstate f exc h x names extras :
  referrers_unavailable h →
  Z.of_nat (length (co_extra_freefuncs (this_interp h))) ≠ MAX_CO_EXTRA_USERS - 1 →
  NDEBUG = true ∨ hooks_default h →
  is_code_object (heap h) (f_code f) x names extras →
  default NULL (extras !! length (co_extra_freefuncs (this_interp h))) = NULL →
  prac_enable NDEBUG h = Ok Py_None (enabled h) ∧
  err (enabled h) = err h ∧
  eval_frame (this_interp (enabled h)) = PracEvalFrame ∧
  prac_eval_frame NDEBUG eval_default tstate f exc (enabled h) =
    Crash (Aborted (stdout h ++ ["couldn't find gc.get_referrers?" +:+ newline])).
Proof.
  intros Hun Hfree Hhooks Hc Hnull.
  split; [apply prac_enable_succeeds; assumption|].
  split; [reflexivity|]. split; [reflexivity|].
  unfold prac_eval_frame. apply bind_crash. unfold cached_function.
  run (get_run (enabled h)).
  assert (is_code_object (heap (enabled h)) (f_code f) x names extras) as Hc' by exact Hc.
  run (_PyCode_GetExtra_code (enabled h) (f_code f) x names extras (extra_idx (enabled h))
         Hc' ltac:(cbn; lia)).
  cbn [fst snd].
  rewrite bool_decide_eq_false_2 by (intros Hne; apply Hne; reflexivity).
  change (extra_idx (enabled h))
    with (Z.of_nat (length (co_extra_freefuncs (this_interp h)))).
  rewrite Nat2Z.id, (bool_decide_eq_true_2 _ Hnull).
  apply bind_crash.
  apply (get_function_for_code_unavailable (enabled h) (f_code f)). exact Hun.
Qed.

Lemma missing_builtin_aborts_first_call_witness :
  prac_enable false h_no_gc = Ok Py_None (enabled h_no_gc) ∧
  err (enabled h_no_gc) = err h_no_gc ∧
  eval_frame (this_interp (enabled h_no_gc)) = PracEvalFrame ∧
  prac_eval_frame false body 0 frame_int_str 0 (enabled h_no_gc) =
    Crash (Aborted (stdout h_no_gc ++ ["couldn't find gc.get_referrers?" +:+ newline])).
Proof.
  apply (missing_builtin_aborts_first_call false body 0 frame_int_str 0 h_no_gc
           (Object 2 PyCode_Type (CodeData ["x"; "y"] [])) ["x"; "y"] []).
  - by vm_compute.
  - by vm_compute.
  - right. apply Forall_cons. split; [reflexivity | by apply Forall_nil].
  - by vm_compute.
  - reflexivity.
Defined.

(** C6 as stated fails: in a process in which [import gc] fails, enabling
    succeeds, with the hook installed and no error raised, and it is the
    first intercepted call that ends the process. *)
Lemma enable_succeeds_without_builtin :
  gc_module h_no_gc = GcImportFails ∧
  (∃ h1, prac_enable false h_no_gc = Ok Py_None h1 ∧
         eval_frame (this_interp h1) = PracEvalFrame ∧ err h1 = None ∧
         prac_eval_frame false body 0 frame_int_str 0 h1 =
           Crash (Aborted ["couldn't find gc.get_referrers?" +:+ newline])).
Proof.
  split; [reflexivity|]. eexists. split; [by vm_compute|]. repeat split; by vm_compute.
Qed.

(** ** Enabling twice *)

Lemma prac_enable_again_asserts h :
  Z.of_nat (length (co_extra_freefuncs (this_interp h))) ≠ MAX_CO_EXTRA_USERS - 1 →
  eval_frame (this_interp h) = PracEvalFrame →
  prac_enable false h = Crash (AssertionFailed 199).
Proof.
  intros Hfree Hhooked. unfold prac_enable.
  run (_PyEval_RequestCodeExtraIndex_free h PracCodeFreefunc Hfree).
  rewrite bool_decide_eq_false_2 by lia.
  rewrite bind_run, modify_run. cbv beta iota. rewrite bind_run, get_run. cbv beta iota.
  apply bind_crash. apply set_eval_frame_funcs_hooked. exact Hhooked.
Qed.

(** C10, as amended. Enabling is not idempotent.  A second [prac.enable()]
    does not refuse: compiled with assertions it fails the assertion that
    the hook is still the default one; compiled without, it succeeds
    again, registers a second code extra user with the same callback and
    moves [extra_idx] to the new index, so that the state differs from the
    one after the first call (and every cache written so far is out of
    use).  Only the hooks are the same after the second call as after the
    first. *)
Theorem enable_twice_reserves_twice NDEBUG h :
  Z.of_nat (length (co_extra_freefuncs (this_interp h))) < MAX_CO_EXTRA_USERS - 2 →
  NDEBUG = true ∨ hooks_default h →
  prac_enable NDEBUG h = Ok Py_None (enabled h) ∧
  prac_enable false (enabled h) = Crash (AssertionFailed 199) ∧
  prac_enable true (enabled h) = Ok Py_None (enabled (enabled h)) ∧
  co_extra_freefuncs (this_interp (enabled (enabled h))) =
    co_extra_freefuncs (this_interp h) ++ [PracCodeFreefunc; PracCodeFreefunc] ∧
  extra_idx (enabled (enabled h)) = extra_idx (enabled h) + 1 ∧
  enabled (enabled h) ≠ enabled h ∧
  eval_frame <$> (this_interp (enabled (enabled h)) :: other_interps (enabled (enabled h))) =
    eval_frame <$> (this_interp (enabled h) :: other_interps (enabled h)).
Proof.
  intros Hfree Hhooks.
  assert (Z.of_nat (length (co_extra_freefuncs (this_interp (enabled h))))
          ≠ MAX_CO_EXTRA_USERS - 1) as Hfree'.
  { cbn. rewrite length_app. cbn. lia. }
  split; [apply prac_enable_succeeds; [lia | exact Hhooks]|].
  split; [apply prac_enable_again_asserts; [exact Hfree' | reflexivity]|].
  split; [apply prac_enable_succeeds; [exact Hfree' | left; reflexivity]|].
  split; [cbn; rewrite <- app_assoc; reflexivity|].
  split; [cbn; rewrite length_app; cbn; lia|].
  split.
  - intros Heq. apply (f_equal extra_idx) in Heq. cbn in Heq.
    rewrite length_app in Heq. cbn in Heq. lia.
  - cbn. f_equal. rewrite <- !list_fmap_compose. reflexivity.
Qed.

Lemma enable_twice_reserves_twice_witness :
  prac_enable false h0 = Ok Py_None (enabled h0) ∧
  prac_enable false (enabled h0) = Crash (AssertionFailed 199) ∧
  prac_enable true (enabled h0) = Ok Py_None (enabled (enabled h0)) ∧
  co_extra_freefuncs (this_interp (enabled (enabled h0))) =
    co_extra_freefuncs (this_interp h0) ++ [PracCodeFreefunc; PracCodeFreefunc] ∧
  extra_idx (enabled (enabled h0)) = extra_idx (enabled h0) + 1 ∧
  enabled (enabled h0) ≠ enabled h0 ∧
  eval_frame <$> (this_interp (enabled (enabled h0)) :: other_interps (enabled (enabled h0))) =
    eval_frame <$> (this_interp (enabled h0) :: other_interps (enabled h0)).
Proof.
  apply (enable_twice_reserves_twice false h0).
  - by vm_compute.
  - right. apply Forall_cons. split; [reflexivity | by apply Forall_nil].
Defined.

(** C10 as stated fails: after a second call two slots are reserved, not
    one, and [extra_idx] has moved; and the second call, where it does not
    fail its assertion, installs the hook over the installed one. *)
Lemma second_enable_reserves_second_slot :
  (∃ h1 h2, prac_enable true h0 = Ok Py_None h1 ∧ prac_enable true h1 = Ok Py_None h2 ∧
            co_extra_freefuncs (this_interp h1) = [PracCodeFreefunc] ∧
            extra_idx h1 = 0 ∧ eval_frame (this_interp h1) = PracEvalFrame ∧
            co_extra_freefuncs (this_interp h2) = [PracCodeFreefunc; PracCodeFreefunc] ∧
            extra_idx h2 = 1) ∧
  (∃ h1, prac_enable false h0 = Ok Py_None h1 ∧
         prac_enable false h1 = Crash (AssertionFailed 199)).
Proof.
  split.
  - eexists _, _. split; [by vm_compute|]. split; [by vm_compute|]. repeat split.
  - eexists. split; by vm_compute.
Qed.

(** ** Destruction of a code object *)

Lemma Py_DECREF_live h o y :
  live (heap h) o y → Py_DECREF o h = Ok tt (set_heap (release o y) h).
Proof.
  intros L. unfold Py_DECREF, release. run (deref_live _ _ _ L).
  case_bool_decide; reflexivity.
Qed.

Lemma call_freefunc_foreign fn extra h : foreign fn → call_freefunc fn extra h = Ok tt h.
Proof. intros Hfn. destruct fn; [exfalso; apply Hfn; reflexivity | reflexivity]. Qed.

Lemma free_extras_foreign freefuncs : ∀ extras h,
  Forall foreign freefuncs → free_extras freefuncs extras h = Ok tt h.
Proof.
  induction freefuncs as [|fn rest IH]; intros extras h Hall.
  - destruct extras; reflexivity.
  - apply Forall_cons in Hall as [Hfn Hall]. destruct extras as [|extra extras]; [reflexivity|].
    cbn [free_extras]. run (call_freefunc_foreign fn extra h Hfn). apply IH. exact Hall.
Qed.

(** Of the callbacks called on the slots of a dying code object, only the
    module's does something, on the module's slot. *)
Lemma free_extras_prac pre post : ∀ extras h,
  Forall foreign pre → Forall foreign post →
  free_extras (pre ++ PracCodeFreefunc :: post) extras h =
    prac_code_freefunc (default NULL (extras !! length pre)) h.
Proof.
  induction pre as [|fn pre IH]; intros extras h Hpre Hpost.
  - destruct extras as [|extra extras]; [reflexivity|].
    cbn [app free_extras length lookup]. cbn. rewrite bind_run.
    destruct (prac_code_freefunc extra h) as [[] h'|] eqn:E.
    + apply free_extras_foreign. exact Hpost.
    + reflexivity.
  - apply Forall_cons in Hpre as [Hfn Hpre].
    destruct extras as [|extra extras]; [reflexivity|].
    cbn [app free_extras]. run (call_freefunc_foreign fn extra h Hfn).
    rewrite IH by assumption. reflexivity.
Qed.

(** When a code object is destroyed in a process in which the module
    registered its callback once, with the slot [extra_idx]: if the cache
    of the code object is positive, the function object it holds loses
    exactly one reference (and is freed if that was its last one); if the
    cache is negative or unset, nothing is released: the heap only loses
    the code object. *)
Lemma code_dealloc_releases_positive h code x names extras pre post :
  is_code_object (heap h) code x names extras →
  co_extra_freefuncs (this_interp h) = pre ++ PracCodeFreefunc :: post →
  Forall foreign pre → Forall foreign post →
  extra_idx h = Z.of_nat (length pre) →
  (∀ func y,
     cache_of h code = Some (Positive func) → live (heap h) func y →
     code_dealloc code h = Ok tt (set_heap (delete code) (set_heap (release func y) h))) ∧
  (cache_of h code = Some Negative ∨ cache_of h code = Some Unset →
     code_dealloc code h = Ok tt (set_heap (delete code) h)).
Proof.
  intros Hc Hff Hpre Hpost Hidx.
  assert (code_dealloc code h =
            (prac_code_freefunc (default NULL (extras !! length pre));;
             modify (set_heap (delete code))) h) as Hdealloc.
  { unfold code_dealloc. run (co_extra_of_code _ _ _ _ _ Hc). run (get_run h).
    rewrite Hff. rewrite !bind_run. rewrite free_extras_prac by assumption. reflexivity. }
  rewrite (cache_of_code h code x names extras Hc). cbv zeta.
  rewrite Hidx, Nat2Z.id. rewrite Hdealloc. clear Hdealloc.
  generalize (default NULL (extras !! length pre)). intros extra.
  split.
  - intros func y Hpos Ly.
    repeat case_bool_decide; try discriminate. injection Hpos as ->.
    unfold prac_code_freefunc.
    rewrite !bool_decide_eq_true_2 by assumption. cbn [andb].
    run (Py_DECREF_live h func y Ly). reflexivity.
  - intros Hstate. unfold prac_code_freefunc.
    destruct Hstate as [Hstate|Hstate]; repeat case_bool_decide;
      try discriminate; try contradiction; cbn [andb]; reflexivity.
Qed.

(** The reference the resolver takes on the function is the one the
    callback gives up: the count of the function is the same before the
    first call and after the destruction of the code object. *)
Example reference_taken_and_released :
  ob_refcnt <$> heap h_enabled !! 1100 = Some 1 ∧
  cache_of h_cached 1000 = Some (Positive 1100) ∧
  ob_refcnt <$> heap h_cached !! 1100 = Some 2 ∧
  ob_refcnt <$> heap (state_after (code_dealloc 1000) h_cached) !! 1100 = Some 1 ∧
  heap (state_after (code_dealloc 1000) h_cached) !! 1000 = None.
Proof. repeat split; by vm_compute. Qed.

(** After a second [prac.enable()] the unit cached by the first call of
    [f] is resolved again, through the new slot. *)
Example second_enable_resolves_again :
  resolver_calls h_cached = [1000] ∧
  resolver_calls
    (state_after (cached_function frame_int_str) (state_after (prac_enable true) h_cached))
    = [1000; 1000].
Proof. split; by vm_compute. Qed.

(** * Further properties of the module *)

Import Cases.

Lemma mret_run {A} (a : A) h : (mret a : M A) h = Ok a h.
Proof. reflexivity. Qed.

(** ** Outcomes of enabling *)

(** X1. When the running interpreter has no code extra index left,
    [prac.enable()] raises [ValueError("used all code extras!")] and
    returns [NULL]; nothing else happens: no hook is installed and the
    slot index stays. *)
Theorem enable_without_free_index NDEBUG h :
  Z.of_nat (length (co_extra_freefuncs (this_interp h))) = MAX_CO_EXTRA_USERS - 1 →
  prac_enable NDEBUG h =
    Ok NULL (set_err (Some (PyExc_ValueError, "used all code extras!")) h).
Proof.
  intros Hfull. unfold prac_enable, _PyEval_RequestCodeExtraIndex.
  rewrite bind_run, (bind_ok _ _ _ _ _ (get_run h)).
  rewrite (bool_decide_eq_true_2 _ Hfull).
  change ((mret (-1) : M Z) h) with (Ok (-1) h). cbv beta iota.
  rewrite bool_decide_eq_true_2 by lia. reflexivity.
Qed.

Lemma enable_without_free_index_witness :
  prac_enable false h_no_index =
    Ok NULL (set_err (Some (PyExc_ValueError, "used all code extras!")) h_no_index).
Proof. apply (enable_without_free_index false h_no_index). by vm_compute. Defined.

Lemma set_eval_frame_funcs_foreign interps h :
  ¬ Forall (fun i => eval_frame i = EvalFrameDefault) interps →
  set_eval_frame_funcs false interps h = Crash (AssertionFailed 199).
Proof.
  induction interps as [|i rest IH]; intros Hnot.
  - exfalso. apply Hnot. by apply Forall_nil.
  - cbn [set_eval_frame_funcs].
    destruct (decide (eval_frame i = EvalFrameDefault)) as [Hi|Hi].
    + run (C_assert_holds false 199 (mret (bool_decide (eval_frame i = EvalFrameDefault))) h
             ltac:(rewrite bool_decide_eq_true_2 by exact Hi; reflexivity)).
      apply bind_crash. apply IH. intros Hrest. apply Hnot.
      apply Forall_cons. split; assumption.
    + apply bind_crash. apply C_assert_fails.
      rewrite bool_decide_eq_false_2 by exact Hi. reflexivity.
Qed.

(** X2. When the hook of some interpreter is not the default evaluation
    function (another extension installed its own), [prac.enable()]
    compiled with assertions fails the assertion of line 199; compiled
    without, it succeeds and replaces every hook, the foreign one
    included, by [prac_eval_frame]. *)
Theorem enable_over_foreign_hook h :
  Z.of_nat (length (co_extra_freefuncs (this_interp h))) ≠ MAX_CO_EXTRA_USERS - 1 →
  ¬ hooks_default h →
  prac_enable false h = Crash (AssertionFailed 199) ∧
  prac_enable true h = Ok Py_None (enabled h) ∧
  Forall (fun i => eval_frame i = PracEvalFrame)
    (this_interp (enabled h) :: other_interps (enabled h)).
Proof.
  intros Hfree Hforeign. split; [|split].
  - unfold prac_enable.
    run (_PyEval_RequestCodeExtraIndex_free h PracCodeFreefunc Hfree).
    rewrite bool_decide_eq_false_2 by lia.
    rewrite bind_run, modify_run. cbv beta iota. rewrite bind_run, get_run. cbv beta iota.
    apply bind_crash. apply set_eval_frame_funcs_foreign.
    intros Hdef. apply Hforeign. unfold hooks_default.
    apply Forall_cons in Hdef as [Hthis Hothers].
    apply Forall_cons. split; [exact Hthis | exact Hothers].
  - apply prac_enable_succeeds; [exact Hfree | left; reflexivity].
  - apply Forall_cons. split; [reflexivity|]. cbn.
    apply Forall_fmap. apply Forall_true. reflexivity.
Qed.

Lemma enable_over_foreign_hook_witness :
  prac_enable false h_foreign_hook = Crash (AssertionFailed 199) ∧
  prac_enable true h_foreign_hook = Ok Py_None (enabled h_foreign_hook) ∧
  Forall (fun i => eval_frame i = PracEvalFrame)
    (this_interp (enabled h_foreign_hook) :: other_interps (enabled h_foreign_hook)).
Proof.
  apply (enable_over_foreign_hook h_foreign_hook).
  - by vm_compute.
  - intros Hdef. apply Forall_cons in Hdef as [_ Hdef].
    apply Forall_cons in Hdef as [Hdef _]. discriminate.
Defined.

Lemma set_eval_frame_funcs_inv NDEBUG interps : ∀ h interps' h',
  set_eval_frame_funcs NDEBUG interps h = Ok interps' h' →
  interps' = hooked <$> interps ∧ h' = h.
Proof.
  induction interps as [|i rest IH]; intros h interps' h' E; cbn [set_eval_frame_funcs] in E.
  - injection E as <- <-. split; reflexivity.
  - rewrite bind_run in E.
    destruct (C_assert NDEBUG 199 (mret (bool_decide (eval_frame i = EvalFrameDefault))) h)
      as [[] h1|] eqn:Ea; [|discriminate].
    assert (h1 = h) as ->.
    { unfold C_assert in Ea. destruct NDEBUG; [injection Ea as <-; reflexivity|].
      rewrite bind_run in Ea.
      change ((mret (bool_decide (eval_frame i = EvalFrameDefault)) : M bool) h)
        with (Ok (bool_decide (eval_frame i = EvalFrameDefault)) h) in Ea.
      cbv beta iota in Ea. destruct (bool_decide _); [|discriminate].
      injection Ea as <-. reflexivity. }
    rewrite bind_run in E.
    destruct (set_eval_frame_funcs NDEBUG rest h) as [rest' h2|] eqn:Er; [|discriminate].
    destruct (IH _ _ _ Er) as [-> ->]. injection E as <- <-. split; reflexivity.
Qed.

(** X3. Whenever [prac.enable()] returns something other than [NULL], it
    returns [None] and the process is the enabled one: the module's slot
    index is one the running interpreter handed out, registered with
    [prac_code_freefunc]; the hook of every interpreter is
    [prac_eval_frame]; the other interpreters have no more code extra
    users than before (the index is reserved with the running interpreter
    only); and no object, nor the error indicator, has changed. *)
Theorem enable_reserves_and_hooks NDEBUG h r h' :
  prac_enable NDEBUG h = Ok r h' → r ≠ NULL →
  r = Py_None ∧ h' = enabled h ∧
  slot_reserved h' ∧
  co_extra_freefuncs (this_interp h') !! Z.to_nat (extra_idx h') = Some PracCodeFreefunc ∧
  Forall (fun i => eval_frame i = PracEvalFrame) (this_interp h' :: other_interps h') ∧
  co_extra_freefuncs <$> other_interps h' = co_extra_freefuncs <$> other_interps h ∧
  heap h' = heap h ∧ err h' = err h.
Proof.
  intros Hrun Hr.
  destruct (decide (Z.of_nat (length (co_extra_freefuncs (this_interp h)))
                    = MAX_CO_EXTRA_USERS - 1)) as [Hfull|Hfree].
  { unfold prac_enable, _PyEval_RequestCodeExtraIndex in Hrun.
    rewrite bind_run, (bind_ok _ _ _ _ _ (get_run h)) in Hrun.
    rewrite (bool_decide_eq_true_2 _ Hfull), mret_run in Hrun. cbv beta iota in Hrun.
    rewrite bool_decide_eq_true_2 in Hrun by lia.
    injection Hrun as <- _. exfalso. apply Hr. reflexivity. }
  assert (r = Py_None ∧ h' = enabled h) as [-> ->].
  { unfold prac_enable in Hrun.
    rewrite (bind_ok _ _ _ _ _ (_PyEval_RequestCodeExtraIndex_free h PracCodeFreefunc Hfree))
      in Hrun.
    rewrite bool_decide_eq_false_2 in Hrun by lia.
    rewrite bind_run, modify_run in Hrun. cbv beta iota in Hrun.
    rewrite bind_run, get_run in Hrun. cbv beta iota in Hrun.
    rewrite bind_run in Hrun.
    match type of Hrun with
    | context [set_eval_frame_funcs NDEBUG ?l ?h1] =>
        destruct (set_eval_frame_funcs NDEBUG l h1) as [l' h2|] eqn:El; [|discriminate];
        destruct (set_eval_frame_funcs_inv NDEBUG l h1 l' h2 El) as [-> ->]
    end.
    cbn in Hrun. injection Hrun as <- <-. split; reflexivity. }
  split; [reflexivity|]. split; [reflexivity|].
  split; [|split; [|split; [|split; [|split]]]].
  - unfold slot_reserved. cbn. rewrite length_app. cbn. lia.
  - cbn. rewrite Nat2Z.id. rewrite lookup_app_r by lia.
    rewrite Nat.sub_diag. reflexivity.
  - apply Forall_cons. split; [reflexivity|]. cbn.
    apply Forall_fmap. apply Forall_true. reflexivity.
  - cbn. rewrite <- list_fmap_compose. reflexivity.
  - reflexivity.
  - reflexivity.
Qed.

Lemma enable_reserves_and_hooks_witness :
  Py_None = Py_None ∧ enabled h0 = enabled h0 ∧
  slot_reserved (enabled h0) ∧
  co_extra_freefuncs (this_interp (enabled h0)) !! Z.to_nat (extra_idx (enabled h0))
    = Some PracCodeFreefunc ∧
  Forall (fun i => eval_frame i = PracEvalFrame)
    (this_interp (enabled h0) :: other_interps (enabled h0)) ∧
  co_extra_freefuncs <$> other_interps (enabled h0) = co_extra_freefuncs <$> other_interps h0 ∧
  heap (enabled h0) = heap h0 ∧ err (enabled h0) = err h0.
Proof.
  apply (enable_reserves_and_hooks false h0 Py_None (enabled h0)).
  - by vm_compute.
  - by vm_compute.
Defined.

(** ** Cache hits *)

(** X4. A call of a code object whose cache is set takes no reference and
    changes nothing before it checks or evaluates: with a negative cache
    the call is the default evaluation in the very state it came in, with
    a positive one the frame is checked against the cached function in
    that state. *)
Theorem cache_hit_changes_nothing NDEBUG eval_default tstate f exc h x names extras :
  is_code_object (heap h) (f_code f) x names extras → 0 ≤ extra_idx h →
  (cache_of h (f_code f) = Some Negative →
   cached_function f h = Ok None h ∧
   prac_eval_frame NDEBUG eval_default tstate f exc h = eval_default tstate f exc h) ∧
  (∀ func, cache_of h (f_code f) = Some (Positive func) →
   cached_function f h = Ok (Some func) h ∧
   prac_eval_frame NDEBUG eval_default tstate f exc h =
     (stop ← do_type_checking NDEBUG func (f_code f) f;
      if stop : bool then mret NULL else eval_default tstate f exc) h).
Proof.
  intros Hc Hi. rewrite (cache_of_code h _ _ _ _ Hc). cbv zeta.
  pose proof (cached_function_hit f h x names extras Hc Hi) as Hhit. revert Hhit.
  generalize (default NULL (extras !! Z.to_nat (extra_idx h))). intros extra Hhit.
  destruct (decide (extra = NULL)) as [Hn|Hn].
  { rewrite (bool_decide_eq_true_2 _ Hn). split; [discriminate | intros func; discriminate]. }
  rewrite (bool_decide_eq_false_2 _ Hn). specialize (Hhit Hn).
  destruct (decide (extra = SENTINEL)) as [Hs|Hs].
  - rewrite (bool_decide_eq_true_2 _ Hs) in Hhit |- *.
    split; [|intros func; discriminate]. intros _. split; [exact Hhit|].
    unfold prac_eval_frame. run Hhit. reflexivity.
  - rewrite (bool_decide_eq_false_2 _ Hs) in Hhit |- *.
    split; [discriminate|]. intros func Hpos. injection Hpos as <-.
    split; [exact Hhit|]. unfold prac_eval_frame. run Hhit. reflexivity.
Qed.

Lemma cache_hit_changes_nothing_witness :
  (cache_of h_cached (f_code frame_int_int) = Some Negative →
   cached_function frame_int_int h_cached = Ok None h_cached ∧
   prac_eval_frame false body 0 frame_int_int 0 h_cached = body 0 frame_int_int 0 h_cached) ∧
  (∀ func, cache_of h_cached (f_code frame_int_int) = Some (Positive func) →
   cached_function frame_int_int h_cached = Ok (Some func) h_cached ∧
   prac_eval_frame false body 0 frame_int_int 0 h_cached =
     (stop ← do_type_checking false func (f_code frame_int_int) frame_int_int;
      if stop : bool then mret NULL else body 0 frame_int_int 0) h_cached).
Proof.
  apply (cache_hit_changes_nothing false body 0 frame_int_int 0 h_cached
           (Object 2 PyCode_Type (CodeData ["x"; "y"] [1100])) ["x"; "y"] [1100]).
  - by vm_compute.
  - by vm_compute.
Defined.

(** ** Calls that pass *)


(** ** Entries the checker crashes on *)

(** A crash of the loop body on an entry behind satisfied ones is a crash
    of the checker. *)
Lemma do_type_checking_crash_at NDEBUG h func fx fcode annotations dx pre item post code f fl :
  live (heap h) func fx → ob_data fx = FunctionData fcode annotations →
  live (heap h) annotations dx → ob_data dx = DictData (pre ++ item :: post) →
  allocations_succeed 2 h →
  Forall (satisfied (heap h) code f) pre →
  check_item NDEBUG code f item (allocated 2 h) = Crash fl →
  do_type_checking NDEBUG func code f h = Crash fl.
Proof.
  intros Lf Df Ld Dd Ha Hpre Hcrash.
  rewrite (do_type_checking_items NDEBUG h func fx fcode annotations dx
             (pre ++ item :: post) code f) by assumption.
  rewrite check_items_satisfied by exact Hpre.
  cbn [check_items]. apply bind_crash. exact Hcrash.
Qed.

Lemma check_item_key_no_string h code f key value kx :
  live (heap h) key kx → ob_type kx ≠ PyUnicode_Type →
  check_item false code f (key, value) h = Crash (AssertionFailed 112).
Proof.
  intros Lk Tk. unfold check_item. cbn [fst snd]. apply bind_crash.
  apply C_assert_fails. unfold PyUnicode_CheckExact.
  rewrite (Py_IS_TYPE_live _ _ _ _ Lk), bool_decide_eq_false_2 by exact Tk. reflexivity.
Qed.

(** X6. An entry of the annotations whose key is not exactly a string (any
    other object put into [__annotations__], an instance of a subclass of
    [str] included) fails, compiled with assertions, the assertion of line
    112: the loop body does, and so does the checker that comes to the
    entry, the entries before it being satisfied. *)
Theorem key_no_string_fails_assertion h func fx fcode annotations dx pre key value post
    code f kx :
  live (heap h) key kx → ob_type kx ≠ PyUnicode_Type →
  live (heap h) func fx → ob_data fx = FunctionData fcode annotations →
  live (heap h) annotations dx → ob_data dx = DictData (pre ++ (key, value) :: post) →
  allocations_succeed 2 h →
  Forall (satisfied (heap h) code f) pre →
  check_item false code f (key, value) h = Crash (AssertionFailed 112) ∧
  do_type_checking false func code f h = Crash (AssertionFailed 112).
Proof.
  intros Lk Tk Lf Df Ld Dd Ha Hpre.
  split; [exact (check_item_key_no_string h code f key value kx Lk Tk)|].
  apply (do_type_checking_crash_at false h func fx fcode annotations dx pre (key, value) post);
    try assumption.
  exact (check_item_key_no_string (allocated 2 h) code f key value kx Lk Tk).
Qed.

Lemma key_no_string_fails_assertion_witness :
  check_item false 1000 frame_int_str (2000, int_type) h_int_key
    = Crash (AssertionFailed 112) ∧
  do_type_checking false 1100 1000 frame_int_str h_int_key = Crash (AssertionFailed 112).
Proof.
  apply (key_no_string_fails_assertion h_int_key 1100
           (Object 1 PyFunction_Type (FunctionData 1000 1200)) 1000 1200
           (Object 1 PyDict_Type (DictData [(2000, int_type); (1310, PyUnicode_Type)]))
           [] 2000 int_type [(1310, PyUnicode_Type)] 1000 frame_int_str
           (Object 1 int_type OtherData)).
  - by vm_compute.
  - by vm_compute.
  - by vm_compute.
  - reflexivity.
  - by vm_compute.
  - reflexivity.
  - by vm_compute.
  - by apply Forall_nil.
Defined.

Lemma check_item_unbound NDEBUG h code f item :
  unbound (heap h) code f item →
  check_item NDEBUG code f item h = Crash (Undefined "null pointer dereference").
Proof.
  intros (names & s & ename & Hc & Hk & Hin & Hslot & (ex & mro & Le & Te & De)).
  destruct item as [key expected]. cbn [fst snd] in *.
  pose proof Hk as (kx & Lk & Tk & Dk).
  unfold check_item. cbn [fst snd].
  run (C_assert_exact_str NDEBUG h key s Hk).
  run (co_varnames_of_code _ _ _ Hc).
  run (find_varname_str h key kx s names 0 Lk Dk).
  rewrite Z.add_0_l.
  apply name_index_lt in Hin.
  run (C_assert_holds NDEBUG 122
         (mret (negb (bool_decide (Z.of_nat (name_index names s) = Z.of_nat (length names))))) h
         ltac:(rewrite bool_decide_eq_false_2 by lia; reflexivity)).
  run (localsplus_at_slot h f _ _ Hslot).
  unfold check_arg, PyType_CheckExact. run (Py_IS_TYPE_live h expected ex PyType_Type Le).
  rewrite bool_decide_eq_true_2 by exact Te. cbn [negb].
  reflexivity.
Qed.

(** X7. The checker does not test the argument for [NULL]: for an entry
    with a plain type whose name is a local variable with an unbound slot
    (the slot holds [NULL]), reading the type of the argument
    dereferences the null pointer, in the loop body and in the checker
    that comes to the entry; no error is raised and the entry is not
    skipped. *)
Theorem unbound_argument_is_dereferenced NDEBUG h func fx fcode annotations dx pre item post
    code f :
  unbound (heap h) code f item →
  live (heap h) func fx → ob_data fx = FunctionData fcode annotations →
  live (heap h) annotations dx → ob_data dx = DictData (pre ++ item :: post) →
  allocations_succeed 2 h →
  Forall (satisfied (heap h) code f) pre →
  check_item NDEBUG code f item h = Crash (Undefined "null pointer dereference") ∧
  do_type_checking NDEBUG func code f h = Crash (Undefined "null pointer dereference").
Proof.
  intros Hu Lf Df Ld Dd Ha Hpre.
  split; [exact (check_item_unbound NDEBUG h code f item Hu)|].
  apply (do_type_checking_crash_at NDEBUG h func fx fcode annotations dx pre item post);
    try assumption.
  exact (check_item_unbound NDEBUG (allocated 2 h) code f item Hu).
Qed.

Lemma unbound_argument_is_dereferenced_witness :
  check_item false 1000 frame_int_unbound (1310, PyUnicode_Type) h_enabled
    = Crash (Undefined "null pointer dereference") ∧
  do_type_checking false 1100 1000 frame_int_unbound h_enabled
    = Crash (Undefined "null pointer dereference").
Proof.
  apply (unbound_argument_is_dereferenced false h_enabled 1100
           (Object 1 PyFunction_Type (FunctionData 1000 1200)) 1000 1200
           (Object 1 PyDict_Type (DictData [(1300, int_type); (1310, PyUnicode_Type)]))
           [(1300, int_type)] (1310, PyUnicode_Type) [] 1000 frame_int_unbound).
  - exists ["x"; "y"], "y", "str". repeat split; try (by vm_compute).
    + exists (Object 2 PyCode_Type (CodeData ["x"; "y"] [])), []. by vm_compute.
    + exists (str_object "y"). by vm_compute.
    + set_solver.
    + exists (type_object "str" [PyUnicode_Type; object_type]),
        [PyUnicode_Type; object_type]. by vm_compute.
  - by vm_compute.
  - reflexivity.
  - by vm_compute.
  - reflexivity.
  - by vm_compute.
  - apply Forall_cons. split; [|by apply Forall_nil].
    exists "x", "int", (Object 1 int_type OtherData). split; [|reflexivity].
    exists ["x"; "y"], 2000. repeat split; try (by vm_compute).
    + exists (Object 2 PyCode_Type (CodeData ["x"; "y"] [])), []. by vm_compute.
    + exists (str_object "x"). by vm_compute.
    + set_solver.
    + exists (type_object "int" [int_type; object_type]), [int_type; object_type].
      by vm_compute.
Defined.

(** ** Failures the module swallows *)

(** X8. When the resolver cannot pack its tuple or the builtin returns
    [NULL], the resolver clears the error indicator and returns [NULL]: no
    error reaches the caller, no reference is taken and no object
    changes. *)
Theorem resolver_failure_is_silent h code :
  referrers_available h →
  hd true (allocs h) = false ∨ get_referrers h code = None →
  get_function_for_code code h = Ok NULL (set_err None (scanning code h)) ∧
  heap (set_err None (scanning code h)) = heap h.
Proof.
  intros Hgc Hfail. split; [|reflexivity]. unfold get_function_for_code, scanning.
  run (modify_run (log_resolver_call code) h).
  run (get_run (log_resolver_call code h)).
  run (find_builtin (log_resolver_call code h) Hgc).
  unfold PyTuple_Pack1.
  run (allocate_total (set_gc_get_referrers true (log_resolver_call code h))).
  change (allocs (set_gc_get_referrers true (log_resolver_call code h))) with (allocs h).
  destruct (hd true (allocs h)) eqn:Hb; cbn [negb]; [|reflexivity].
  destruct Hfail as [Hfail|Hnone]; [discriminate|].
  unfold call_gc_get_referrers.
  rewrite bind_run, (bind_ok _ _ _ _ _ (get_run _)).
  rewrite mret_run. cbv beta iota.
  change (get_referrers (allocated 1 (set_gc_get_referrers true (log_resolver_call code h))) code)
    with (get_referrers h code).
  rewrite Hnone. reflexivity.
Qed.

Lemma resolver_failure_is_silent_witness :
  get_function_for_code 1000 h_no_tuple = Ok NULL (set_err None (scanning 1000 h_no_tuple)) ∧
  heap (set_err None (scanning 1000 h_no_tuple)) = heap h_no_tuple.
Proof.
  apply (resolver_failure_is_silent h_no_tuple 1000).
  - right. reflexivity.
  - left. reflexivity.
Defined.

(** X9. When the annotations of the resolved function cannot be listed
    (the annotations object is no dict, or there is no memory for the list
    of items or for its iterator), checking is given up whatever the
    arguments are: the error indicator is cleared and the call is the
    default evaluation of the frame, in a state with the same objects and
    caches. *)
Theorem unlistable_annotations_are_not_checked NDEBUG eval_default tstate f exc h h1
    func fx fcode annotations dx :
  cached_function f h = Ok (Some func) h1 →
  live (heap h1) func fx → ob_data fx = FunctionData fcode annotations →
  live (heap h1) annotations dx →
  (∀ items, ob_data dx ≠ DictData items) ∨ ¬ allocations_succeed 2 h1 →
  ∃ h2, prac_eval_frame NDEBUG eval_default tstate f exc h = eval_default tstate f exc h2 ∧
        err h2 = None ∧ same_cache h1 h2.
Proof.
  intros Hres Lf Df Ld Hwhy. unfold prac_eval_frame. run Hres. cbn beta iota.
  unfold do_type_checking. rewrite bind_run.
  rewrite (bind_ok _ _ _ _ _ (func_annotations_of_function _ _ _ _ _ Lf Df)).
  rewrite bool_decide_eq_false_2 by apply Ld.
  unfold PyMapping_Items, PyObject_GetIter.
  rewrite (bind_run (deref annotations ≫= _)), (bind_run (deref annotations)).
  rewrite (deref_live _ _ _ Ld).
  destruct (ob_data dx) as [| | | |items|] eqn:Dd;
    try (exists (set_err None h1); split; [reflexivity|]; split; [reflexivity|];
         split; reflexivity).
  destruct Hwhy as [Hnodict|Hmem]; [exfalso; exact (Hnodict items eq_refl)|].
  rewrite (bind_ok _ _ _ _ _ (allocate_total h1)).
  rewrite mret_run.
  cbv beta iota.
  destruct (hd true (allocs h1)) eqn:Hb1.
  - rewrite (bind_run (allocate ≫= _)).
    rewrite (bind_ok _ _ _ _ _ (allocate_total (allocated 1 h1))).
    rewrite mret_run.
    cbv beta iota.
    destruct (hd true (allocs (allocated 1 h1))) eqn:Hb2.
    + exfalso. apply Hmem. unfold allocations_succeed, allocated in *.
      destruct h1 as [? ? ? ? ? al ? ? ? ? ?]. cbn in *.
      destruct al as [|b1 [|b2 al]]; cbn in *; subst;
        repeat (apply Forall_cons; split; [reflexivity|]); by apply Forall_nil.
    + exists (set_err None (allocated 1 (allocated 1 h1))). split; [reflexivity|].
      split; [reflexivity|]. split; reflexivity.
  - exists (set_err None (allocated 1 h1)). split; [reflexivity|].
    split; [reflexivity|]. split; reflexivity.
Qed.

Lemma unlistable_annotations_are_not_checked_witness :
  ∃ h2, prac_eval_frame false body 0 frame_int_int 0 h_annotations_no_dict =
          body 0 frame_int_int 0 h2 ∧
        err h2 = None ∧
        same_cache (state_after (cached_function frame_int_int) h_annotations_no_dict) h2.
Proof.
  apply (unlistable_annotations_are_not_checked false body 0 frame_int_int 0
           h_annotations_no_dict
           (state_after (cached_function frame_int_int) h_annotations_no_dict)
           1100 (Object 2 PyFunction_Type (FunctionData 1000 1300)) 1000 1300
           (str_object "x")).
  - by vm_compute.
  - by vm_compute.
  - reflexivity.
  - by vm_compute.
  - left. intros items. discriminate.
Defined.

(** ** The first call of a unit with a function *)



(** ** Frames the cache cannot be read for *)

(** X11. When the code extra of the frame's code cannot be read (the
    object in [f_code] is no code object and [_PyCode_GetExtra] fails),
    the call goes to the default evaluation at once: nothing is resolved,
    nothing is checked, and the objects and caches are as they were. *)
Theorem frame_without_code_is_delegated NDEBUG eval_default tstate f exc h x :
  live (heap h) (f_code f) x → ob_type x ≠ PyCode_Type →
  ∃ h2, prac_eval_frame NDEBUG eval_default tstate f exc h = eval_default tstate f exc h2 ∧
        same_cache h h2.
Proof.
  intros L T. exists (set_err (Some (PyExc_SystemError, "bad argument to internal function")) h).
  split; [|split; reflexivity].
  assert (cached_function f h =
            Ok None (set_err (Some (PyExc_SystemError, "bad argument to internal function")) h))
    as Hcf.
  { unfold cached_function. run (get_run h). unfold _PyCode_GetExtra, PyCode_Check.
    rewrite bind_run, (bind_ok _ _ _ _ _ (Py_IS_TYPE_live h (f_code f) x PyCode_Type L)).
    rewrite (bool_decide_eq_false_2 _ T). reflexivity. }
  unfold prac_eval_frame. run Hcf. reflexivity.
Qed.

Lemma frame_without_code_is_delegated_witness :
  ∃ h2, prac_eval_frame false body 0 frame_no_code 0 h_enabled = body 0 frame_no_code 0 h2 ∧
        same_cache h_enabled h2.
Proof.
  apply (frame_without_code_is_delegated false body 0 frame_no_code 0 h_enabled
           (Object 1 PyDict_Type (DictData [(1300, int_type); (1310, PyUnicode_Type)]))).
  - by vm_compute.
  - by vm_compute.
Defined.

(** ** What the checker leaves behind *)

Lemma reads_ret {A} (a : A) : reads (mret a : M A).
Proof. intros h a' h' E. injection E as _ <-. reflexivity. Qed.

Lemma reads_crash {A} (f : fault) : reads (crash f : M A).
Proof. intros h a h' E. discriminate. Qed.

Lemma reads_bind {A B} (m : M A) (k : A → M B) :
  reads m → (∀ a, reads (k a)) → reads (m ≫= k).
Proof.
  intros Hm Hk h b h' E. rewrite bind_run in E.
  destruct (m h) as [a h1|] eqn:E1; [|discriminate].
  apply Hm in E1 as ->. exact (Hk _ _ _ _ E).
Qed.

Lemma reads_deref o : reads (deref o).
Proof. intros h x h' E. exact (deref_state _ _ _ _ E). Qed.

Ltac reads_step :=
  first
    [ apply reads_ret | apply reads_crash | apply reads_deref
    | apply reads_bind; [|intros ?]
    | match goal with
      | |- reads (match ?x with _ => _ end) => destruct x
      | |- reads (if ?x then _ else _) => destruct x
      end ].

Lemma reads_Py_TYPE o : reads (Py_TYPE o).
Proof. unfold Py_TYPE. repeat reads_step. Qed.

Lemma reads_Py_IS_TYPE o t : reads (Py_IS_TYPE o t).
Proof. unfold Py_IS_TYPE, Py_TYPE. repeat reads_step. Qed.

Lemma reads_tp_name_of t : reads (tp_name_of t).
Proof. unfold tp_name_of. repeat reads_step. Qed.

Lemma reads_PyUnicode_AsUTF8 o : reads (PyUnicode_AsUTF8 o).
Proof. unfold PyUnicode_AsUTF8. repeat reads_step. Qed.

Lemma reads_co_varnames_of code : reads (co_varnames_of code).
Proof. unfold co_varnames_of. repeat reads_step. Qed.

Lemma reads_localsplus_at f i : reads (localsplus_at f i).
Proof. unfold localsplus_at. repeat reads_step. Qed.

Lemma reads_find_varname names key : ∀ i, reads (find_varname names key i).
Proof.
  induction names as [|n rest IH]; intros i; cbn [find_varname].
  - apply reads_ret.
  - unfold PyObject_RichCompareBool_EQ. repeat reads_step. apply IH.
Qed.

Lemma reads_C_assert NDEBUG line c : reads c → reads (C_assert NDEBUG line c).
Proof. intros Hc. unfold C_assert. destruct NDEBUG; [apply reads_ret|]. repeat reads_step. exact Hc. Qed.

Lemma bind_reads_inv {A B} (m : M A) (k : A → M B) h b h' :
  reads m → (m ≫= k) h = Ok b h' → ∃ a, k a h = Ok b h'.
Proof.
  intros Hm E. rewrite bind_run in E.
  destruct (m h) as [a h1|] eqn:E1; [|discriminate].
  apply Hm in E1 as ->. eauto.
Qed.

(** The loop body either goes on, having changed nothing, or leaves with
    a [TypeError] set and nothing else changed. *)
Lemma check_item_outcome NDEBUG code f item h b h' :
  check_item NDEBUG code f item h = Ok b h' →
  (b = false ∧ h' = h) ∨
  (b = true ∧ ∃ msg, h' = set_err (Some (PyExc_TypeError, msg)) h).
Proof.
  unfold check_item. intros E.
  apply bind_reads_inv in E as [_ E];
    [|apply reads_C_assert; apply reads_Py_IS_TYPE].
  apply bind_reads_inv in E as [names E]; [|apply reads_co_varnames_of].
  apply bind_reads_inv in E as [idx E]; [|apply reads_find_varname].
  apply bind_reads_inv in E as [_ E]; [|apply reads_C_assert; apply reads_ret].
  apply bind_reads_inv in E as [arg E]; [|apply reads_localsplus_at].
  unfold check_arg in E.
  apply bind_reads_inv in E as [is_type E]; [|apply reads_Py_IS_TYPE].
  destruct is_type; cbn [negb] in E.
  - apply bind_reads_inv in E as [same E]; [|apply reads_Py_IS_TYPE].
    destruct same; cbn [negb] in E.
    + injection E as <- <-. left. split; reflexivity.
    + apply bind_reads_inv in E as [ename E]; [|apply reads_tp_name_of].
      apply bind_reads_inv in E as [actual E]; [|apply reads_Py_TYPE].
      apply bind_reads_inv in E as [aname E]; [|apply reads_tp_name_of].
      apply bind_reads_inv in E as [parameter E]; [|apply reads_PyUnicode_AsUTF8].
      injection E as <- <-. right. split; [reflexivity|]. eauto.
  - apply bind_reads_inv in E as [t E]; [|apply reads_Py_TYPE].
    apply bind_reads_inv in E as [name E]; [|apply reads_tp_name_of].
    discriminate.
Qed.

Lemma check_items_outcome NDEBUG code f items : ∀ h b h',
  check_items NDEBUG code f items h = Ok b h' →
  (b = false ∧ h' = h) ∨
  (b = true ∧ ∃ msg, h' = set_err (Some (PyExc_TypeError, msg)) h).
Proof.
  induction items as [|item rest IH]; intros h b h' E; cbn [check_items] in E.
  - injection E as <- <-. left. split; reflexivity.
  - rewrite bind_run in E.
    destruct (check_item NDEBUG code f item h) as [stop h1|] eqn:Ei; [|discriminate].
    destruct (check_item_outcome _ _ _ _ _ _ _ Ei) as [[-> ->]|[-> (msg & ->)]].
    + exact (IH _ _ _ E).
    + injection E as <- <-. right. split; [reflexivity|]. eauto.
Qed.

(** X12. Whenever the checker returns, it has printed nothing and changed
    no object, cache, hook or slot index; it returns [true] only with a
    [TypeError] set, and when it returns [false] the error indicator is as
    it was or cleared: a rejected call always carries its exception, a
    call that goes on to evaluation never one of the checker's. *)
Theorem checker_rejects_with_type_error NDEBUG func code f h b h' :
  do_type_checking NDEBUG func code f h = Ok b h' →
  same_cache h h' ∧ stdout h' = stdout h ∧
  (b = true → ∃ msg, err h' = Some (PyExc_TypeError, msg)) ∧
  (b = false → err h' = err h ∨ err h' = None).
Proof.
  intros E. split; [exact (do_type_checking_keeps_cache _ _ _ _ _ _ _ E)|].
  unfold do_type_checking in E.
  apply bind_reads_inv in E as [annotations E];
    [|unfold func_annotations_of; repeat reads_step].
  destruct (bool_decide (annotations = NULL)).
  { injection E as <- <-. split; [reflexivity|]. split; [discriminate | auto]. }
  unfold PyMapping_Items, PyObject_GetIter in E.
  rewrite bind_run in E.
  destruct ((deref annotations ≫= _) h) as [items h1|] eqn:Ed; [|discriminate].
  apply bind_reads_inv in Ed as [dx Ed]; [|apply reads_deref].
  assert (∀ h0 : host, heap h0 = heap h → stdout h0 = stdout h → err h0 = err h →
          ∀ its, check_items NDEBUG code f its h0 = Ok b h' →
          stdout h' = stdout h ∧
          (b = true → ∃ msg, err h' = Some (PyExc_TypeError, msg)) ∧
          (b = false → err h' = err h ∨ err h' = None)) as Hloop.
  { intros h0 _ Hout Herr its Eloop.
    destruct (check_items_outcome _ _ _ _ _ _ _ Eloop) as [[-> ->]|[-> (msg & ->)]].
    - split; [exact Hout|]. split; [discriminate | auto].
    - split; [exact Hout|]. split; [eauto | discriminate]. }
  assert (∀ h0 : host, stdout h0 = stdout h →
          (PyErr_Clear ≫= λ _, mret false) h0 = Ok b h' →
          stdout h' = stdout h ∧
          (b = true → ∃ msg, err h' = Some (PyExc_TypeError, msg)) ∧
          (b = false → err h' = err h ∨ err h' = None)) as Hclear.
  { intros h0 Hout Ec. injection Ec as <- <-.
    split; [exact Hout|]. split; [discriminate | auto]. }
  destruct (ob_data dx).
  1-4, 6: injection Ed as <- <-; exact (Hclear h eq_refl E).
  rewrite bind_run, allocate_total in Ed. injection Ed as <- <-.
  destruct (hd true (allocs h)); [|exact (Hclear (allocated 1 h) eq_refl E)].
  rewrite bind_run in E. rewrite bind_run, allocate_total in E. cbv beta iota in E.
  rewrite mret_run in E.
  destruct (hd true (allocs (allocated 1 h))).
  - exact (Hloop (allocated 1 (allocated 1 h)) eq_refl eq_refl eq_refl _ E).
  - exact (Hclear (allocated 1 (allocated 1 h)) eq_refl E).
Qed.

Lemma checker_rejects_with_type_error_witness :
  same_cache h_cached (state_after (do_type_checking false 1100 1000 frame_int_int) h_cached) ∧
  stdout (state_after (do_type_checking false 1100 1000 frame_int_int) h_cached)
    = stdout h_cached ∧
  (true = true →
   ∃ msg, err (state_after (do_type_checking false 1100 1000 frame_int_int) h_cached)
          = Some (PyExc_TypeError, msg)) ∧
  (true = false →
   err (state_after (do_type_checking false 1100 1000 frame_int_int) h_cached) = err h_cached ∨
   err (state_after (do_type_checking false 1100 1000 frame_int_int) h_cached) = None).
Proof.
  apply (checker_rejects_with_type_error false 1100 1000 frame_int_int h_cached true
           (state_after (do_type_checking false 1100 1000 frame_int_int) h_cached)).
  by vm_compute.
Defined.

(** ** The lookup of the builtin *)

Lemma Py_INCREF_effect o h u h1 :
  Py_INCREF o h = Ok u h1 → ∃ x, h1 = set_heap (<[o := acquired x]>) h.
Proof.
  unfold Py_INCREF. intros E. rewrite bind_run in E.
  destruct (deref o h) as [x h0|] eqn:Ed; [|discriminate].
  apply deref_state in Ed as ->. injection E as _ <-. exists x. reflexivity.
Qed.

Lemma scan_referrers_effect referrers : ∀ h func h1,
  scan_referrers referrers h = Ok func h1 →
  h1 = h ∨ ∃ x, h1 = set_heap (<[func := acquired x]>) h.
Proof.
  induction referrers as [|r rest IH]; intros h func h1 E; cbn [scan_referrers] in E.
  - injection E as _ <-. left. reflexivity.
  - unfold PyFunction_Check in E.
    apply bind_reads_inv in E as [is_function E]; [|apply reads_Py_IS_TYPE].
    destruct is_function; [|exact (IH _ _ _ E)].
    rewrite bind_run in E. destruct (Py_INCREF r h) as [u h2|] eqn:Ei; [|discriminate].
    apply Py_INCREF_effect in Ei as [x ->]. injection E as <- <-. right. eauto.
Qed.

Lemma crashes_undefined_ret {A} (a : A) : crashes_undefined (mret a : M A).
Proof. intros h fl E. discriminate. Qed.

Lemma crashes_undefined_bind {A B} (m : M A) (k : A → M B) :
  crashes_undefined m → (∀ a, crashes_undefined (k a)) → crashes_undefined (m ≫= k).
Proof.
  intros Hm Hk h fl E. rewrite bind_run in E.
  destruct (m h) as [a h1|fl'] eqn:E1.
  - exact (Hk _ _ _ E).
  - injection E as <-. exact (Hm _ _ E1).
Qed.

Lemma crashes_undefined_deref o : crashes_undefined (deref o).
Proof.
  intros h fl E. unfold deref in E. destruct (bool_decide _).
  - injection E as <-. eauto.
  - destruct (heap h !! o); [discriminate|]. injection E as <-. eauto.
Qed.

Lemma crashes_undefined_modify g : crashes_undefined (modify g).
Proof. intros h fl E. discriminate. Qed.

Lemma crashes_undefined_Py_IS_TYPE o t : crashes_undefined (Py_IS_TYPE o t).
Proof.
  unfold Py_IS_TYPE, Py_TYPE.
  repeat first [ apply crashes_undefined_ret | apply crashes_undefined_deref
               | apply crashes_undefined_bind; [|intros ?] ].
Qed.

Lemma crashes_undefined_scan_referrers referrers : crashes_undefined (scan_referrers referrers).
Proof.
  induction referrers as [|r rest IH]; cbn [scan_referrers].
  - apply crashes_undefined_ret.
  - apply crashes_undefined_bind; [apply crashes_undefined_Py_IS_TYPE|].
    intros [|]; [|exact IH]. unfold Py_INCREF, store.
    repeat first [ apply crashes_undefined_ret | apply crashes_undefined_deref
                 | apply crashes_undefined_modify
                 | apply crashes_undefined_bind; [|intros ?] ].
Qed.

(** X13. The builtin is looked for until it is found, and then no more:
    whenever the resolver returns, the static variable holds the builtin,
    and no later call of the resolver in that state can complain and
    abort, whatever has become of the [gc] module. *)
Theorem builtin_is_looked_up_once code h func h1 :
  get_function_for_code code h = Ok func h1 →
  gc_get_referrers h1 = true ∧
  ∀ code' out, get_function_for_code code' h1 ≠ Crash (Aborted out).
Proof.
  intros E.
  assert (gc_get_referrers h1 = true) as Hstatic.
  { unfold get_function_for_code in E.
    rewrite (bind_ok _ _ _ _ _ (modify_run (log_resolver_call code) h)) in E.
    rewrite (bind_ok _ _ _ _ _ (get_run (log_resolver_call code h))) in E.
    rewrite bind_run in E.
    assert (referrers_available (log_resolver_call code h)) as Hav.
    { unfold referrers_available.
      destruct (gc_get_referrers (log_resolver_call code h)); [left; reflexivity|].
      destruct (gc_module (log_resolver_call code h)); try discriminate.
      right. reflexivity. }
    rewrite (find_builtin _ Hav) in E. unfold PyTuple_Pack1 in E.
    rewrite bind_run, allocate_total in E.
    destruct (hd true _); cbn [negb] in E.
    - unfold call_gc_get_referrers in E.
      rewrite bind_run, (bind_ok _ _ _ _ _ (get_run _)), mret_run in E.
      destruct (get_referrers _ code) as [referrers|].
      + apply scan_referrers_effect in E as [->|[x ->]]; reflexivity.
      + injection E as _ <-. reflexivity.
    - injection E as _ <-. reflexivity. }
  split; [exact Hstatic|].
  intros code' out E'. unfold get_function_for_code in E'.
  rewrite (bind_ok _ _ _ _ _ (modify_run (log_resolver_call code') h1)) in E'.
  rewrite (bind_ok _ _ _ _ _ (get_run (log_resolver_call code' h1))) in E'.
  rewrite (bind_ok _ _ _ _ _ (find_builtin (log_resolver_call code' h1) (or_introl Hstatic)))
    in E'.
  unfold PyTuple_Pack1 in E'. rewrite bind_run, allocate_total in E'.
  destruct (hd true _); cbn [negb] in E'; [|discriminate].
  unfold call_gc_get_referrers in E'.
  rewrite bind_run, (bind_ok _ _ _ _ _ (get_run _)), mret_run in E'.
  destruct (get_referrers _ code') as [referrers|]; [|discriminate].
  apply crashes_undefined_scan_referrers in E' as [why E']. discriminate.
Qed.

Lemma builtin_is_looked_up_once_witness :
  gc_get_referrers (state_after (get_function_for_code 1000) h_enabled) = true ∧
  ∀ code' out,
    get_function_for_code code' (state_after (get_function_for_code 1000) h_enabled)
      ≠ Crash (Aborted out).
Proof.
  apply (builtin_is_looked_up_once 1000 h_enabled 1100
           (state_after (get_function_for_code 1000) h_enabled)).
  by vm_compute.
Defined.

(** ** Interception and the hooks *)

Lemma keeps_hooks_ret {A} (a : A) : keeps_hooks (mret a : M A).
Proof. intros h a' h' E. injection E as _ <-. auto. Qed.

Lemma keeps_hooks_crash {A} (f : fault) : keeps_hooks (crash f : M A).
Proof. intros h a h' E. discriminate. Qed.

Lemma keeps_hooks_abort {A} : keeps_hooks (abort : M A).
Proof. intros h a h' E. discriminate. Qed.

Lemma keeps_hooks_get : keeps_hooks get.
Proof. intros h a h' E. injection E as _ <-. auto. Qed.

Lemma keeps_hooks_reads {A} (m : M A) : reads m → keeps_hooks m.
Proof. intros Hm h a h' E. apply Hm in E as ->. auto. Qed.

Lemma keeps_hooks_bind {A B} (m : M A) (k : A → M B) :
  keeps_hooks m → (∀ a, keeps_hooks (k a)) → keeps_hooks (m ≫= k).
Proof.
  intros Hm Hk h b h' E. rewrite bind_run in E.
  destruct (m h) as [a h1|] eqn:E1; [|discriminate].
  destruct (Hm _ _ _ E1) as (H1 & H2 & H3). destruct (Hk _ _ _ _ E) as (K1 & K2 & K3).
  repeat split; congruence.
Qed.

Lemma keeps_hooks_modify (g : host → host) :
  (∀ h, this_interp (g h) = this_interp h ∧ other_interps (g h) = other_interps h ∧
        extra_idx (g h) = extra_idx h) →
  keeps_hooks (modify g).
Proof. intros Hg h a h' E. injection E as _ <-. apply Hg. Qed.

Lemma keeps_hooks_allocate : keeps_hooks allocate.
Proof. intros h b h' E. rewrite allocate_total in E. injection E as _ <-. auto. Qed.

Ltac keeps_hooks_step :=
  first
    [ apply keeps_hooks_ret | apply keeps_hooks_crash | apply keeps_hooks_abort
    | apply keeps_hooks_get | apply keeps_hooks_allocate
    | apply keeps_hooks_reads; apply reads_deref
    | apply keeps_hooks_modify; intros ?; auto
    | apply keeps_hooks_bind; [|intros ?]
    | match goal with
      | |- keeps_hooks (match ?x with _ => _ end) => destruct x
      | |- keeps_hooks (if ?x then _ else _) => destruct x
      end ].

Lemma keeps_hooks_scan_referrers referrers : keeps_hooks (scan_referrers referrers).
Proof.
  induction referrers as [|r rest IH]; cbn [scan_referrers].
  - apply keeps_hooks_ret.
  - unfold PyFunction_Check, Py_IS_TYPE, Py_TYPE, Py_INCREF, store.
    repeat keeps_hooks_step. exact IH.
Qed.

Lemma keeps_hooks_get_function_for_code code : keeps_hooks (get_function_for_code code).
Proof.
  unfold get_function_for_code, PyTuple_Pack1, call_gc_get_referrers, PyErr_Clear, printf.
  repeat first [ apply keeps_hooks_scan_referrers | keeps_hooks_step ].
Qed.

Lemma keeps_hooks_cached_function f : keeps_hooks (cached_function f).
Proof.
  unfold cached_function, _PyCode_GetExtra, _PyCode_SetExtra, PyCode_Check, Py_IS_TYPE,
    Py_TYPE, PyErr_BadInternalCall, PyErr_Format, co_extra_of, set_co_extra, store,
    call_freefunc, prac_code_freefunc, Py_DECREF, store.
  repeat first [ apply keeps_hooks_get_function_for_code | keeps_hooks_step ].
Qed.

(** X14. An intercepted call leaves the hook of every interpreter, the
    registered code extra users and the module's slot index as they are,
    as long as evaluating the frame does: looking up the cache, resolving
    and checking never install or remove a hook and never reserve or move
    a slot. *)
Theorem interception_keeps_hooks NDEBUG eval_default tstate f exc :
  keeps_hooks (eval_default tstate f exc) →
  keeps_hooks (prac_eval_frame NDEBUG eval_default tstate f exc).
Proof.
  intros Hdef. unfold prac_eval_frame.
  apply keeps_hooks_bind; [apply keeps_hooks_cached_function|].
  intros [func|]; [|exact Hdef].
  apply keeps_hooks_bind; [|intros [|]; [apply keeps_hooks_ret | exact Hdef]].
  intros h b h' E.
  destruct (do_type_checking_keeps_cache _ _ _ _ _ _ _ E). auto.
Qed.

Lemma interception_keeps_hooks_witness :
  keeps_hooks (prac_eval_frame false body 0 frame_int_int 0).
Proof.
  apply (interception_keeps_hooks false body 0 frame_int_int 0).
  intros h a h' E. injection E as _ <-. auto.
Defined.

(** ** A slot index the interpreter does not know *)

Lemma _PyCode_SetExtra_refused h code x names extras index value :
  is_code_object (heap h) code x names extras →
  Z.of_nat (length (co_extra_freefuncs (this_interp h))) ≤ index →
  _PyCode_SetExtra code index value h =
    Ok (-1) (set_err (Some (PyExc_SystemError, "bad argument to internal function")) h).
Proof.
  intros Hc Hi. unfold _PyCode_SetExtra.
  run (PyCode_Check_code _ _ _ _ _ Hc). run (get_run h). cbn [negb orb].
  rewrite (bool_decide_eq_true_2 (_ ≤ index)) by exact Hi.
  rewrite orb_true_r. reflexivity.
Qed.

(** X15. The status of [_PyCode_SetExtra] is not looked at (line 163).
    When the interpreter refuses the module's slot index (the index was
    handed out by another interpreter than the running one), the first
    function among the referrers is resolved, given a reference and
    checked against, but not cached: the slot is still unset after the
    call, so that the next call resolves again and the reference is never
    given back. *)
Theorem refused_slot_is_resolved_again f h x names extras pre fn post y :
  is_code_object (heap h) (f_code f) x names extras →
  Z.of_nat (length (co_extra_freefuncs (this_interp h))) ≤ extra_idx h →
  code_slot (heap h) (f_code f) (extra_idx h) = Some NULL →
  referrers_available h → allocations_succeed 1 h →
  get_referrers h (f_code f) = Some (pre ++ fn :: post) →
  Forall (is_no_function (heap h)) pre → is_function (heap h) fn y →
  ∃ h', cached_function f h = Ok (Some fn) h' ∧
        cache_of h' (f_code f) = Some Unset ∧
        heap h' !! fn = Some (acquired y) ∧
        heap h' !! f_code f = Some x ∧
        resolver_calls h' = f_code f :: resolver_calls h.
Proof.
  intros Hc Hi Hslot Hgc Ha Hrefs Hpre Hfn.
  pose proof Hslot as Hslot0.
  rewrite (code_slot_code _ _ _ _ _ _ Hc) in Hslot. injection Hslot as Hslot.
  pose proof Hfn as [[Hnn Ly] Ty].
  assert (get_function_for_code (f_code f) h =
            Ok fn (set_heap (<[fn := acquired y]>) (scanning (f_code f) h))) as Hres.
  { rewrite (get_function_for_code_scans h (f_code f) _ Hgc Ha Hrefs).
    apply (scan_referrers_found (scanning (f_code f) h)); assumption. }
  pose proof (function_is_no_code _ _ _ _ _ _ _ Hc Hfn) as Hne.
  set (h1 := set_heap (<[fn := acquired y]>) (scanning (f_code f) h)) in *.
  assert (is_code_object (heap h1) (f_code f) x names extras) as Hc1
    by (apply (is_code_object_acquired (heap h)); assumption).
  assert (0 ≤ extra_idx h) as Hpos by lia.
  exists (set_err (Some (PyExc_SystemError, "bad argument to internal function")) h1).
  split; [|split; [|split; [|split]]].
  - unfold cached_function. run (get_run h).
    run (_PyCode_GetExtra_code _ _ _ _ _ _ Hc Hpos). cbn [fst snd].
    rewrite bool_decide_eq_false_2 by (intros Hn; apply Hn; reflexivity).
    rewrite (bool_decide_eq_true_2 _ Hslot).
    run Hres.
    run (_PyCode_SetExtra_refused h1 (f_code f) x names extras (extra_idx h)
           (if bool_decide (fn ≠ NULL) then fn else SENTINEL) Hc1 Hi).
    rewrite (bool_decide_eq_false_2 _ Hnn). reflexivity.
  - unfold cache_of. cbn. rewrite (code_slot_acquired _ _ _ _ _ Ly), Hslot0. reflexivity.
  - cbn. apply lookup_insert_eq.
  - cbn. rewrite lookup_insert_ne by exact Hne. apply Hc.
  - reflexivity.
Qed.

Lemma refused_slot_is_resolved_again_witness :
  ∃ h', cached_function frame_int_str h_second_interp = Ok (Some 1100) h' ∧
        cache_of h' (f_code frame_int_str) = Some Unset ∧
        heap h' !! 1100 = Some (acquired (Object 1 PyFunction_Type (FunctionData 1000 1200))) ∧
        heap h' !! f_code frame_int_str = Some (Object 2 PyCode_Type (CodeData ["x"; "y"] [])) ∧
        resolver_calls h' = f_code frame_int_str :: resolver_calls h_second_interp.
Proof.
  apply (refused_slot_is_resolved_again frame_int_str h_second_interp
           (Object 2 PyCode_Type (CodeData ["x"; "y"] [])) ["x"; "y"] [] [] 1100 []).
  - by vm_compute.
  - by vm_compute.
  - by vm_compute.
  - right. reflexivity.
  - by constructor.
  - reflexivity.
  - by apply Forall_nil.
  - by vm_compute.
Defined.

(** Two calls in the second interpreter: two resolutions, two references
    more on the function, and the slot still unset. *)
Example refused_slot_leaks :
  resolver_calls
    (state_after (cached_function frame_int_str;; cached_function frame_int_str)
       h_second_interp) = [1000; 1000] ∧
  ob_refcnt <$> heap h_second_interp !! 1100 = Some 1 ∧
  ob_refcnt <$>
    heap (state_after (cached_function frame_int_str;; cached_function frame_int_str)
            h_second_interp) !! 1100 = Some 3 ∧
  cache_of (state_after (cached_function frame_int_str;; cached_function frame_int_str)
              h_second_interp) 1000 = Some Unset.
Proof. repeat split; by vm_compute. Qed.

(** ** From enabling to intercepting *)

(** X16. Enabling is what interception needs: in a process in which the
    builtin is at hand and returns live objects, the units are code
    objects with no code extra beyond the registered users, and nothing
    lives at [SENTINEL], a [prac.enable()] with a free index and default
    hooks (or compiled without assertions) succeeds and leaves a process
    in which calls of the units can be intercepted, each with its cache
    unset. *)
Theorem enable_starts_intercepting NDEBUG units h :
  Z.of_nat (length (co_extra_freefuncs (this_interp h))) ≠ MAX_CO_EXTRA_USERS - 1 →
  NDEBUG = true ∨ hooks_default h →
  referrers_available h → referrers_live h → heap h !! SENTINEL = None →
  (∀ c, c ∈ units → ∃ x names extras,
     is_code_object (heap h) c x names extras ∧
     (length extras ≤ length (co_extra_freefuncs (this_interp h)))%nat) →
  prac_enable NDEBUG h = Ok Py_None (enabled h) ∧
  intercepting units (enabled h) ∧
  ∀ c, c ∈ units → cache_of (enabled h) c = Some Unset.
Proof.
  intros Hfree Hhooks Hav Hlive Hsent Hunits.
  split; [apply prac_enable_succeeds; assumption|]. split.
  - split.
    + unfold slot_reserved. cbn. rewrite length_app. cbn. lia.
    + exact Hav.
    + exact Hlive.
    + intros c Hc. destruct (Hunits c Hc) as (x & names & extras & Hco & _). eauto.
    + exact Hsent.
  - intros c Hc. destruct (Hunits c Hc) as (x & names & extras & Hco & Hlen).
    assert (is_code_object (heap (enabled h)) c x names extras) as Hco' by exact Hco.
    rewrite (cache_of_code (enabled h) c x names extras Hco'). cbv zeta.
    change (extra_idx (enabled h))
      with (Z.of_nat (length (co_extra_freefuncs (this_interp h)))).
    rewrite Nat2Z.id, (lookup_ge_None_2 extras _ Hlen). reflexivity.
Qed.

Lemma enable_starts_intercepting_witness :
  prac_enable false h0 = Ok Py_None (enabled h0) ∧
  intercepting [1000] (enabled h0) ∧
  ∀ c, c ∈ [1000] → cache_of (enabled h0) c = Some Unset.
Proof.
  apply (enable_starts_intercepting false [1000] h0).
  - by vm_compute.
  - right. apply Forall_cons. split; [reflexivity | by apply Forall_nil].
  - right. reflexivity.
  - intros c refs Hrefs. vm_compute in Hrefs. injection Hrefs as <-.
    apply Forall_cons. split; [|by apply Forall_nil].
    split; [by vm_compute | vm_compute; eauto].
  - by vm_compute.
  - intros c Hc. apply list_elem_of_singleton in Hc as ->.
    exists (Object 2 PyCode_Type (CodeData ["x"; "y"] [])), ["x"; "y"], [].
    split; [by vm_compute | cbn; lia].
Defined.

(** * The call as a whole *)

(** ** What a resolution does to the process *)

Lemma deref_inv o h x h' : deref o h = Ok x h' → h' = h ∧ live (heap h) o x.
Proof.
  unfold deref. case_bool_decide as Hnull; [discriminate|].
  destruct (heap h !! o) as [y|] eqn:Hy; [|discriminate].
  intros E. injection E as <- <-. split; [reflexivity|]. split; assumption.
Qed.

Lemma Py_IS_TYPE_inv o t h b h' :
  Py_IS_TYPE o t h = Ok b h' →
  h' = h ∧ ∃ x, live (heap h) o x ∧ b = bool_decide (ob_type x = t).
Proof.
  unfold Py_IS_TYPE, Py_TYPE. rewrite !bind_run.
  destruct (deref o h) as [x h0|] eqn:Ed; [|discriminate].
  apply deref_inv in Ed as [-> L]. intros E. injection E as <- <-. eauto.
Qed.

(** The loop over the referrers returns [NULL] and has done nothing, or
    returns a function object of the list and has taken one reference on
    it. *)
Lemma scan_referrers_inv referrers : ∀ h func h1,
  scan_referrers referrers h = Ok func h1 →
  (func = NULL ∧ h1 = h) ∨
  (∃ x, is_function (heap h) func x ∧ func ∈ referrers ∧
        h1 = set_heap (<[func := acquired x]>) h).
Proof.
  induction referrers as [|r rest IH]; intros h func h1 E; cbn [scan_referrers] in E.
  - injection E as <- <-. left. split; reflexivity.
  - unfold PyFunction_Check in E. rewrite bind_run in E.
    destruct (Py_IS_TYPE r PyFunction_Type h) as [b h0|] eqn:Et; [|discriminate].
    apply Py_IS_TYPE_inv in Et as (-> & x & L & ->).
    case_bool_decide as Hfn.
    + rewrite (bind_ok _ _ _ _ _ (Py_INCREF_live h r x L)) in E. injection E as <- <-.
      right. exists x. split; [split; assumption|]. split; [left|reflexivity].
    + destruct (IH _ _ _ E) as [Hnone|(y & Hy & Hin & ->)]; [left; exact Hnone|].
      right. exists y. split; [exact Hy|]. split; [right; exact Hin|reflexivity].
Qed.

(** Whenever the resolver returns: the call was logged and the builtin
    remembered; the function returned, if any, has one reference more and
    nothing else changed but the allocation script; and the error
    indicator is the caller's, or was cleared on the way to a [NULL]. *)
Lemma get_function_for_code_inv code h func h1 :
  get_function_for_code code h = Ok func h1 →
  resolved code h func h1 ∧ stdout h1 = stdout h ∧ other_interps h1 = other_interps h ∧
  (err h1 = err h ∨ (func = NULL ∧ err h1 = None)) ∧
  (func = NULL ∨ ∃ referrers, get_referrers h code = Some referrers ∧ func ∈ referrers).
Proof.
  intros E. unfold get_function_for_code in E.
  rewrite (bind_ok _ _ _ _ _ (modify_run (log_resolver_call code) h)) in E.
  rewrite (bind_ok _ _ _ _ _ (get_run (log_resolver_call code h))) in E.
  rewrite bind_run in E.
  assert (referrers_available (log_resolver_call code h)) as Hav.
  { unfold referrers_available.
    destruct (gc_get_referrers (log_resolver_call code h)); [left; reflexivity|].
    destruct (gc_module (log_resolver_call code h)); try discriminate.
    right. reflexivity. }
  rewrite (find_builtin _ Hav) in E. unfold PyTuple_Pack1 in E.
  rewrite bind_run, allocate_total in E.
  destruct (hd true _); cbn [negb] in E.
  - unfold call_gc_get_referrers in E.
    rewrite bind_run, (bind_ok _ _ _ _ _ (get_run _)), mret_run in E.
    change (get_referrers (allocated 1 (set_gc_get_referrers true (log_resolver_call code h)))
              code) with (get_referrers h code) in E.
    destruct (get_referrers h code) as [referrers|].
    + apply scan_referrers_inv in E as [[-> ->]|(x & Hfn & Hin & ->)].
      * split; [split; try reflexivity; left; split; reflexivity|].
        split; [reflexivity|]. split; [reflexivity|]. split; left; reflexivity.
      * split; [split; try reflexivity; right; exists x; split; [exact Hfn|reflexivity]|].
        split; [reflexivity|]. split; [reflexivity|]. split; [left; reflexivity|].
        right. exists referrers. split; [reflexivity|exact Hin].
    + injection E as <- <-.
      split; [split; try reflexivity; left; split; reflexivity|].
      split; [reflexivity|]. split; [reflexivity|].
      split; [right; split; reflexivity|left; reflexivity].
  - injection E as <- <-.
    split; [split; try reflexivity; left; split; reflexivity|].
    split; [reflexivity|]. split; [reflexivity|].
    split; [right; split; reflexivity|left; reflexivity].
Qed.


(** The code object of a frame is still one after a resolution. *)
Lemma is_code_object_resolved code h func h1 x names extras :
  resolved code h func h1 → is_code_object (heap h) code x names extras →
  is_code_object (heap h1) code x names extras.
Proof.
  intros Hres Hc. destruct (res_heap _ _ _ _ Hres) as [[_ ->]|(y & Hfn & ->)]; [exact Hc|].
  apply is_code_object_acquired with (y := y); assumption.
Qed.



(** ** Functions without contracts, from the caller's state *)




(** ** Calls that pass, from the caller's state *)



(** ** The resolver, whatever becomes of the query *)

Lemma get_function_for_code_fails h code :
  referrers_available h →
  hd true (allocs h) = false ∨ get_referrers h code = None →
  get_function_for_code code h = Ok NULL (set_err None (scanning code h)).
Proof.
  intros Hgc Hfail. unfold get_function_for_code, scanning.
  run (modify_run (log_resolver_call code) h).
  run (get_run (log_resolver_call code h)).
  run (find_builtin (log_resolver_call code h) Hgc).
  unfold PyTuple_Pack1.
  run (allocate_total (set_gc_get_referrers true (log_resolver_call code h))).
  change (allocs (set_gc_get_referrers true (log_resolver_call code h))) with (allocs h).
  destruct (hd true (allocs h)) eqn:Hb; cbn [negb]; [|reflexivity].
  destruct Hfail as [Hfail|Hnone]; [discriminate|].
  unfold call_gc_get_referrers.
  rewrite bind_run, (bind_ok _ _ _ _ _ (get_run _)).
  rewrite mret_run. cbv beta iota.
  change (get_referrers (allocated 1 (set_gc_get_referrers true (log_resolver_call code h))) code)
    with (get_referrers h code).
  rewrite Hnone. reflexivity.
Qed.

(** C5. When [gc.get_referrers] is at hand, the resolver returns a
    function object that is among the referrers of the code object, or
    [NULL], and nothing else, so never a referrer that is no function.
    When the query returns the list of the referrers, it returns the first
    element of the list that is a function object, with one reference more
    on it, and [NULL] if no element is one.  When the query fails (no
    memory for the tuple, or the builtin returns [NULL]) it clears the
    error and returns [NULL] as well: the caller cannot tell the two
    apart.  Whichever way the [NULL] came, the call through which this
    happened, in a process whose slot index is one the running interpreter
    handed out, stores [SENTINEL] in the slot of the code object and goes
    to the default evaluation, and so does, without resolving, every later
    call in that state. *)
Theorem resolver_returns_first_function h code :
  referrers_available h →
  (∀ func h1, get_function_for_code code h = Ok func h1 →
     func = NULL ∨
     ∃ referrers x, get_referrers h code = Some referrers ∧ func ∈ referrers ∧
                    is_function (heap h) func x) ∧
  (∀ referrers, allocations_succeed 1 h → get_referrers h code = Some referrers →
     (∀ pre fn post x,
        referrers = pre ++ fn :: post →
        Forall (is_no_function (heap h)) pre → is_function (heap h) fn x →
        get_function_for_code code h =
          Ok fn (set_heap (<[fn := acquired x]>) (scanning code h))) ∧
     (Forall (is_no_function (heap h)) referrers →
        get_function_for_code code h = Ok NULL (scanning code h))) ∧
  (hd true (allocs h) = false ∨ get_referrers h code = None →
     get_function_for_code code h = Ok NULL (set_err None (scanning code h))) ∧
  (∀ h1 f x names extras,
     get_function_for_code code h = Ok NULL h1 →
     f_code f = code → is_code_object (heap h) code x names extras →
     slot_reserved h → code_slot (heap h) code (extra_idx h) = Some NULL →
     ∃ h', cached_function f h = Ok None h' ∧
           cache_of h' code = Some Negative ∧
           cached_function f h' = Ok None h').
Proof.
  intros Hgc. split; [|split; [|split]].
  - intros func h1 E.
    destruct (get_function_for_code_inv _ _ _ _ E) as (Hr & _ & _ & _ & Horigin).
    destruct Horigin as [Hnull|(referrers & Hrefs & Hin)]; [left; exact Hnull|].
    destruct (res_heap _ _ _ _ Hr) as [[Hnull _]|(x & Hfn & _)]; [left; exact Hnull|].
    right. exists referrers, x. auto.
  - intros referrers Ha Hrefs. split.
    + intros pre fn post x -> Hpre Hfn.
      rewrite (get_function_for_code_scans h code _ Hgc Ha Hrefs).
      apply (scan_referrers_found (scanning code h)); assumption.
    + intros Hnone. rewrite (get_function_for_code_scans h code _ Hgc Ha Hrefs).
      apply (scan_referrers_none (scanning code h)). exact Hnone.
  - apply get_function_for_code_fails. exact Hgc.
  - intros h1 f x names extras Hres Hf Hc Hi Hslot. subst code.
    rewrite (code_slot_code _ _ _ _ _ _ Hc) in Hslot. injection Hslot as Hslot.
    destruct (get_function_for_code_inv _ _ _ _ Hres) as (Hr & _).
    pose proof (is_code_object_resolved _ _ _ _ x names extras Hr Hc) as Hc1.
    pose proof (cached_function_miss f h x names extras NULL h1
                  Hc Hi Hslot Hres Hc1 (res_interp _ _ _ _ Hr)) as Hmiss.
    rewrite bool_decide_eq_true_2 in Hmiss by reflexivity.
    rewrite bool_decide_eq_false_2 in Hmiss by (intros Hne; apply Hne; reflexivity).
    eexists. split; [exact Hmiss|].
    set (count := length (co_extra_freefuncs (this_interp h))) in *.
    pose proof (is_code_object_with_extra (heap h1) (f_code f) x names extras
                  count (extra_idx h) SENTINEL Hc1) as Hc'.
    assert (default NULL
              (<[Z.to_nat (extra_idx h) := SENTINEL]>
                 (ce_extras_grown count (extra_idx h) extras) !! Z.to_nat (extra_idx h))
            = SENTINEL) as Hread.
    { rewrite list_lookup_insert_eq; [reflexivity|].
      apply ce_extras_grown_length. exact Hi. }
    split.
    + unfold cache_of. cbn. rewrite (res_idx _ _ _ _ Hr).
      rewrite (code_slot_code _ _ _ _ _ _ Hc'), Hread. reflexivity.
    + match goal with |- cached_function f ?h' = _ =>
        rewrite (cached_function_hit f h' _ names _ Hc')
      end.
      * cbn. rewrite (res_idx _ _ _ _ Hr), Hread. reflexivity.
      * cbn. rewrite (res_idx _ _ _ _ Hr). exact (proj1 Hi).
      * cbn. rewrite (res_idx _ _ _ _ Hr), Hread. discriminate.
Qed.

Lemma resolver_returns_first_function_witness :
  get_function_for_code 1000 h_two_referrers =
    Ok 1100 (set_heap (<[1100 := acquired (Object 1 PyFunction_Type (FunctionData 1000 1200))]>)
               (scanning 1000 h_two_referrers)) ∧
  (hd true (allocs h_two_referrers) = false ∨ get_referrers h_two_referrers 1000 = None →
   get_function_for_code 1000 h_two_referrers =
     Ok NULL (set_err None (scanning 1000 h_two_referrers))).
Proof.
  destruct (resolver_returns_first_function h_two_referrers 1000) as (_ & Hlist & Hfail & _).
  - right. reflexivity.
  - split; [|exact Hfail].
    destruct (Hlist [1200; 1100] ltac:(by constructor) eq_refl) as [Hfound _].
    apply (Hfound [1200] 1100 []).
    + reflexivity.
    + apply Forall_cons. split; [|by apply Forall_nil].
      exists (Object 1 PyDict_Type (DictData [(1300, int_type); (1310, PyUnicode_Type)])).
      by vm_compute.
    + by vm_compute.
Defined.

(** The [NULL] of the resolver does not say that no function refers to
    the code object.  With a dict for only referrer, and with the function
    for referrer when the builtin fails or there is no memory for the
    tuple, the resolver returns the same [NULL] with no error set, and the
    call stores the same [SENTINEL]: the unit whose function was there to
    be found is never checked again. *)
Lemma failed_query_is_not_told_apart :
  get_referrers h_no_function 1000 = Some [1200] ∧
  get_referrers Cases.h_no_tuple 1000 = Some [1100] ∧
  is_function (heap Cases.h_no_tuple) 1100 (Object 1 PyFunction_Type (FunctionData 1000 1200)) ∧
  (∃ h1, get_function_for_code 1000 h_no_function = Ok NULL h1 ∧ err h1 = None) ∧
  (∃ h1, get_function_for_code 1000 h_query_fails = Ok NULL h1 ∧ err h1 = None) ∧
  (∃ h1, get_function_for_code 1000 Cases.h_no_tuple = Ok NULL h1 ∧ err h1 = None) ∧
  cache_of (state_after (cached_function frame_int_str) h_no_function) 1000 = Some Negative ∧
  cache_of (state_after (cached_function frame_int_str) h_query_fails) 1000 = Some Negative ∧
  cache_of (state_after (cached_function frame_int_str) Cases.h_no_tuple) 1000 = Some Negative.
Proof.
  split; [reflexivity|]. split; [reflexivity|]. split; [by vm_compute|].
  split; [eexists; split; by vm_compute|]. split; [eexists; split; by vm_compute|].
  split; [eexists; split; by vm_compute|]. repeat split; by vm_compute.
Qed.

(** ** References that are never given back *)

(** C9. Two calls of [f] and the destruction of its code object in a second
    interpreter, which [prac.enable()] hooked but in which the module's
    slot index was never reserved: each call takes a reference on the
    function (lines 83-84) which the write of line 163 fails to store; the
    cache is still unset when the code object dies, so that the callback
    has nothing to release, whichever interpreter destroys the code
    object, and the function is left with two references nobody owns. *)
Lemma refused_slot_references_never_released :
  ob_refcnt <$> heap h_second_interp !! 1100 = Some 1 ∧
  ∃ h1 h2,
    prac_eval_frame false body 0 frame_int_str 0 h_second_interp = Ok 2000 h1 ∧
    cache_of h1 1000 = Some Unset ∧
    ob_refcnt <$> heap h1 !! 1100 = Some 2 ∧
    prac_eval_frame false body 0 frame_int_str 0 h1 = Ok 2000 h2 ∧
    cache_of h2 1000 = Some Unset ∧
    ob_refcnt <$> heap h2 !! 1100 = Some 3 ∧
    (∃ h3, code_dealloc 1000 h2 = Ok tt h3 ∧ heap h3 !! 1000 = None ∧
           ob_refcnt <$> heap h3 !! 1100 = Some 3) ∧
    (∃ h3, code_dealloc 1000 (set_interps (this_interp h_enabled) [] h2) = Ok tt h3 ∧
           co_extra_freefuncs (this_interp h_enabled) = [PracCodeFreefunc] ∧
           heap h3 !! 1000 = None ∧ ob_refcnt <$> heap h3 !! 1100 = Some 3).
Proof.
  split; [by vm_compute|]. eexists _, _.
  split; [by vm_compute|]. split; [by vm_compute|]. split; [by vm_compute|].
  split; [by vm_compute|]. split; [by vm_compute|]. split; [by vm_compute|].
  split; eexists; repeat split; by vm_compute.
Qed.
